(** * rtl-sdr: a shallow embedding of [src/rtl-sdr.c]

    The driver talks to three outside parties: libusb (control transfers,
    device enumeration, asynchronous transfers), the tuner chip drivers
    ([e4000_*], [FC0012_*], [FC0013_*], [fc2580_*]) and the user callback of
    the streaming loop.  Every call to one of them is recorded, in program
    order, in a trace; what they answer is read from an environment that may
    depend on everything that happened before.  The C functions become
    functions in a small state monad over the device structure, the static
    [tuners] table and the trace; a NULL dereference and an out-of-range
    conversion from [double] are outcomes of their own.

    Integers are [Z] with the wrap-around of the C type written out. *)

From Stdlib Require Import ZArith List Bool Lia String QArith Qabs Floats Uint63.
Import ListNotations.
Open Scope Z_scope.

Set Implicit Arguments.

(* ------------------------------------------------------------------ *)
(** ** Machine integers *)

Definition u8 (x : Z) : Z := x mod 256.
Definition u16 (x : Z) : Z := x mod 65536.
Definition u32 (x : Z) : Z := x mod 4294967296.

(** Conversion of a [uint32_t] to [int] (two's complement). *)
Definition s32 (x : Z) : Z := (x + 2147483648) mod 4294967296 - 2147483648.

(** C truth value of an [int]. *)
Definition truthy (x : Z) : bool := negb (x =? 0).

(* ------------------------------------------------------------------ *)
(** ** Constants of the source *)

Definition BUF_COUNT : nat := 32.
Definition BUF_LENGTH : Z := 16 * 16384.

Definition CRYSTAL_FREQ : Z := 28800000.
Definition MAX_SAMP_RATE : Z := 3200000.

(** [enum usb_reg] *)
Definition USB_SYSCTL : Z := 0x2000.
Definition USB_CTRL : Z := 0x2010.
Definition USB_STAT : Z := 0x2014.
Definition USB_EPA_CFG : Z := 0x2144.
Definition USB_EPA_CTL : Z := 0x2148.
Definition USB_EPA_MAXPKT : Z := 0x2158.
Definition USB_EPA_MAXPKT_2 : Z := 0x215a.
Definition USB_EPA_FIFO_CFG : Z := 0x2160.

(** [enum sys_reg] *)
Definition DEMOD_CTL : Z := 0x3000.
Definition GPO : Z := 0x3001.
Definition GPI : Z := 0x3002.
Definition GPOE : Z := 0x3003.
Definition GPD : Z := 0x3004.
Definition DEMOD_CTL_1 : Z := 0x300b.

(** [enum blocks] *)
Definition DEMODB : Z := 0.
Definition USBB : Z := 1.
Definition SYSB : Z := 2.
Definition TUNB : Z := 3.
Definition ROMB : Z := 4.
Definition IRB : Z := 5.
Definition IICB : Z := 6.

(* ------------------------------------------------------------------ *)
(** ** Tuners *)

(** [enum rtlsdr_tuners]: the index of a row of the static table. *)
Inductive rtlsdr_tuners :=
| RTLSDR_TUNER_E4000
| RTLSDR_TUNER_FC0012
| RTLSDR_TUNER_FC0013
| RTLSDR_TUNER_FC2580.

Definition rtlsdr_tuners_eqb (a b : rtlsdr_tuners) : bool :=
  match a, b with
  | RTLSDR_TUNER_E4000, RTLSDR_TUNER_E4000
  | RTLSDR_TUNER_FC0012, RTLSDR_TUNER_FC0012
  | RTLSDR_TUNER_FC0013, RTLSDR_TUNER_FC0013
  | RTLSDR_TUNER_FC2580, RTLSDR_TUNER_FC2580 => true
  | _, _ => false
  end.

(** The five function pointers of [struct rtlsdr_tuner]. *)
Inductive tuner_method := m_init | m_exit | m_tune | m_set_bw | m_set_gain.

(** The data fields of [struct rtlsdr_tuner]; the function pointers of a row
    never change and are given by the row's index (see [call_tuner]). *)
Record rtlsdr_tuner_t := mk_tuner {
  freq : Z;  (* Hz *)
  corr : Z;  (* ppm *)
  gain : Z   (* dB *)
}.

(** [static rtlsdr_tuner_t tuners[]]: four rows, one per variant. *)
Record tuner_table := mk_table {
  row_e4000 : rtlsdr_tuner_t;
  row_fc0012 : rtlsdr_tuner_t;
  row_fc0013 : rtlsdr_tuner_t;
  row_fc2580 : rtlsdr_tuner_t
}.

Definition row (tb : tuner_table) (t : rtlsdr_tuners) : rtlsdr_tuner_t :=
  match t with
  | RTLSDR_TUNER_E4000 => row_e4000 tb
  | RTLSDR_TUNER_FC0012 => row_fc0012 tb
  | RTLSDR_TUNER_FC0013 => row_fc0013 tb
  | RTLSDR_TUNER_FC2580 => row_fc2580 tb
  end.

Definition set_row (tb : tuner_table) (t : rtlsdr_tuners) (r : rtlsdr_tuner_t)
  : tuner_table :=
  match t with
  | RTLSDR_TUNER_E4000 => mk_table r (row_fc0012 tb) (row_fc0013 tb) (row_fc2580 tb)
  | RTLSDR_TUNER_FC0012 => mk_table (row_e4000 tb) r (row_fc0013 tb) (row_fc2580 tb)
  | RTLSDR_TUNER_FC0013 => mk_table (row_e4000 tb) (row_fc0012 tb) r (row_fc2580 tb)
  | RTLSDR_TUNER_FC2580 => mk_table (row_e4000 tb) (row_fc0012 tb) (row_fc0013 tb) r
  end.

(** The initial contents of the table: every data field is 0. *)
Definition tuners_init : tuner_table :=
  let z := mk_tuner 0 0 0 in mk_table z z z z.

(** The entry points of the chip drivers this file calls. *)
Inductive driver_fn :=
| e4000_Initialize | e4000_SetRfFreqHz | e4000_SetBandwidthHz
| FC0012_Open | FC0012_SetFrequency
| FC0013_Open | FC0013_SetFrequency
| fc2580_Initialize | fc2580_SetRfFreqHz | fc2580_SetBandwidthMode.

(** Identification constants of the four chips; they live in the drivers'
    headers ([tuner_e4000.h] ...), which this file only includes. *)
Record tuner_ids := mk_ids {
  E4K_I2C_ADDR : Z;    E4K_CHECK_ADDR : Z;    E4K_CHECK_VAL : Z;
  FC0013_I2C_ADDR : Z; FC0013_CHECK_ADDR : Z; FC0013_CHECK_VAL : Z;
  FC2580_I2C_ADDR : Z; FC2580_CHECK_ADDR : Z; FC2580_CHECK_VAL : Z;
  FC0012_I2C_ADDR : Z; FC0012_CHECK_ADDR : Z; FC0012_CHECK_VAL : Z
}.

(* ------------------------------------------------------------------ *)
(** ** Supported devices *)

Record rtlsdr_device_t := mk_device {
  vid : Z;
  pid : Z;
  name : string
}.

Definition devices : list rtlsdr_device_t :=
  [ mk_device 0x0bda 0x2832 "Generic RTL2832U (e.g. hama nano)";
    mk_device 0x0bda 0x2838 "ezcap USB 2.0 DVB-T/DAB/FM dongle";
    mk_device 0x0ccd 0x00a9 "Terratec Cinergy T Stick Black (rev 1)";
    mk_device 0x0ccd 0x00b3 "Terratec NOXON DAB/DAB+ USB dongle (rev 1)";
    mk_device 0x0ccd 0x00e0 "Terratec NOXON DAB/DAB+ USB dongle (rev 2)";
    mk_device 0x1f4d 0xb803 "GTek T803";
    mk_device 0x1f4d 0xc803 "Lifeview LV5TDeluxe";
    mk_device 0x1b80 0xd3a4 "Twintech UT-40";
    mk_device 0x1d19 0x1101 "Dexatek DK DVB-T Dongle (Logilink VG0002A)";
    mk_device 0x1d19 0x1102 "Dexatek DK DVB-T Dongle (MSI DigiVox mini II V3.0)";
    mk_device 0x0458 0x707f "Genius TVGo DVB-T03 USB dongle (Ver. B)";
    mk_device 0x1b80 0xd393 "GIGABYTE GT-U7300";
    mk_device 0x1b80 0xd395 "Peak 102569AGPK";
    mk_device 0x1b80 0xd39d "SVEON STV20 DVB-T USB & FM" ]%string.

(** [find_known_device]: the first row with this vendor and product id. *)
Definition find_known_device (v p : Z) : option rtlsdr_device_t :=
  find (fun d => (vid d =? v) && (pid d =? p)) devices.

(* ------------------------------------------------------------------ *)
(** ** Events, device structure, world *)

(** [enum libusb_transfer_status] *)
Inductive libusb_transfer_status :=
| LIBUSB_TRANSFER_COMPLETED
| LIBUSB_TRANSFER_ERROR
| LIBUSB_TRANSFER_TIMED_OUT
| LIBUSB_TRANSFER_CANCELLED
| LIBUSB_TRANSFER_STALL
| LIBUSB_TRANSFER_NO_DEVICE
| LIBUSB_TRANSFER_OVERFLOW.

(** The fields of [struct libusb_transfer] the completion handler reads;
    [xfer_id] is the address of the descriptor, [buffer] that of its data. *)
Record libusb_transfer := mk_transfer {
  xfer_id : Z;
  status : libusb_transfer_status;
  buffer : Z;
  actual_length : Z
}.

Inductive event :=
(* libusb_control_transfer(devh, CTRL_IN, 0, wValue, wIndex, data, wLength, 0) *)
| EvControlIn (wValue wIndex wLength : Z)
(* libusb_control_transfer(devh, CTRL_OUT, 0, wValue, wIndex, data, |data|, 0) *)
| EvControlOut (wValue wIndex : Z) (data : list Z)
(* a call through one of the function pointers of dev->tuner *)
| EvTunerMethod (t : rtlsdr_tuners) (m : tuner_method) (arg : Z)
(* a call into a chip driver *)
| EvDriver (f : driver_fn) (args : list Z)
(* dev->cb(buffer, actual_length, dev->cb_ctx) *)
| EvUserCallback (fn buf len ctx : Z)
| EvSubmitTransfer (xfer : libusb_transfer)
| EvFreeTransfer (xfer : Z)
| EvFreeBuffer (buf : Z)
| EvMalloc
| EvFree
| EvLibusbInit
| EvLibusbExit
| EvGetDeviceList
| EvFreeDeviceList
| EvLibusbOpen (i : nat) (rc : Z)
| EvLibusbClose
| EvClaimInterface (rc : Z)
| EvReleaseInterface.

(** [struct rtlsdr_dev].  Pointers are addresses, 0 for NULL; [ctx] and
    [devh] only record whether they are set; [tuner] is NULL or points to a
    row of the static table. *)
Record rtlsdr_dev := mk_dev {
  ctx : bool;
  devh : bool;
  xfer : list Z;
  xfer_buf : list Z;
  cb : Z;
  cb_ctx : Z;
  run_async : Z;
  tuner : option rtlsdr_tuners;
  rate : Z  (* Hz *)
}.

(** [memset(dev, 0, sizeof(rtlsdr_dev_t))] *)
Definition dev_zero : rtlsdr_dev :=
  mk_dev false false (repeat 0 BUF_COUNT) (repeat 0 BUF_COUNT) 0 0 0 None 0.

Record world := mk_world {
  dev : rtlsdr_dev;
  tuners : tuner_table;
  trace : list event
}.

(** A [rtlsdr_dev_t *]: NULL, or the address of the structure in the world. *)
Inductive handle := NULL | PTR.

(** What the outside answers.  Each answer may depend on the whole history. *)
Record usb_env := mk_env {
  (* bytes a control read delivers, and its return code *)
  ctrl_in : list event -> Z -> Z -> Z -> Z * list Z;
  (* return code of a control write *)
  ctrl_out : list event -> Z -> Z -> list Z -> Z;
  (* return code of a chip driver's entry point *)
  driver_rc : list event -> driver_fn -> list Z -> Z;
  (* contents of a local byte the code reads without having written it *)
  stack_junk : Z;
  (* the width of [unsigned long] on the target, 32 or 64 *)
  ulong_bits : Z;
  (* idVendor and idProduct of the devices on the bus, in list order *)
  bus : list (Z * Z);
  open_rc : nat -> Z;
  claim_rc : Z;
  ids : tuner_ids
}.

(** Field updates. *)
Definition set_freq (r : rtlsdr_tuner_t) (v : Z) := mk_tuner v (corr r) (gain r).
Definition set_corr (r : rtlsdr_tuner_t) (v : Z) := mk_tuner (freq r) v (gain r).
Definition set_gain (r : rtlsdr_tuner_t) (v : Z) := mk_tuner (freq r) (corr r) v.

Definition set_ctx (d : rtlsdr_dev) (v : bool) :=
  mk_dev v (devh d) (xfer d) (xfer_buf d) (cb d) (cb_ctx d) (run_async d)
    (tuner d) (rate d).
Definition set_devh (d : rtlsdr_dev) (v : bool) :=
  mk_dev (ctx d) v (xfer d) (xfer_buf d) (cb d) (cb_ctx d) (run_async d)
    (tuner d) (rate d).
Definition set_run_async (d : rtlsdr_dev) (v : Z) :=
  mk_dev (ctx d) (devh d) (xfer d) (xfer_buf d) (cb d) (cb_ctx d) v
    (tuner d) (rate d).
Definition set_tuner (d : rtlsdr_dev) (v : option rtlsdr_tuners) :=
  mk_dev (ctx d) (devh d) (xfer d) (xfer_buf d) (cb d) (cb_ctx d)
    (run_async d) v (rate d).
Definition set_rate (d : rtlsdr_dev) (v : Z) :=
  mk_dev (ctx d) (devh d) (xfer d) (xfer_buf d) (cb d) (cb_ctx d)
    (run_async d) (tuner d) v.

(* ------------------------------------------------------------------ *)
(** ** The monad *)

Inductive fault :=
| NullDereference         (* a member access or a call through a NULL pointer *)
| UndefinedConversion.    (* a double whose integer part the target type lacks *)

Inductive outcome (A : Type) :=
| Done (a : A) (w : world)
| Fault (f : fault) (w : world).

Arguments Fault {A} f w.

Definition M (A : Type) := world -> outcome A.

Definition ret {A} (a : A) : M A := fun w => Done a w.

Definition bind {A B} (c : M A) (k : A -> M B) : M B :=
  fun w => match c w with
           | Done a w' => k a w'
           | Fault f w' => Fault f w'
           end.

Notation "x <- c ;; k" := (bind c (fun x => k))
  (at level 61, c at next level, right associativity).
Notation "c ;;; k" := (bind c (fun _ => k))
  (at level 61, right associativity).

Definition raise {A} (f : fault) : M A := fun w => Fault f w.

Definition emit (e : event) : M unit :=
  fun w => Done tt (mk_world (dev w) (tuners w) (trace w ++ [e])).

Definition get_dev : M rtlsdr_dev := fun w => Done (dev w) w.
Definition get_trace : M (list event) := fun w => Done (trace w) w.
Definition put_dev (d : rtlsdr_dev) : M unit :=
  fun w => Done tt (mk_world d (tuners w) (trace w)).
Definition get_row (t : rtlsdr_tuners) : M rtlsdr_tuner_t :=
  fun w => Done (row (tuners w) t) w.
Definition put_row (t : rtlsdr_tuners) (r : rtlsdr_tuner_t) : M unit :=
  fun w => Done tt (mk_world (dev w) (set_row (tuners w) t r) (trace w)).

(** [for] over a list, left to right. *)
Fixpoint for_each {A} (l : list A) (body : A -> M unit) : M unit :=
  match l with
  | [] => ret tt
  | x :: l' => body x ;;; for_each l' body
  end.

Definition outcome_world {A} (o : outcome A) : world :=
  match o with Done _ w => w | Fault _ w => w end.

Definition outcome_value {A} (o : outcome A) : option A :=
  match o with Done a _ => Some a | Fault _ _ => None end.

(* ------------------------------------------------------------------ *)
(** ** Conversions between [double] and the integer types

    [double] is IEEE binary64, as Rocq's primitive floats are. *)

Definition double_of_Z (z : Z) : float :=
  if z <? 0 then PrimFloat.opp (PrimFloat.of_uint63 (Uint63.of_Z (- z)))
  else PrimFloat.of_uint63 (Uint63.of_Z z).

(** The integral part of a finite [double] (the fraction is discarded);
    [None] for an infinity or a NaN. *)
Definition double_trunc (f : float) : option Z :=
  match Prim2SF f with
  | S754_zero _ => Some 0
  | S754_finite s m e =>
      let mag := if 0 <=? e then Z.pos m * 2 ^ e else Z.pos m / 2 ^ (- e) in
      Some (if s then - mag else mag)
  | S754_infinity _ | S754_nan => None
  end.

(** Conversion to [int] and to [uint32_t]: the integral part, where the
    target type has it; undefined otherwise (C11 6.3.1.4). *)
Definition int_value (q : option Z) : option Z :=
  match q with
  | Some z => if (- 2147483648 <=? z) && (z <=? 2147483647) then Some z else None
  | None => None
  end.

Definition uint32_value (q : option Z) : option Z :=
  match q with
  | Some z => if (0 <=? z) && (z <=? 4294967295) then Some z else None
  | None => None
  end.

Definition int_of_integral (q : option Z) : M Z :=
  match int_value q with
  | Some z => ret z
  | None => raise UndefinedConversion
  end.

Definition uint32_of_integral (q : option Z) : M Z :=
  match uint32_value q with
  | Some z => ret z
  | None => raise UndefinedConversion
  end.

(** [CRYSTAL_FREQ * pow(2, 22)]: 120795955200000, below 2^53 and so a
    [double] without rounding. *)
Definition crystal_2_22 : Z := CRYSTAL_FREQ * 2 ^ 22.

(** The integral part of the [double] quotient [crystal_2_22 / d], for an
    integer divisor [0 <= d < 2^32] (also exact as a [double]).  The quotient
    is rounded to nearest; as [crystal_2_22 + d < 2^53], the exact quotient
    lies at least [1/d] below the next integer, further than half a unit in
    the last place, so rounding never reaches that integer and the integral
    part of the rounded quotient is the integer quotient.  Division by 0
    gives an infinity.  [crystal_quot_double] below is the same computation
    on primitive floats; the two are compared on sample divisors. *)
Definition crystal_quot (d : Z) : option Z :=
  if d =? 0 then None else Some (crystal_2_22 / d).

Definition crystal_quot_double (d : Z) : option Z :=
  double_trunc
    (PrimFloat.div
       (PrimFloat.mul (double_of_Z CRYSTAL_FREQ) (double_of_Z (2 ^ 22)))
       (double_of_Z d)).

(** [(int) ((double) freq * (1.0 + corr / 1e6))] before the conversion. *)
Definition corrected_freq (freq corr : Z) : option Z :=
  double_trunc
    (PrimFloat.mul (double_of_Z freq)
       (PrimFloat.add 1%float
          (PrimFloat.div (double_of_Z corr) 1000000%float))).

(* ------------------------------------------------------------------ *)
(** ** Register protocol, I2C bridge, GPIO *)

Section Driver.

Variable E : usb_env.

Definition libusb_control_transfer_in (wValue wIndex wLength : Z)
  : M (Z * list Z) :=
  tr <- get_trace ;;
  emit (EvControlIn wValue wIndex wLength) ;;;
  let answer := ctrl_in E tr wValue wIndex wLength in
  ret (fst answer, firstn (Z.to_nat wLength) (snd answer)).

Definition libusb_control_transfer_out (wValue wIndex : Z) (data : list Z)
  : M Z :=
  tr <- get_trace ;;
  emit (EvControlOut wValue wIndex data) ;;;
  ret (ctrl_out E tr wValue wIndex data).

(** Byte [i] of a local buffer after a read filled its first bytes. *)
Definition local_byte (received : list Z) (i : nat) : Z :=
  u8 (nth i received (stack_junk E)).

Definition rtlsdr_read_array (block addr len : Z) : M (Z * list Z) :=
  let index := u16 (Z.shiftl block 8) in
  libusb_control_transfer_in addr index len.

Definition rtlsdr_write_array (block addr : Z) (array : list Z) (len : Z)
  : M Z :=
  let index := u16 (Z.lor (Z.shiftl block 8) 0x10) in
  libusb_control_transfer_out addr index (firstn (Z.to_nat len) array).

Definition rtlsdr_i2c_write_reg (i2c_addr reg val : Z) : M Z :=
  let addr := u8 i2c_addr in
  rtlsdr_write_array IICB addr [u8 reg; u8 val] 2.

Definition rtlsdr_i2c_read_reg (i2c_addr reg : Z) : M Z :=
  let addr := u8 i2c_addr in
  rtlsdr_write_array IICB addr [u8 reg] 1 ;;;
  rd <- rtlsdr_read_array IICB addr 1 ;;
  ret (local_byte (snd rd) 0).

Definition rtlsdr_i2c_write (h : handle) (i2c_addr : Z) (buf : list Z)
  (len : Z) : M Z :=
  let addr := u8 i2c_addr in
  match h with
  | NULL => ret (-1)
  | PTR => rtlsdr_write_array IICB addr buf (u8 len)
  end.

Definition rtlsdr_i2c_read (h : handle) (i2c_addr len : Z) : M (Z * list Z) :=
  let addr := u8 i2c_addr in
  match h with
  | NULL => ret (-1, [])
  | PTR => rtlsdr_read_array IICB addr (u8 len)
  end.

Definition rtlsdr_read_reg (block addr len : Z) : M Z :=
  let index := u16 (Z.shiftl block 8) in
  rd <- libusb_control_transfer_in addr index len ;;
  let data := snd rd in
  ret (u16 (Z.lor (Z.shiftl (local_byte data 1) 8) (local_byte data 0))).

(** The two bytes [rtlsdr_write_reg] and [rtlsdr_demod_write_reg] prepare. *)
Definition reg_payload (val len : Z) : list Z :=
  let d0 := if len =? 1 then Z.land val 0xff else u8 (Z.shiftr val 8) in
  let d1 := Z.land val 0xff in
  [d0; d1].

Definition rtlsdr_write_reg (block addr val len : Z) : M unit :=
  let val := u16 val in
  let index := u16 (Z.lor (Z.shiftl block 8) 0x10) in
  libusb_control_transfer_out addr index
    (firstn (Z.to_nat len) (reg_payload val len)) ;;;
  ret tt.

(** [addr] is a [uint8_t] here, so the shifted address is cut back to its low
    byte before it is sent. *)
Definition rtlsdr_demod_read_reg (page addr len : Z) : M Z :=
  let index := page in
  let addr := u8 (Z.lor (Z.shiftl addr 8) 0x20) in
  rd <- libusb_control_transfer_in addr index len ;;
  let data := snd rd in
  ret (u16 (Z.lor (Z.shiftl (local_byte data 1) 8) (local_byte data 0))).

Definition rtlsdr_demod_write_reg (page addr val len : Z) : M unit :=
  let val := u16 val in
  let index := u16 (Z.lor 0x10 page) in
  let addr := u16 (Z.lor (Z.shiftl addr 8) 0x20) in
  libusb_control_transfer_out addr index
    (firstn (Z.to_nat len) (reg_payload val len)) ;;;
  rtlsdr_demod_read_reg 0x0a 0x01 1 ;;;
  ret tt.

Definition rtlsdr_set_gpio_bit (gpio val : Z) : M unit :=
  let gpio := u8 (Z.shiftl 1 gpio) in
  r <- rtlsdr_read_reg SYSB GPO 1 ;;
  let r := u8 r in
  let r := u8 (if truthy val then Z.lor r gpio else Z.land r (Z.lnot gpio)) in
  rtlsdr_write_reg SYSB GPO r 1.

Definition rtlsdr_set_gpio_output (gpio : Z) : M unit :=
  let gpio := u8 (Z.shiftl 1 gpio) in
  r <- rtlsdr_read_reg SYSB GPD 1 ;;
  rtlsdr_write_reg SYSB GPO (Z.land r (Z.lnot gpio)) 1 ;;;
  r <- rtlsdr_read_reg SYSB GPOE 1 ;;
  rtlsdr_write_reg SYSB GPOE (Z.lor r gpio) 1.

Definition rtlsdr_set_i2c_repeater (on : Z) : M unit :=
  rtlsdr_demod_write_reg 1 0x01 (if truthy on then 0x18 else 0x10) 1.

(** Default FIR coefficients used for DAB/FM by the Windows driver. *)
Definition fir_coeff : list Z :=
  [ 0xca; 0xdc; 0xd7; 0xd8; 0xe0; 0xf2; 0x0e; 0x35; 0x06; 0x50;
    0x9c; 0x0d; 0x71; 0x11; 0x14; 0x71; 0x74; 0x19; 0x41; 0x00 ].

Definition rtlsdr_init_baseband : M unit :=
  (* initialize USB *)
  rtlsdr_write_reg USBB USB_SYSCTL 0x09 1 ;;;
  rtlsdr_write_reg USBB USB_EPA_MAXPKT 0x0002 2 ;;;
  rtlsdr_write_reg USBB USB_EPA_CTL 0x1002 2 ;;;
  (* poweron demod *)
  rtlsdr_write_reg SYSB DEMOD_CTL_1 0x22 1 ;;;
  rtlsdr_write_reg SYSB DEMOD_CTL 0xe8 1 ;;;
  (* reset demod (bit 3, soft_rst) *)
  rtlsdr_demod_write_reg 1 0x01 0x14 1 ;;;
  rtlsdr_demod_write_reg 1 0x01 0x10 1 ;;;
  (* disable spectrum inversion and adjacent channel rejection *)
  rtlsdr_demod_write_reg 1 0x15 0x00 1 ;;;
  rtlsdr_demod_write_reg 1 0x16 0x0000 2 ;;;
  (* set IF-frequency to 0 Hz *)
  rtlsdr_demod_write_reg 1 0x19 0x0000 2 ;;;
  (* set FIR coefficients *)
  for_each (combine (seq 0 (List.length fir_coeff)) fir_coeff)
    (fun ic => rtlsdr_demod_write_reg 1 (0x1c + Z.of_nat (fst ic)) (snd ic) 1) ;;;
  rtlsdr_demod_write_reg 0 0x19 0x25 1 ;;;
  (* init FSM state-holding register *)
  rtlsdr_demod_write_reg 1 0x93 0xf0 1 ;;;
  (* disable AGC (en_dagc, bit 0) *)
  rtlsdr_demod_write_reg 1 0x11 0x00 1 ;;;
  (* disable PID filter (enable_PID = 0) *)
  rtlsdr_demod_write_reg 0 0x61 0x60 1 ;;;
  (* opt_adc_iq = 0, default ADC_I/ADC_Q datapath *)
  rtlsdr_demod_write_reg 0 0x06 0x80 1 ;;;
  (* Enable Zero-IF mode, DC cancellation, IQ estimation/compensation *)
  rtlsdr_demod_write_reg 1 0xb1 0x1b 1.

(* ------------------------------------------------------------------ *)
(** ** Tuner interface functions *)

Definition driver_call (f : driver_fn) (args : list Z) : M Z :=
  tr <- get_trace ;;
  emit (EvDriver f args) ;;;
  ret (driver_rc E tr f args).

(** The member [freq] read through a device pointer cast to a pointer to
    [rtlsdr_tuner_t], as [fc0012_set_bw] and [fc0013_set_bw] do: [freq] lies
    five function pointers into a [rtlsdr_tuner_t], and five pointers into a
    [rtlsdr_dev] (past [ctx], [devh] and three transfers) lies slot 3 of
    [xfer].  Where pointers to functions and to objects have the same size
    the [int] read is made of the first four bytes of that slot, its low half
    on a little-endian target, which is the one modelled. *)
Definition punned_freq (d : rtlsdr_dev) : Z := s32 (u32 (nth 3 (xfer d) 0)).

(** Conversion of an [int] to [unsigned long]. *)
Definition ulong_of_int (x : Z) : Z := x mod 2 ^ ulong_bits E.

Definition e4k_init : M Z := driver_call e4000_Initialize [].
Definition e4k_exit : M Z := ret 0.
Definition e4k_tune (f : Z) : M Z := driver_call e4000_SetRfFreqHz [f].
Definition e4k_set_bw (bw : Z) : M Z := driver_call e4000_SetBandwidthHz [8000000].
Definition e4k_set_gain (g : Z) : M Z := ret 0.

Definition fc0012_init : M Z := driver_call FC0012_Open [].
Definition fc0012_exit : M Z := ret 0.
Definition fc0012_tune (f : Z) : M Z :=
  let bw := 6 in
  (* select V-band/U-band filter *)
  rtlsdr_set_gpio_bit 6 (if f >? 300000000 then 1 else 0) ;;;
  driver_call FC0012_SetFrequency [Z.quot f 1000; Z.land bw 0xff].
Definition fc0012_set_bw (bw : Z) : M Z :=
  d <- get_dev ;;
  let f := ulong_of_int (punned_freq d) in
  driver_call FC0013_SetFrequency [f / 1000; Z.quot bw 1000000].
Definition fc0012_set_gain (g : Z) : M Z := ret 0.

Definition fc0013_init : M Z := driver_call FC0013_Open [].
Definition fc0013_exit : M Z := ret 0.
Definition fc0013_tune (f : Z) : M Z :=
  let bw := 6 in
  driver_call FC0013_SetFrequency [Z.quot f 1000; Z.land bw 0xff].
Definition fc0013_set_bw (bw : Z) : M Z :=
  d <- get_dev ;;
  let f := ulong_of_int (punned_freq d) in
  driver_call FC0013_SetFrequency [f / 1000; Z.quot bw 1000000].
Definition fc0013_set_gain (g : Z) : M Z := ret 0.

Definition fc2580_init : M Z := driver_call fc2580_Initialize [].
Definition fc2580_exit : M Z := ret 0.
Definition fc2580_tune (f : Z) : M Z := driver_call fc2580_SetRfFreqHz [f].
Definition fc2580_set_bw (bw : Z) : M Z := driver_call fc2580_SetBandwidthMode [1].
Definition fc2580_set_gain (g : Z) : M Z := ret 0.

(** The function pointers of the rows of [tuners]; [init] and [exit] take no
    argument besides the device. *)
Definition tuner_fn (t : rtlsdr_tuners) (m : tuner_method) (arg : Z) : M Z :=
  match t, m with
  | RTLSDR_TUNER_E4000, m_init => e4k_init
  | RTLSDR_TUNER_E4000, m_exit => e4k_exit
  | RTLSDR_TUNER_E4000, m_tune => e4k_tune arg
  | RTLSDR_TUNER_E4000, m_set_bw => e4k_set_bw arg
  | RTLSDR_TUNER_E4000, m_set_gain => e4k_set_gain arg
  | RTLSDR_TUNER_FC0012, m_init => fc0012_init
  | RTLSDR_TUNER_FC0012, m_exit => fc0012_exit
  | RTLSDR_TUNER_FC0012, m_tune => fc0012_tune arg
  | RTLSDR_TUNER_FC0012, m_set_bw => fc0012_set_bw arg
  | RTLSDR_TUNER_FC0012, m_set_gain => fc0012_set_gain arg
  | RTLSDR_TUNER_FC0013, m_init => fc0013_init
  | RTLSDR_TUNER_FC0013, m_exit => fc0013_exit
  | RTLSDR_TUNER_FC0013, m_tune => fc0013_tune arg
  | RTLSDR_TUNER_FC0013, m_set_bw => fc0013_set_bw arg
  | RTLSDR_TUNER_FC0013, m_set_gain => fc0013_set_gain arg
  | RTLSDR_TUNER_FC2580, m_init => fc2580_init
  | RTLSDR_TUNER_FC2580, m_exit => fc2580_exit
  | RTLSDR_TUNER_FC2580, m_tune => fc2580_tune arg
  | RTLSDR_TUNER_FC2580, m_set_bw => fc2580_set_bw arg
  | RTLSDR_TUNER_FC2580, m_set_gain => fc2580_set_gain arg
  end.

(** [dev->tuner->m(dev, arg)] for a tuner pointer already read. *)
Definition call_tuner (t : rtlsdr_tuners) (m : tuner_method) (arg : Z) : M Z :=
  emit (EvTunerMethod t m arg) ;;;
  tuner_fn t m arg.

(** [dev->tuner->...] where the code does not test the pointer first. *)
Definition deref_tuner : M rtlsdr_tuners :=
  d <- get_dev ;;
  match tuner d with
  | None => raise NullDereference
  | Some t => ret t
  end.

(* ------------------------------------------------------------------ *)
(** ** Baseband and tuner operations *)

Definition rtlsdr_deinit_baseband : M unit :=
  (* deinitialize tuner *)
  rtlsdr_set_i2c_repeater 1 ;;;
  t <- deref_tuner ;;
  call_tuner t m_exit 0 ;;;
  rtlsdr_set_i2c_repeater 0 ;;;
  (* poweroff demodulator and ADCs *)
  rtlsdr_write_reg SYSB DEMOD_CTL 0x20 1.

Definition rtlsdr_set_center_freq (h : handle) (fq : Z) : M Z :=
  let fq := u32 fq in
  match h with
  | NULL => ret (-1)
  | PTR =>
      d <- get_dev ;;
      match tuner d with
      | None => ret (-1)
      | Some t =>
          rtlsdr_set_i2c_repeater 1 ;;;
          tn <- get_row t ;;
          f <- int_of_integral (corrected_freq fq (corr tn)) ;;
          r <- call_tuner t m_tune f ;;
          rtlsdr_set_i2c_repeater 0 ;;;
          (if r =? 0
           then tn <- get_row t ;; put_row t (set_freq tn (s32 fq))
           else ret tt) ;;;
          ret r
      end
  end.

Definition rtlsdr_get_center_freq (h : handle) : M Z :=
  match h with
  | NULL => ret (-1)
  | PTR =>
      d <- get_dev ;;
      match tuner d with
      | None => ret (-1)
      | Some t => tn <- get_row t ;; ret (freq tn)
      end
  end.

Definition rtlsdr_set_freq_correction (h : handle) (ppm : Z) : M Z :=
  match h with
  | NULL => ret (-1)
  | PTR =>
      d <- get_dev ;;
      match tuner d with
      | None => ret (-1)
      | Some t =>
          tn <- get_row t ;;
          if corr tn =? ppm then ret (-1)
          else
            put_row t (set_corr tn ppm) ;;;
            (* retune to apply new correction value *)
            tn <- get_row t ;;
            rtlsdr_set_center_freq PTR (freq tn)
      end
  end.

Definition rtlsdr_get_freq_correction (h : handle) : M Z :=
  match h with
  | NULL => ret (-1)
  | PTR =>
      d <- get_dev ;;
      match tuner d with
      | None => ret (-1)
      | Some t => tn <- get_row t ;; ret (corr tn)
      end
  end.

Definition rtlsdr_set_tuner_gain (h : handle) (g : Z) : M Z :=
  match h with
  | NULL => ret (-1)
  | PTR =>
      d <- get_dev ;;
      match tuner d with
      | None => ret (-1)
      | Some t =>
          r <- call_tuner t m_set_gain g ;;
          (if r =? 0
           then tn <- get_row t ;; put_row t (set_gain tn g)
           else ret tt) ;;;
          ret r
      end
  end.

Definition rtlsdr_get_tuner_gain (h : handle) : M Z :=
  match h with
  | NULL => ret (-1)
  | PTR =>
      d <- get_dev ;;
      match tuner d with
      | None => ret (-1)
      | Some t => tn <- get_row t ;; ret (gain tn)
      end
  end.

(** [rsamp_ratio &= ~3] on a [uint32_t]. *)
Definition clear_low2 (x : Z) : Z := Z.land x (u32 (Z.lnot 3)).

Definition rtlsdr_set_sample_rate (h : handle) (samp_rate : Z) : M Z :=
  let samp_rate := u32 samp_rate in
  match h with
  | NULL => ret (-1)
  | PTR =>
      (* check for the maximum rate the resampler supports *)
      let samp_rate :=
        if samp_rate >? MAX_SAMP_RATE then MAX_SAMP_RATE else samp_rate in
      rsamp_ratio <- uint32_of_integral (crystal_quot samp_rate) ;;
      let rsamp_ratio := clear_low2 rsamp_ratio in
      (* real_rate = (CRYSTAL_FREQ * pow(2, 22)) / rsamp_ratio *)
      d <- get_dev ;;
      match tuner d with
      | Some t =>
          bw <- int_of_integral (crystal_quot rsamp_ratio) ;;
          call_tuner t m_set_bw bw ;;;
          ret tt
      | None => ret tt
      end ;;;
      d <- get_dev ;;
      put_dev (set_rate d samp_rate) ;;;
      let tmp := u16 (Z.shiftr rsamp_ratio 16) in
      rtlsdr_demod_write_reg 1 0x9f tmp 2 ;;;
      let tmp := u16 (Z.land rsamp_ratio 0xffff) in
      rtlsdr_demod_write_reg 1 0xa1 tmp 2 ;;;
      ret 0
  end.

Definition rtlsdr_get_sample_rate (h : handle) : M Z :=
  match h with
  | NULL => ret (-1)
  | PTR => d <- get_dev ;; ret (rate d)
  end.

(* ------------------------------------------------------------------ *)
(** ** Opening and closing a device

    The source tests neither [malloc] nor [libusb_init] nor
    [libusb_get_device_list]; the model follows the runs in which the three
    succeed. *)

(** The enumeration loop of [rtlsdr_open]: the position in the list of the
    device the loop leaves in [device], or [None] when it leaves NULL.
    [device_count] is a [uint32_t], so [device_count - 1] wraps at 0. *)
Fixpoint select_device (l : list (Z * Z)) (i : nat) (index device_count : Z)
  : option nat :=
  match l with
  | [] => None
  | (v, p) :: l' =>
      let device_count :=
        match find_known_device v p with
        | Some _ => u32 (device_count + 1)
        | None => device_count
        end in
      if index =? u32 (device_count - 1) then Some i
      else select_device l' (S i) index device_count
  end.

(** The code after the label [err]. *)
Definition open_err (r : Z) : M (Z * handle) :=
  d <- get_dev ;;
  (if ctx d then emit EvLibusbExit else ret tt) ;;;
  emit EvFree ;;;
  ret (r, NULL).

Definition bind_tuner (t : rtlsdr_tuners) : M unit :=
  d <- get_dev ;;
  put_dev (set_tuner d (Some t)).

(** The probing chain of [rtlsdr_open], up to the label [found]. *)
Definition probe_tuners : M unit :=
  let I := ids E in
  reg <- rtlsdr_i2c_read_reg (E4K_I2C_ADDR I) (E4K_CHECK_ADDR I) ;;
  if reg =? E4K_CHECK_VAL I then bind_tuner RTLSDR_TUNER_E4000
  else
    reg <- rtlsdr_i2c_read_reg (FC0013_I2C_ADDR I) (FC0013_CHECK_ADDR I) ;;
    if reg =? FC0013_CHECK_VAL I then bind_tuner RTLSDR_TUNER_FC0013
    else
      (* initialise GPIOs *)
      rtlsdr_set_gpio_output 5 ;;;
      (* reset tuner before probing *)
      rtlsdr_set_gpio_bit 5 1 ;;;
      rtlsdr_set_gpio_bit 5 0 ;;;
      reg <- rtlsdr_i2c_read_reg (FC2580_I2C_ADDR I) (FC2580_CHECK_ADDR I) ;;
      if Z.land reg 0x7f =? FC2580_CHECK_VAL I
      then bind_tuner RTLSDR_TUNER_FC2580
      else
        reg <- rtlsdr_i2c_read_reg (FC0012_I2C_ADDR I) (FC0012_CHECK_ADDR I) ;;
        if reg =? FC0012_CHECK_VAL I
        then rtlsdr_set_gpio_output 6 ;;; bind_tuner RTLSDR_TUNER_FC0012
        else ret tt.

(** [rtlsdr_open]: the return value and what [*out_dev] receives (nothing,
    shown as NULL, on the error path). *)
Definition rtlsdr_open (index : Z) : M (Z * handle) :=
  let index := u32 index in
  emit EvMalloc ;;;
  put_dev dev_zero ;;;
  emit EvLibusbInit ;;;
  d <- get_dev ;;
  put_dev (set_ctx d true) ;;;
  emit EvGetDeviceList ;;;
  match select_device (bus E) 0 index 0 with
  | None => open_err (-1)
  | Some i =>
      let r := open_rc E i in
      emit (EvLibusbOpen i r) ;;;
      if r <? 0 then
        emit EvFreeDeviceList ;;;
        open_err r
      else
        d <- get_dev ;;
        put_dev (set_devh d true) ;;;
        emit EvFreeDeviceList ;;;
        let r := claim_rc E in
        emit (EvClaimInterface r) ;;;
        if r <? 0 then open_err r
        else
          rtlsdr_init_baseband ;;;
          (* Probe tuners *)
          rtlsdr_set_i2c_repeater 1 ;;;
          probe_tuners ;;;
          (* found: *)
          d <- get_dev ;;
          match tuner d with
          | Some t => call_tuner t m_init 0 ;;; ret tt
          | None => ret tt
          end ;;;
          rtlsdr_set_i2c_repeater 0 ;;;
          ret (0, PTR)
  end.

Definition rtlsdr_close (h : handle) : M Z :=
  match h with
  | NULL => ret (-1)
  | PTR =>
      rtlsdr_deinit_baseband ;;;
      emit EvReleaseInterface ;;;
      emit EvLibusbClose ;;;
      d <- get_dev ;;
      for_each (seq 0 BUF_COUNT)
        (fun i =>
           (if truthy (nth i (xfer d) 0)
            then emit (EvFreeTransfer (nth i (xfer d) 0)) else ret tt) ;;;
           (if truthy (nth i (xfer_buf d) 0)
            then emit (EvFreeBuffer (nth i (xfer_buf d) 0)) else ret tt)) ;;;
      emit EvLibusbExit ;;;
      emit EvFree ;;;
      ret 0
  end.

Definition rtlsdr_reset_buffer (h : handle) : M Z :=
  match h with
  | NULL => ret (-1)
  | PTR =>
      rtlsdr_write_reg USBB USB_EPA_CTL 0x1002 2 ;;;
      rtlsdr_write_reg USBB USB_EPA_CTL 0x0000 2 ;;;
      ret 0
  end.

(* ------------------------------------------------------------------ *)
(** ** Streaming *)

(** The completion handler.  [transfer->user_data] is the device; what the
    user's function does on its own account is not part of the handler.  The
    call goes through [dev->cb] untested: with NULL there it is a fault. *)
Definition _libusb_callback (transfer : libusb_transfer) : M unit :=
  match status transfer with
  | LIBUSB_TRANSFER_COMPLETED =>
      d <- get_dev ;;
      (if cb d =? 0 then raise NullDereference else ret tt) ;;;
      emit (EvUserCallback (cb d) (buffer transfer) (actual_length transfer)
              (cb_ctx d)) ;;;
      (* resubmit transfer *)
      emit (EvSubmitTransfer transfer)
  | _ => ret tt
  end.

Definition rtlsdr_cancel_async (h : handle) : M Z :=
  match h with
  | NULL => ret (-1)
  | PTR =>
      d <- get_dev ;;
      if truthy (run_async d) then
        put_dev (set_run_async d 0) ;;;
        ret 0
      else ret (-2)
  end.

End Driver.

(* ------------------------------------------------------------------ *)
(** ** Reading a trace *)

(** The I2C repeater is bit 3 of demodulator register 0x01 on page 1; a
    write to it is a control write with [wValue = 0x0120], [wIndex = 0x11]. *)
Definition repeater_after (gate : bool) (e : event) : bool :=
  match e with
  | EvControlOut v i (b :: _) =>
      if (v =? 0x0120) && (i =? 0x11) then Z.testbit b 3 else gate
  | _ => gate
  end.

(** State of the repeater after a trace, from its state before. *)
Definition repeater_open (gate : bool) (tr : list event) : bool :=
  fold_left repeater_after tr gate.

(** Every call of a tuner method in [tr] finds the repeater open. *)
Fixpoint methods_gated (gate : bool) (tr : list event) : bool :=
  match tr with
  | [] => true
  | e :: tr' =>
      match e with
      | EvTunerMethod _ _ _ => gate
      | _ => true
      end && methods_gated (repeater_after gate e) tr'
  end.

(** The resampling ratio the demodulator holds: the 16-bit words last written
    to registers 0x9f (high) and 0xa1 (low) of page 1. *)
Definition word_of (data : list Z) : option Z :=
  match data with
  | [hi; lo] => Some (hi * 256 + lo)
  | _ => None
  end.

Definition ratio_words_after (st : option Z * option Z) (e : event)
  : option Z * option Z :=
  match e with
  | EvControlOut v i data =>
      if (v =? 0x9f20) && (i =? 0x11) then (word_of data, snd st)
      else if (v =? 0xa120) && (i =? 0x11) then (fst st, word_of data)
      else st
  | _ => st
  end.

Definition written_ratio (tr : list event) : option Z :=
  match fold_left ratio_words_after tr (None, None) with
  | (Some hi, Some lo) => Some (hi * 65536 + lo)
  | _ => None
  end.

(** What a call acquires and releases. *)
Inductive resource :=
| ResDevStruct      (* malloc / free *)
| ResSession        (* libusb_init / libusb_exit *)
| ResDeviceList     (* libusb_get_device_list / libusb_free_device_list *)
| ResDeviceHandle   (* libusb_open / libusb_close *)
| ResInterface.     (* libusb_claim_interface / libusb_release_interface *)

Definition resource_eqb (a b : resource) : bool :=
  match a, b with
  | ResDevStruct, ResDevStruct
  | ResSession, ResSession
  | ResDeviceList, ResDeviceList
  | ResDeviceHandle, ResDeviceHandle
  | ResInterface, ResInterface => true
  | _, _ => false
  end.

Definition acquires (e : event) : option resource :=
  match e with
  | EvMalloc => Some ResDevStruct
  | EvLibusbInit => Some ResSession
  | EvGetDeviceList => Some ResDeviceList
  | EvLibusbOpen _ rc => if rc <? 0 then None else Some ResDeviceHandle
  | EvClaimInterface rc => if rc <? 0 then None else Some ResInterface
  | _ => None
  end.

Definition releases (e : event) : option resource :=
  match e with
  | EvFree => Some ResDevStruct
  | EvLibusbExit => Some ResSession
  | EvFreeDeviceList => Some ResDeviceList
  | EvLibusbClose => Some ResDeviceHandle
  | EvReleaseInterface => Some ResInterface
  | _ => None
  end.

Definition held_after (held : list resource) (e : event) : list resource :=
  match acquires e, releases e with
  | Some r, _ => held ++ [r]
  | None, Some r => filter (fun x => negb (resource_eqb x r)) held
  | None, None => held
  end.

(** The resources still held after a trace that starts with none. *)
Definition outstanding (tr : list event) : list resource :=
  fold_left held_after tr [].

(** The events a run added to the trace it started from. *)
Definition added (before : world) (after : world) : list event :=
  skipn (List.length (trace before)) (trace after).

(* ------------------------------------------------------------------ *)
(** ** Concrete environments for the runs below *)

(** Sample identification constants (I2C address, check register, expected
    value) for E4000, FC0013, FC2580 and FC0012. *)
Definition sample_ids : tuner_ids :=
  mk_ids 0xc8 0x02 0x40  0xc6 0x00 0xa3  0xac 0x01 0x56  0xc6 0x00 0xa1.

(** A bus with the devices [b] whose chips answer an I2C read at address [a]
    with the byte [i2c a] and every other read with 0; the chip drivers
    return [drv]; [libusb_open] and [libusb_claim_interface] return [orc]
    and [crc]. *)
Definition mock (i2c : Z -> Z) (drv : Z) (b : list (Z * Z)) (orc crc : Z)
  : usb_env :=
  mk_env
    (fun _ v i len => (len, [if i =? 0x0600 then i2c v else 0]))
    (fun _ _ _ data => Z.of_nat (List.length data))
    (fun _ _ _ => drv)
    0 64 b (fun _ => orc) crc sample_ids.

Definition one_dongle : list (Z * Z) := [(0x0bda, 0x2832)].

(** No chip answers with a signature. *)
Definition env_silent : usb_env := mock (fun _ => 0) 0 one_dongle 0 0.

(** The chip at 0xc6 answers with the FC0013 signature. *)
Definition env_fc0013 : usb_env :=
  mock (fun a => if a =? 0xc6 then 0xa3 else 0) 0 one_dongle 0 0.

(** Both the E4000 and the FC0013 signature are answered. *)
Definition env_two_chips : usb_env :=
  mock (fun a => if a =? 0xc8 then 0x40 else if a =? 0xc6 then 0xa3 else 0)
    0 one_dongle 0 0.

(** The chip at 0xc6 answers with the FC0012 signature. *)
Definition env_fc0012 : usb_env :=
  mock (fun a => if a =? 0xc6 then 0xa1 else 0) 0 one_dongle 0 0.

(** The FC2580 signature with bit 7 set on top, and the FC0012 signature. *)
Definition env_fc2580_fc0012 : usb_env :=
  mock (fun a => if a =? 0xac then 0xd6 else if a =? 0xc6 then 0xa1 else 0)
    0 one_dongle 0 0.

(** As [env_fc0013], with chip drivers that fail. *)
Definition env_failing_driver : usb_env :=
  mock (fun a => if a =? 0xc6 then 0xa3 else 0) (-1) one_dongle 0 0.

Definition env_empty_bus : usb_env := mock (fun _ => 0) 0 [] 0 0.
Definition env_open_fails : usb_env := mock (fun _ => 0) 0 one_dongle (-3) 0.
Definition env_claim_fails : usb_env := mock (fun _ => 0) 0 one_dongle 0 (-6).

(** The world before [rtlsdr_open]: nothing happened yet. *)
Definition world0 : world := mk_world dev_zero tuners_init [].

(* ------------------------------------------------------------------ *)
(** ** Vocabulary of the statements *)

(** The world [w] with [evs] appended to its trace. *)
Definition log (w : world) (evs : list event) : world :=
  mk_world (dev w) (tuners w) (trace w ++ evs).

(** A computation that always returns and touches nothing but the trace. *)
Definition only_logs {A} (c : M A) : Prop :=
  forall w, exists a evs, c w = Done a (log w evs).

(** The transfers of [rtlsdr_demod_read_reg] and [rtlsdr_demod_write_reg]. *)
Definition demod_read_events (page addr len : Z) : list event :=
  [EvControlIn (u8 (Z.lor (Z.shiftl addr 8) 0x20)) page len].

Definition demod_write_events (page addr val len : Z) : list event :=
  EvControlOut (u16 (Z.lor (Z.shiftl addr 8) 0x20)) (u16 (Z.lor 0x10 page))
    (firstn (Z.to_nat len) (reg_payload (u16 val) len))
  :: demod_read_events 0x0a 0x01 1.

(** The transfers of [rtlsdr_set_i2c_repeater]. *)
Definition repeater_events (on : Z) : list event :=
  demod_write_events 1 0x01 (if truthy on then 0x18 else 0x10) 1.

(** The two register writes that carry a resampling ratio. *)
Definition ratio_events (ratio : Z) : list event :=
  demod_write_events 1 0x9f (u16 (Z.shiftr ratio 16)) 2
  ++ demod_write_events 1 0xa1 (u16 (Z.land ratio 0xffff)) 2.

(** The rate [rtlsdr_set_sample_rate] works with after its clamp. *)
Definition clamp_rate (r : Z) : Z :=
  if u32 r >? MAX_SAMP_RATE then MAX_SAMP_RATE else u32 r.

(** The rate a ratio gives: [CRYSTAL_FREQ * 2^22 / ratio], as a rational. *)
Definition achieved_rate (ratio : Z) : Q :=
  (inject_Z crystal_2_22 / inject_Z ratio)%Q.

(** What the completion handler does for one transfer, on a device [d]. *)
Definition handler_events (d : rtlsdr_dev) (t : libusb_transfer) : list event :=
  match status t with
  | LIBUSB_TRANSFER_COMPLETED =>
      [ EvUserCallback (cb d) (buffer t) (actual_length t) (cb_ctx d);
        EvSubmitTransfer t ]
  | _ => []
  end.

(** Calls of tuner methods and of the chip drivers. *)
Definition is_tuner_event (e : event) : bool :=
  match e with
  | EvTunerMethod _ _ _ | EvDriver _ _ => true
  | _ => false
  end.

(** The order in which [rtlsdr_open] tries the four chips. *)
Definition priority_chain : list rtlsdr_tuners :=
  [ RTLSDR_TUNER_E4000; RTLSDR_TUNER_FC0013;
    RTLSDR_TUNER_FC2580; RTLSDR_TUNER_FC0012 ].

(** Position of a variant in the chain. *)
Fixpoint position (t : rtlsdr_tuners) (l : list rtlsdr_tuners) : nat :=
  match l with
  | [] => O
  | x :: l' => if rtlsdr_tuners_eqb x t then O else S (position t l')
  end.

Definition rank (t : rtlsdr_tuners) : nat := position t priority_chain.

(** The four identification reads, each made as [rtlsdr_open] makes it when
    the reads before it found nothing: E4000, FC0013, then the GPIO 5 set-up
    and reset pulse, FC2580, FC0012. *)
Definition signature_reads (E : usb_env) : M (Z * Z * Z * Z) :=
  let I := ids E in
  r1 <- rtlsdr_i2c_read_reg E (E4K_I2C_ADDR I) (E4K_CHECK_ADDR I) ;;
  r2 <- rtlsdr_i2c_read_reg E (FC0013_I2C_ADDR I) (FC0013_CHECK_ADDR I) ;;
  rtlsdr_set_gpio_output E 5 ;;;
  rtlsdr_set_gpio_bit E 5 1 ;;;
  rtlsdr_set_gpio_bit E 5 0 ;;;
  r3 <- rtlsdr_i2c_read_reg E (FC2580_I2C_ADDR I) (FC2580_CHECK_ADDR I) ;;
  r4 <- rtlsdr_i2c_read_reg E (FC0012_I2C_ADDR I) (FC0012_CHECK_ADDR I) ;;
  ret (r1, r2, r3, r4).

(** Whether the identifier read for a variant is that variant's signature. *)
Definition signature_matches (I : tuner_ids) (rs : Z * Z * Z * Z)
  (t : rtlsdr_tuners) : bool :=
  let '(r1, r2, r3, r4) := rs in
  match t with
  | RTLSDR_TUNER_E4000 => r1 =? E4K_CHECK_VAL I
  | RTLSDR_TUNER_FC0013 => r2 =? FC0013_CHECK_VAL I
  | RTLSDR_TUNER_FC2580 => Z.land r3 0x7f =? FC2580_CHECK_VAL I
  | RTLSDR_TUNER_FC0012 => r4 =? FC0012_CHECK_VAL I
  end.

(** The transfers of [rtlsdr_set_gpio_output] and [rtlsdr_set_gpio_bit],
    given the bytes they write. *)
Definition gpio_output_events (x y : Z) : list event :=
  [ EvControlIn GPD 0x0200 1; EvControlOut GPO 0x0210 [x];
    EvControlIn GPOE 0x0200 1; EvControlOut GPOE 0x0210 [y] ].

Definition gpio_bit_events (b : Z) : list event :=
  [ EvControlIn GPO 0x0200 1; EvControlOut GPO 0x0210 [b] ].

(** The transfers of [rtlsdr_i2c_read_reg]. *)
Definition i2c_read_events (a c : Z) : list event :=
  [ EvControlOut (u8 a) 0x0610 [u8 c]; EvControlIn (u8 a) 0x0600 1 ].

(** The transfers of the probing chain when it binds [bound], given the bytes
    its GPIO writes carry: [x], [y] for the set-up of GPIO 5, [hi], [lo] for
    the pulse, [x6], [y6] for the set-up of GPIO 6. *)
Definition probe_events (I : tuner_ids) (x y hi lo x6 y6 : Z)
  (bound : option rtlsdr_tuners) : list event :=
  let e4000 := i2c_read_events (E4K_I2C_ADDR I) (E4K_CHECK_ADDR I) in
  let fc0013 := i2c_read_events (FC0013_I2C_ADDR I) (FC0013_CHECK_ADDR I) in
  let reset :=
    gpio_output_events x y ++ gpio_bit_events hi ++ gpio_bit_events lo in
  let fc2580 := i2c_read_events (FC2580_I2C_ADDR I) (FC2580_CHECK_ADDR I) in
  let fc0012 := i2c_read_events (FC0012_I2C_ADDR I) (FC0012_CHECK_ADDR I) in
  match bound with
  | Some RTLSDR_TUNER_E4000 => e4000
  | Some RTLSDR_TUNER_FC0013 => e4000 ++ fc0013
  | Some RTLSDR_TUNER_FC2580 => e4000 ++ fc0013 ++ reset ++ fc2580
  | Some RTLSDR_TUNER_FC0012 =>
      e4000 ++ fc0013 ++ reset ++ fc2580 ++ fc0012 ++ gpio_output_events x6 y6
  | None => e4000 ++ fc0013 ++ reset ++ fc2580 ++ fc0012
  end.


(* ------------------------------------------------------------------ *)
(** ** Further vocabulary *)

(** Events that reach the device or a chip driver. *)
Definition touches_hardware (e : event) : bool :=
  match e with
  | EvControlIn _ _ _ | EvControlOut _ _ _ | EvDriver _ _ => true
  | _ => false
  end.

(** The bytes of the last control write of a history; none before the first. *)
Definition last_written (tr : list event) : list Z :=
  fold_left (fun acc e => match e with EvControlOut _ _ d => d | _ => acc end)
    tr [].

(** A transport that answers every control read with the bytes last
    written. *)
Definition echoes (E : usb_env) : Prop :=
  forall tr v i n, snd (ctrl_in E tr v i n) = last_written tr.

Definition env_echo : usb_env :=
  mk_env (fun tr _ _ n => (n, last_written tr))
    (fun _ _ _ data => Z.of_nat (List.length data))
    (fun _ _ _ => 0) 0 64 one_dongle (fun _ => 0) 0 sample_ids.

(** A 16-bit value with its two bytes exchanged. *)
Definition byte_swap (x : Z) : Z := (x mod 256) * 256 + x / 256.

(** The byte a one-byte register read made after the history [tr]
    delivers. *)
Definition read_byte (E : usb_env) (tr : list event) (addr index : Z) : Z :=
  u8 (nth 0 (firstn 1 (snd (ctrl_in E tr addr index 1))) (stack_junk E)).

(** The transfer of [rtlsdr_write_reg]. *)
Definition reg_write_event (block addr val len : Z) : event :=
  EvControlOut addr (u16 (Z.lor (Z.shiftl block 8) 0x10))
    (firstn (Z.to_nat len) (reg_payload (u16 val) len)).

(** The transfers of [rtlsdr_init_baseband], in order. *)
Definition init_baseband_events : list event :=
  [ reg_write_event USBB USB_SYSCTL 0x09 1;
    reg_write_event USBB USB_EPA_MAXPKT 0x0002 2;
    reg_write_event USBB USB_EPA_CTL 0x1002 2;
    reg_write_event SYSB DEMOD_CTL_1 0x22 1;
    reg_write_event SYSB DEMOD_CTL 0xe8 1 ]
  ++ demod_write_events 1 0x01 0x14 1
  ++ demod_write_events 1 0x01 0x10 1
  ++ demod_write_events 1 0x15 0x00 1
  ++ demod_write_events 1 0x16 0x0000 2
  ++ demod_write_events 1 0x19 0x0000 2
  ++ flat_map
       (fun ic => demod_write_events 1 (0x1c + Z.of_nat (fst ic)) (snd ic) 1)
       (combine (seq 0 (List.length fir_coeff)) fir_coeff)
  ++ demod_write_events 0 0x19 0x25 1
  ++ demod_write_events 1 0x93 0xf0 1
  ++ demod_write_events 1 0x11 0x00 1
  ++ demod_write_events 0 0x61 0x60 1
  ++ demod_write_events 0 0x06 0x80 1
  ++ demod_write_events 1 0xb1 0x1b 1.

(** A control write read as a demodulator register write: page, register and
    bytes. *)
Definition demod_write_of (e : event) : option (Z * Z * list Z) :=
  match e with
  | EvControlOut v i d =>
      if (Z.land v 0xff =? 0x20) && (Z.land i 0xfff0 =? 0x10)
      then Some (Z.land i 0x0f, Z.shiftr v 8, d)
      else None
  | _ => None
  end.

(** The bytes a trace writes to the demodulator registers [lo .. hi] of a
    page, in order. *)
Definition demod_bytes_written (page lo hi : Z) (tr : list event) : list Z :=
  flat_map
    (fun e =>
       match demod_write_of e with
       | Some (p, r, d) =>
           if (p =? page) && (lo <=? r) && (r <=? hi) then d else []
       | None => []
       end)
    tr.

(** Events that are neither a tuner method nor a write to the demodulator
    page the repeater bit lives on. *)
Definition off_repeater (e : event) : bool :=
  match e with
  | EvControlOut _ i _ => negb (i =? 0x11)
  | EvTunerMethod _ _ _ => false
  | _ => true
  end.

(** Events that acquire and release nothing. *)
Definition holds_nothing (e : event) : bool :=
  match acquires e, releases e with
  | None, None => true
  | _, _ => false
  end.

(** The events of the [init] method of a bound tuner. *)
Definition tuner_init_events (bound : option rtlsdr_tuners) : list event :=
  match bound with
  | Some RTLSDR_TUNER_E4000 =>
      [EvTunerMethod RTLSDR_TUNER_E4000 m_init 0; EvDriver e4000_Initialize []]
  | Some RTLSDR_TUNER_FC0012 =>
      [EvTunerMethod RTLSDR_TUNER_FC0012 m_init 0; EvDriver FC0012_Open []]
  | Some RTLSDR_TUNER_FC0013 =>
      [EvTunerMethod RTLSDR_TUNER_FC0013 m_init 0; EvDriver FC0013_Open []]
  | Some RTLSDR_TUNER_FC2580 =>
      [EvTunerMethod RTLSDR_TUNER_FC2580 m_init 0; EvDriver fc2580_Initialize []]
  | None => []
  end.

(** The events of a successful [rtlsdr_open] that selected device [i] and
    bound [bound]. *)
Definition open_events (E : usb_env) (i : nat) (x y hi lo x6 y6 : Z)
  (bound : option rtlsdr_tuners) : list event :=
  [ EvMalloc; EvLibusbInit; EvGetDeviceList; EvLibusbOpen i (open_rc E i);
    EvFreeDeviceList; EvClaimInterface (claim_rc E) ]
  ++ init_baseband_events
  ++ repeater_events 1
  ++ probe_events (ids E) x y hi lo x6 y6 bound
  ++ tuner_init_events bound
  ++ repeater_events 0.

(** What [rtlsdr_close] frees of the transfer and buffer slots of a device. *)
Definition free_events (d : rtlsdr_dev) : list event :=
  flat_map
    (fun i =>
       (if truthy (nth i (xfer d) 0) then [EvFreeTransfer (nth i (xfer d) 0)]
        else [])
       ++ (if truthy (nth i (xfer_buf d) 0)
           then [EvFreeBuffer (nth i (xfer_buf d) 0)] else []))
    (seq 0 BUF_COUNT).

(** The events of [rtlsdr_close] on a device bound to [t]. *)
Definition close_events (t : rtlsdr_tuners) (d : rtlsdr_dev) : list event :=
  repeater_events 1
  ++ [EvTunerMethod t m_exit 0]
  ++ repeater_events 0
  ++ [reg_write_event SYSB DEMOD_CTL 0x20 1; EvReleaseInterface; EvLibusbClose]
  ++ free_events d
  ++ [EvLibusbExit; EvFree].

(** Events that leave the resampling ratio registers alone. *)
Definition off_ratio (e : event) : bool :=
  match e with
  | EvControlOut v i _ =>
      negb (i =? 0x11) || negb ((v =? 0x9f20) || (v =? 0xa120))
  | _ => true
  end.

(** The four resources a successful [rtlsdr_open] leaves held. *)
Definition open_holds : list resource :=
  [ResDevStruct; ResSession; ResDeviceHandle; ResInterface].

(** The tuner methods a trace calls, in order. *)
Definition tuner_calls (tr : list event)
  : list (rtlsdr_tuners * tuner_method * Z) :=
  flat_map
    (fun e => match e with EvTunerMethod t m a => [(t, m, a)] | _ => [] end)
    tr.

(** The transfers and buffers a trace frees, in order. *)
Definition frees_of (tr : list event) : list event :=
  filter
    (fun e => match e with
              | EvFreeTransfer _ | EvFreeBuffer _ => true
              | _ => false
              end)
    tr.

(** A handle bound to the E4000 whose first two slots hold a transfer and a
    buffer. *)
Definition world_two_slots : world :=
  mk_world
    (mk_dev true true (0x5000 :: 0x5100 :: repeat 0 30)
       (0x9000 :: 0x9800 :: repeat 0 30) 0 0 0 (Some RTLSDR_TUNER_E4000)
       2048000)
    tuners_init [].

(* ------------------------------------------------------------------ *)
(** ** Enumeration without a handle

    As in [rtlsdr_open], the runs modelled are those in which [libusb_init]
    and [libusb_get_device_list] succeed. *)

(** The loop of [rtlsdr_get_device_count]; [device_count] is a [uint32_t]. *)
Fixpoint count_devices (l : list (Z * Z)) (device_count : Z) : Z :=
  match l with
  | [] => device_count
  | (v, p) :: l' =>
      count_devices l'
        match find_known_device v p with
        | Some _ => u32 (device_count + 1)
        | None => device_count
        end
  end.

Definition rtlsdr_get_device_count (E : usb_env) : M Z :=
  emit EvLibusbInit ;;;
  emit EvGetDeviceList ;;;
  let device_count := count_devices (bus E) 0 in
  emit EvFreeDeviceList ;;;
  emit EvLibusbExit ;;;
  ret device_count.

(** The loop of [rtlsdr_get_device_name]: what it leaves in [device]. *)
Fixpoint name_loop (l : list (Z * Z)) (index device_count : Z)
  (device : option rtlsdr_device_t) : option rtlsdr_device_t :=
  match l with
  | [] => device
  | (v, p) :: l' =>
      let device := find_known_device v p in
      match device with
      | Some _ =>
          let device_count := u32 (device_count + 1) in
          if index =? u32 (device_count - 1) then device
          else name_loop l' index device_count device
      | None => name_loop l' index device_count device
      end
  end.

Definition rtlsdr_get_device_name (E : usb_env) (index : Z) : M string :=
  let index := u32 index in
  emit EvLibusbInit ;;;
  emit EvGetDeviceList ;;;
  let device := name_loop (bus E) index 0 None in
  emit EvFreeDeviceList ;;;
  emit EvLibusbExit ;;;
  match device with
  | Some d => ret (name d)
  | None => ret ""%string
  end.

(** The supported devices on a bus, in bus order. *)
Definition known (l : list (Z * Z)) : list rtlsdr_device_t :=
  flat_map
    (fun vp => match find_known_device (fst vp) (snd vp) with
               | Some d => [d]
               | None => []
               end)
    l.

(** Their positions on the bus, counted from [i]. *)
Fixpoint known_positions (l : list (Z * Z)) (i : nat) : list nat :=
  match l with
  | [] => []
  | (v, p) :: l' =>
      match find_known_device v p with
      | Some _ => i :: known_positions l' (S i)
      | None => known_positions l' (S i)
      end
  end.

(** The table row of the last device of a bus, if it is supported. *)
Definition last_known (l : list (Z * Z)) : option rtlsdr_device_t :=
  match rev l with
  | [] => None
  | (v, p) :: _ => find_known_device v p
  end.

(** A bus with a hub, two dongles and a keyboard. *)
Definition bus_mixed : list (Z * Z) :=
  [(0x1d6b, 0x0002); (0x0bda, 0x2838); (0x046d, 0xc31c); (0x1f4d, 0xb803)].

Definition env_mixed : usb_env := mock (fun _ => 0) 0 bus_mixed 0 0.

(** The same bus with the keyboard last. *)
Definition env_keyboard_last : usb_env :=
  mock (fun _ => 0) 0
    [(0x1d6b, 0x0002); (0x0bda, 0x2838); (0x1f4d, 0xb803); (0x046d, 0xc31c)]
    0 0.

(** A keyboard enumerated before the dongle. *)
Definition env_keyboard_first : usb_env :=
  mock (fun _ => 0) 0 [(0x046d, 0xc31c); (0x0bda, 0x2838)] 0 0.

(** What the [set_bw] method of a tuner asks of the chip drivers, on a
    device [d]. *)
Definition set_bw_request (E : usb_env) (d : rtlsdr_dev) (t : rtlsdr_tuners)
  (bw : Z) : event :=
  match t with
  | RTLSDR_TUNER_E4000 => EvDriver e4000_SetBandwidthHz [8000000]
  | RTLSDR_TUNER_FC0012 | RTLSDR_TUNER_FC0013 =>
      EvDriver FC0013_SetFrequency
        [ulong_of_int E (punned_freq d) / 1000; Z.quot bw 1000000]
  | RTLSDR_TUNER_FC2580 => EvDriver fc2580_SetBandwidthMode [1]
  end.

(** The calls into the chip drivers in a trace. *)
Definition driver_calls (tr : list event) : list event :=
  filter (fun e => match e with EvDriver _ _ => true | _ => false end) tr.

(** A handle bound to the FC0012, nothing tuned yet. *)
Definition world_fc0012 : world :=
  mk_world (set_tuner (set_devh (set_ctx dev_zero true) true)
              (Some RTLSDR_TUNER_FC0012))
    tuners_init [].

(** The same handle after streaming, with transfers in its slots; the low
    half of the address in slot 3 is negative as an [int]. *)
Definition world_fc0012_streamed : world :=
  mk_world
    (mk_dev true true
       (0x7f10f8000000 :: 0x7f10f8000008 :: 0x7f10f8000010 :: 0x7f10f8000018
        :: repeat 0x7f10f8000020 28)
       (repeat 0x7f10f9000000 32) 0x4000 0x7000 0
       (Some RTLSDR_TUNER_FC0012) 0)
    tuners_init [].

(* ------------------------------------------------------------------ *)
(** ** Asynchronous streaming

    [rtlsdr_wait_async] allocates through libusb and [malloc] and then sits
    in libusb's event loop, from inside which libusb calls the completion
    handler.  These calls have their own events; the events of the handler
    itself stay in the trace of the world. *)

Inductive async_event :=
(* libusb_alloc_transfer(0) returned p *)
| AvAllocTransfer (p : Z)
(* malloc(size) returned p *)
| AvMallocBuffer (size p : Z)
(* libusb_fill_bulk_transfer(xfer, devh, endpoint, buf, len,
                             _libusb_callback, dev, timeout) *)
| AvFillBulkTransfer (xfer endpoint buf len timeout : Z)
(* libusb_submit_transfer(xfer) *)
| AvSubmitTransfer (xfer : Z)
(* libusb calls the callback of a transfer *)
| AvCompletion (t : libusb_transfer)
(* libusb_handle_events_timeout(ctx, {1, 0}) returned rc *)
| AvHandleEvents (rc : Z).

(** What libusb, [malloc] and the user's function do during a run. *)
Record async_env := mk_async_env {
  (* what libusb_alloc_transfer and malloc return for slot i, 0 for NULL *)
  alloc_transfer : nat -> Z;
  malloc_buffer : nat -> Z;
  (* the transfers whose callback the k-th call of the event loop runs, in
     order, each with whether the user's function, if called for it, calls
     rtlsdr_cancel_async on the device *)
  completions : nat -> list (libusb_transfer * bool);
  (* the return code of the k-th call of the event loop *)
  poll_rc : nat -> Z;
  (* the value of the local r before anything is assigned to it *)
  r_junk : Z
}.

Record async_world := mk_async_world {
  base : world;
  atrace : list async_event
}.

Definition set_cb (d : rtlsdr_dev) (fn c : Z) :=
  mk_dev (ctx d) (devh d) (xfer d) (xfer_buf d) fn c (run_async d)
    (tuner d) (rate d).
Definition set_xfer (d : rtlsdr_dev) (l : list Z) :=
  mk_dev (ctx d) (devh d) l (xfer_buf d) (cb d) (cb_ctx d) (run_async d)
    (tuner d) (rate d).
Definition set_xfer_buf (d : rtlsdr_dev) (l : list Z) :=
  mk_dev (ctx d) (devh d) (xfer d) l (cb d) (cb_ctx d) (run_async d)
    (tuner d) (rate d).

(** [a[i] = v] for [i] inside the array. *)
Fixpoint update_slot (i : nat) (v : Z) (l : list Z) : list Z :=
  match l, i with
  | [], _ => []
  | _ :: l', O => v :: l'
  | x :: l', S i' => x :: update_slot i' v l'
  end.

Definition alog (s : async_world) (evs : list async_event) : async_world :=
  mk_async_world (base s) (atrace s ++ evs).

Definition with_dev (s : async_world) (d : rtlsdr_dev) : async_world :=
  mk_async_world (mk_world d (tuners (base s)) (trace (base s))) (atrace s).

(** The first loop of [rtlsdr_wait_async]. *)
Fixpoint alloc_transfers (A : async_env) (slots : list nat) (s : async_world)
  : async_world :=
  match slots with
  | [] => s
  | i :: slots' =>
      let d := dev (base s) in
      if truthy (nth i (xfer d) 0) then alloc_transfers A slots' s
      else
        let p := alloc_transfer A i in
        alloc_transfers A slots'
          (with_dev (alog s [AvAllocTransfer p])
             (set_xfer d (update_slot i p (xfer d))))
  end.

(** The second loop. *)
Fixpoint alloc_buffers (A : async_env) (slots : list nat) (s : async_world)
  : async_world :=
  match slots with
  | [] => s
  | i :: slots' =>
      let d := dev (base s) in
      if truthy (nth i (xfer_buf d) 0) then alloc_buffers A slots' s
      else
        let p := malloc_buffer A i in
        alloc_buffers A slots'
          (with_dev (alog s [AvMallocBuffer BUF_LENGTH p])
             (set_xfer_buf d (update_slot i p (xfer_buf d))))
  end.

(** The third loop. *)
Fixpoint submit_transfers (slots : list nat) (s : async_world) : async_world :=
  match slots with
  | [] => s
  | i :: slots' =>
      let d := dev (base s) in
      submit_transfers slots'
        (alog s [ AvFillBulkTransfer (nth i (xfer d) 0) 0x81
                    (nth i (xfer_buf d) 0) BUF_LENGTH 0;
                  AvSubmitTransfer (nth i (xfer d) 0) ])
  end.

(** How a streaming run ends. *)
Inductive async_outcome (A : Type) :=
| ADone (a : A) (s : async_world)
| AFault (f : fault) (s : async_world).

Arguments AFault {A} f s.

(** libusb runs the callback of one transfer; the user's function, which the
    handler calls for a completed transfer, may cancel. *)
Definition deliver (s : async_world) (c : libusb_transfer * bool)
  : async_outcome unit :=
  let s := alog s [AvCompletion (fst c)] in
  match _libusb_callback (fst c) (base s) with
  | Fault f w => AFault f (mk_async_world w (atrace s))
  | Done _ w =>
      let w :=
        match status (fst c) with
        | LIBUSB_TRANSFER_COMPLETED =>
            if snd c then outcome_world (rtlsdr_cancel_async PTR w) else w
        | _ => w
        end in
      ADone tt (mk_async_world w (atrace s))
  end.

(** The completions of one call of the event loop, in order. *)
Fixpoint deliver_all (cs : list (libusb_transfer * bool)) (s : async_world)
  : async_outcome unit :=
  match cs with
  | [] => ADone tt s
  | c :: cs' =>
      match deliver s c with
      | ADone _ s' => deliver_all cs' s'
      | AFault f s' => AFault f s'
      end
  end.

(** [while (dev->run_async)], entered for the k-th time with [fuel]
    iterations left; [None] when they do not suffice. *)
Fixpoint wait_loop (A : async_env) (fuel k : nat) (r : Z) (s : async_world)
  : option (async_outcome Z) :=
  match fuel with
  | O => None
  | S fuel' =>
      if truthy (run_async (dev (base s))) then
        match deliver_all (completions A k) s with
        | AFault f s' => Some (AFault f s')
        | ADone _ s' =>
            let r := poll_rc A k in
            let s' := alog s' [AvHandleEvents r] in
            if r <? 0 then Some (ADone r s')
            else wait_loop A fuel' (S k) r s'
        end
      else Some (ADone r s)
  end.

(** [rtlsdr_wait_async] up to the event loop. *)
Definition wait_async_setup (A : async_env) (fn c : Z) (s : async_world)
  : async_world :=
  let s := with_dev s (set_cb (dev (base s)) fn c) in
  let s := alloc_transfers A (seq 0 BUF_COUNT) s in
  let s := alloc_buffers A (seq 0 BUF_COUNT) s in
  let s := submit_transfers (seq 0 BUF_COUNT) s in
  with_dev s (set_run_async (dev (base s)) 1).

Definition rtlsdr_wait_async (A : async_env) (fuel : nat) (h : handle)
  (fn c : Z) (s : async_world) : option (async_outcome Z) :=
  match h with
  | NULL => Some (ADone (-1) s)
  | PTR => wait_loop A fuel 0 (r_junk A) (wait_async_setup A fn c s)
  end.

(** *** Vocabulary for streaming *)

(** The events a run added to the streaming trace. *)
Definition aadded (before after : async_world) : list async_event :=
  skipn (List.length (atrace before)) (atrace after).

(** What the first two loops leave in slot [i] of an array. *)
Definition slot_after (alloc : nat -> Z) (l : list Z) (i : nat) : Z :=
  if truthy (nth i l 0) then nth i l 0 else alloc i.

(** The allocation events of a loop over [slots]. *)
Definition alloc_events (mk : Z -> async_event) (alloc : nat -> Z)
  (l : list Z) (slots : list nat) : list async_event :=
  flat_map (fun i => if truthy (nth i l 0) then [] else [mk (alloc i)]) slots.

(** The fill and submit events of the third loop. *)
Definition submit_events (xs bs : list Z) (slots : list nat)
  : list async_event :=
  flat_map
    (fun i => [ AvFillBulkTransfer (nth i xs 0) 0x81 (nth i bs 0) BUF_LENGTH 0;
                AvSubmitTransfer (nth i xs 0) ])
    slots.

(** Some completed transfer of a poll has the user's function cancel. *)
Definition cancels_in (cs : list (libusb_transfer * bool)) : bool :=
  existsb
    (fun c => match status (fst c) with
              | LIBUSB_TRANSFER_COMPLETED => snd c
              | _ => false
              end)
    cs.

(** The k-th poll ends the loop: it fails, or the user cancels during it. *)
Definition poll_ends (A : async_env) (k : nat) : bool :=
  (poll_rc A k <? 0) || cancels_in (completions A k).

(** The handler events of the polls [0 .. n-1], on a device [d]. *)
Definition polls_handler_events (A : async_env) (d : rtlsdr_dev) (n : nat)
  : list event :=
  flat_map
    (fun k => flat_map (fun c => handler_events d (fst c)) (completions A k))
    (seq 0 n).

(** The number of calls of the event loop in a streaming trace. *)
Definition polls_in (tr : list async_event) : nat :=
  List.length
    (filter (fun e => match e with AvHandleEvents _ => true | _ => false end)
       tr).

(** The allocations in a streaming trace. *)
Definition allocations_in (tr : list async_event) : list async_event :=
  filter
    (fun e => match e with
              | AvAllocTransfer _ | AvMallocBuffer _ _ => true
              | _ => false
              end)
    tr.

(** A streaming world around [w], with nothing recorded yet. *)
Definition async_of (w : world) : async_world := mk_async_world w [].

(** The array a loop of allocations leaves, and the events of the loop, as
    functions of the array it starts from. *)
Fixpoint fill_slots (alloc : nat -> Z) (slots : list nat) (l : list Z)
  : list Z :=
  match slots with
  | [] => l
  | i :: slots' =>
      if truthy (nth i l 0) then fill_slots alloc slots' l
      else fill_slots alloc slots' (update_slot i (alloc i) l)
  end.

Fixpoint fill_events (mk : Z -> async_event) (alloc : nat -> Z)
  (slots : list nat) (l : list Z) : list async_event :=
  match slots with
  | [] => []
  | i :: slots' =>
      if truthy (nth i l 0) then fill_events mk alloc slots' l
      else mk (alloc i)
           :: fill_events mk alloc slots' (update_slot i (alloc i) l)
  end.

(** The events of the k-th call of the event loop. *)
Definition poll_events (A : async_env) (k : nat) : list async_event :=
  map (fun c => AvCompletion (fst c)) (completions A k)
  ++ [AvHandleEvents (poll_rc A k)].

(** An environment for the streaming runs below: every allocation succeeds;
    the first poll completes slot 0, the second sees slot 1 time out and
    slot 2 complete, whereupon the user cancels. *)
Definition async_sample : async_env :=
  mk_async_env
    (fun i => 0x5000 + 0x100 * Z.of_nat i)
    (fun i => 0x900000 + BUF_LENGTH * Z.of_nat i)
    (fun k =>
       match k with
       | O => [(mk_transfer 0x5000 LIBUSB_TRANSFER_COMPLETED 0x900000 262144,
                false)]
       | 1%nat =>
           [(mk_transfer 0x5100 LIBUSB_TRANSFER_TIMED_OUT 0x940000 0, true);
            (mk_transfer 0x5200 LIBUSB_TRANSFER_COMPLETED 0x980000 512, true)]
       | _ => []
       end)
    (fun _ => 0)
    0.

(** The same, except that the second poll fails. *)
Definition async_failing : async_env :=
  mk_async_env (alloc_transfer async_sample) (malloc_buffer async_sample)
    (fun k => match k with
              | O => completions async_sample 0
              | _ => []
              end)
    (fun k => match k with 1%nat => -4 | _ => 0 end)
    0.

(** The same allocations, and an event loop in which nothing ever happens. *)
Definition async_idle : async_env :=
  mk_async_env (alloc_transfer async_sample) (malloc_buffer async_sample)
    (fun _ => []) (fun _ => 0) 0.

(** A freshly opened device with the E4000 bound. *)
Definition world_opened : world :=
  mk_world (set_tuner (set_devh (set_ctx dev_zero true) true)
              (Some RTLSDR_TUNER_E4000))
    tuners_init [].

(* ------------------------------------------------------------------ *)
(** * Properties *)

(** ** Running the monad *)

Lemma bind_done {A B} (c : M A) (k : A -> M B) w a w' :
  c w = Done a w' -> bind c k w = k a w'.
Proof. intros H. unfold bind. now rewrite H. Qed.

Arguments bind_done {A B c} k {w a w'} _.

Lemma bind_fault {A B} (c : M A) (k : A -> M B) w f w' :
  c w = Fault f w' -> bind c k w = Fault f w'.
Proof. intros H. unfold bind. now rewrite H. Qed.

Arguments bind_fault {A B c} k {w f w'} _.

Lemma log_nil w : log w [] = w.
Proof. destruct w. unfold log. cbn. now rewrite app_nil_r. Qed.

Lemma log_log w a b : log (log w a) b = log w (a ++ b).
Proof. unfold log. cbn. now rewrite app_assoc. Qed.

Lemma only_logs_ret {A} (a : A) : only_logs (ret a).
Proof. intros w. exists a, []. now rewrite log_nil. Qed.

Lemma only_logs_emit e : only_logs (emit e).
Proof. intros w. now exists tt, [e]. Qed.

Lemma only_logs_get_trace : only_logs get_trace.
Proof. intros w. exists (trace w), []. now rewrite log_nil. Qed.

Lemma only_logs_get_dev : only_logs get_dev.
Proof. intros w. exists (dev w), []. now rewrite log_nil. Qed.

Lemma only_logs_get_row t : only_logs (get_row t).
Proof. intros w. exists (row (tuners w) t), []. now rewrite log_nil. Qed.

Lemma only_logs_bind {A B} (c : M A) (k : A -> M B) :
  only_logs c -> (forall a, only_logs (k a)) -> only_logs (bind c k).
Proof.
  intros Hc Hk w.
  destruct (Hc w) as (a & e1 & H1).
  destruct (Hk a (log w e1)) as (b & e2 & H2).
  exists b, (e1 ++ e2).
  rewrite (bind_done k H1), H2, log_log. reflexivity.
Qed.

Lemma only_logs_for_each {A} (l : list A) (body : A -> M unit) :
  (forall x, only_logs (body x)) -> only_logs (for_each l body).
Proof.
  intros Hb. induction l as [|x l IH]; cbn.
  - apply only_logs_ret.
  - apply only_logs_bind; auto.
Qed.

Lemma only_logs_if {A} (b : bool) (c1 c2 : M A) :
  only_logs c1 -> only_logs c2 -> only_logs (if b then c1 else c2).
Proof. now destruct b. Qed.

Create HintDb logs.
#[export] Hint Resolve only_logs_ret only_logs_emit only_logs_get_trace
  only_logs_get_dev only_logs_get_row only_logs_bind only_logs_for_each
  only_logs_if : logs.

Ltac logs := cbv zeta; auto 30 with logs.

Section RegisterFacts.

Variable E : usb_env.

Lemma only_logs_control_in v i n : only_logs (libusb_control_transfer_in E v i n).
Proof. unfold libusb_control_transfer_in. logs. Qed.

Lemma only_logs_control_out v i d : only_logs (libusb_control_transfer_out E v i d).
Proof. unfold libusb_control_transfer_out. logs. Qed.

#[local] Hint Resolve only_logs_control_in only_logs_control_out : logs.

Lemma only_logs_read_reg b a n : only_logs (rtlsdr_read_reg E b a n).
Proof. unfold rtlsdr_read_reg. logs. Qed.

Lemma only_logs_write_reg b a v n : only_logs (rtlsdr_write_reg E b a v n).
Proof. unfold rtlsdr_write_reg. logs. Qed.

Lemma only_logs_i2c_read_reg a r : only_logs (rtlsdr_i2c_read_reg E a r).
Proof. unfold rtlsdr_i2c_read_reg, rtlsdr_write_array, rtlsdr_read_array. logs. Qed.

Lemma only_logs_demod_read_reg p a n : only_logs (rtlsdr_demod_read_reg E p a n).
Proof. unfold rtlsdr_demod_read_reg. logs. Qed.

#[local] Hint Resolve only_logs_read_reg only_logs_write_reg
  only_logs_i2c_read_reg only_logs_demod_read_reg : logs.

Lemma only_logs_demod_write_reg p a v n :
  only_logs (rtlsdr_demod_write_reg E p a v n).
Proof. unfold rtlsdr_demod_write_reg. logs. Qed.

Lemma only_logs_set_gpio_bit g v : only_logs (rtlsdr_set_gpio_bit E g v).
Proof. unfold rtlsdr_set_gpio_bit. logs. Qed.

Lemma only_logs_set_gpio_output g : only_logs (rtlsdr_set_gpio_output E g).
Proof. unfold rtlsdr_set_gpio_output. logs. Qed.

#[local] Hint Resolve only_logs_demod_write_reg only_logs_set_gpio_bit
  only_logs_set_gpio_output : logs.

Lemma only_logs_set_i2c_repeater on : only_logs (rtlsdr_set_i2c_repeater E on).
Proof. unfold rtlsdr_set_i2c_repeater. logs. Qed.

Lemma only_logs_init_baseband : only_logs (rtlsdr_init_baseband E).
Proof. unfold rtlsdr_init_baseband. logs. Qed.

Lemma only_logs_driver_call f args : only_logs (driver_call E f args).
Proof. unfold driver_call. logs. Qed.

#[local] Hint Resolve only_logs_set_i2c_repeater only_logs_driver_call : logs.

Lemma only_logs_tuner_fn t m arg : only_logs (tuner_fn E t m arg).
Proof.
  destruct t, m; cbn;
    unfold e4k_init, e4k_exit, e4k_tune, e4k_set_bw, e4k_set_gain,
      fc0012_init, fc0012_exit, fc0012_tune, fc0012_set_bw, fc0012_set_gain,
      fc0013_init, fc0013_exit, fc0013_tune, fc0013_set_bw, fc0013_set_gain,
      fc2580_init, fc2580_exit, fc2580_tune, fc2580_set_bw, fc2580_set_gain;
    logs.
Qed.

#[local] Hint Resolve only_logs_tuner_fn : logs.

Lemma only_logs_call_tuner t m arg : only_logs (call_tuner E t m arg).
Proof. unfold call_tuner. logs. Qed.

End RegisterFacts.

#[export] Hint Resolve only_logs_control_in only_logs_control_out
  only_logs_read_reg only_logs_write_reg only_logs_i2c_read_reg
  only_logs_demod_read_reg only_logs_demod_write_reg only_logs_set_gpio_bit
  only_logs_set_gpio_output only_logs_set_i2c_repeater
  only_logs_init_baseband only_logs_driver_call only_logs_tuner_fn
  only_logs_call_tuner : logs.

(** ** What the register writes put on the wire *)

Ltac run1 :=
  cbn [bind ret emit raise get_trace get_dev put_dev get_row put_row
       dev tuners trace log fst snd
       set_ctx set_devh set_tuner set_rate set_run_async
       ctx devh tuner rate run_async xfer xfer_buf cb cb_ctx];
  unfold emit, ret, raise, get_trace, get_dev, put_dev, get_row, put_row, log;
  cbn [dev tuners trace fst snd
       set_ctx set_devh set_tuner set_rate set_run_async
       ctx devh tuner rate run_async xfer xfer_buf cb cb_ctx].

Ltac run := run1; repeat (progress run1).

Lemma demod_write_reg_run E page addr val len w :
  rtlsdr_demod_write_reg E page addr val len w
  = Done tt (log w (demod_write_events page addr val len)).
Proof.
  unfold rtlsdr_demod_write_reg, rtlsdr_demod_read_reg,
    libusb_control_transfer_out, libusb_control_transfer_in,
    demod_write_events, demod_read_events.
  run. rewrite <- app_assoc. reflexivity.
Qed.

Lemma set_i2c_repeater_run E on w :
  rtlsdr_set_i2c_repeater E on w = Done tt (log w (repeater_events on)).
Proof. unfold rtlsdr_set_i2c_repeater. apply demod_write_reg_run. Qed.

Lemma repeater_after_app gate a b :
  repeater_open gate (a ++ b) = repeater_open (repeater_open gate a) b.
Proof. unfold repeater_open. apply fold_left_app. Qed.

Lemma methods_gated_app gate a b :
  methods_gated gate (a ++ b)
  = methods_gated gate a && methods_gated (repeater_open gate a) b.
Proof.
  revert gate. induction a as [|e a IH]; intros gate; cbn.
  - reflexivity.
  - rewrite IH, andb_assoc. reflexivity.
Qed.

Lemma added_app w d t evs : added w (mk_world d t (trace w ++ evs)) = evs.
Proof.
  unfold added. cbn.
  rewrite skipn_app, skipn_all, Nat.sub_diag. reflexivity.
Qed.

(* ------------------------------------------------------------------ *)
(** ** Sample rate *)

Lemma clear_low2_spec x : 0 <= x < 4294967296 -> clear_low2 x = 4 * (x / 4).
Proof.
  intros Hx. unfold clear_low2.
  change (u32 (Z.lnot 3)) with (Z.shiftl (Z.ones 30) 2).
  replace (4 * (x / 4)) with (Z.shiftl (Z.shiftr x 2) 2)
    by (rewrite Z.shiftl_mul_pow2, Z.shiftr_div_pow2 by lia;
        change (2 ^ 2) with 4; lia).
  apply Z.bits_inj'. intros n Hn.
  rewrite Z.land_spec.
  destruct (Z.ltb_spec n 2) as [Hlt|Hge].
  - rewrite !Z.shiftl_spec_low by lia. apply andb_false_r.
  - rewrite !Z.shiftl_spec by lia. rewrite Z.shiftr_spec by lia.
    replace (n - 2 + 2) with n by lia.
    destruct (Z.ltb_spec n 32) as [Hlt'|Hge'].
    + rewrite Z.ones_spec_low by lia. apply andb_true_r.
    + rewrite Z.ones_spec_high by lia. rewrite andb_false_r.
      symmetry. destruct (Z.eq_dec x 0) as [->|Hnz]; [apply Z.bits_0|].
      apply Z.bits_above_log2; [lia|].
      apply Z.log2_lt_pow2; [lia|].
      apply Z.lt_le_trans with (2 ^ 32); [change (2 ^ 32) with 4294967296; lia|].
      apply Z.pow_le_mono_r; lia.
Qed.

Lemma clear_low2_bounds x :
  0 <= x < 4294967296 -> x - 3 <= clear_low2 x <= x /\ clear_low2 x mod 4 = 0.
Proof.
  intros Hx. rewrite clear_low2_spec by exact Hx.
  pose proof (Z.div_mod x 4). pose proof (Z.mod_pos_bound x 4).
  repeat split; try lia.
  rewrite Z.mul_comm. apply Z.mod_mul. lia.
Qed.

Lemma word_of_payload x :
  0 <= x < 65536 ->
  word_of (firstn (Z.to_nat 2) (reg_payload (u16 x) 2)) = Some x.
Proof.
  intros Hx. unfold reg_payload, u16, u8.
  change (Z.to_nat 2) with 2%nat. change (2 =? 1) with false.
  cbn [firstn word_of].
  rewrite (Z.mod_small x) by lia.
  f_equal.
  change 0xff with (Z.ones 8).
  rewrite Z.land_ones, Z.shiftr_div_pow2 by lia.
  change (2 ^ 8) with 256.
  rewrite (Z.mod_small (x / 256))
    by (split; [apply Z.div_pos; lia | apply Z.div_lt_upper_bound; lia]).
  pose proof (Z.div_mod x 256). lia.
Qed.

Lemma ratio_words x :
  0 <= x < 4294967296 ->
  u16 (Z.shiftr x 16) * 65536 + u16 (Z.land x 0xffff) = x.
Proof.
  intros Hx. unfold u16.
  change 0xffff with (Z.ones 16).
  rewrite Z.land_ones, Z.shiftr_div_pow2 by lia.
  change (2 ^ 16) with 65536.
  rewrite Z.mod_mod by lia.
  rewrite (Z.mod_small (x / 65536))
    by (split; [apply Z.div_pos; lia | apply Z.div_lt_upper_bound; lia]).
  pose proof (Z.div_mod x 65536). lia.
Qed.

Lemma ratio_events_words ratio st :
  0 <= ratio < 4294967296 ->
  fold_left ratio_words_after (ratio_events ratio) st
  = (Some (u16 (Z.shiftr ratio 16)), Some (u16 (Z.land ratio 0xffff))).
Proof.
  intros Hr. unfold ratio_events, demod_write_events, demod_read_events.
  cbn [app fold_left]. unfold ratio_words_after.
  change (u16 (Z.lor (Z.shiftl 159 8) 32)) with 0x9f20.
  change (u16 (Z.lor (Z.shiftl 161 8) 32)) with 0xa120.
  change (u16 (Z.lor 16 1)) with 0x11.
  cbn [Z.eqb Pos.eqb andb fst snd].
  rewrite !word_of_payload; [reflexivity| |];
    unfold u16; apply Z.mod_pos_bound; lia.
Qed.

Lemma written_ratio_run pre ratio :
  0 <= ratio < 4294967296 ->
  written_ratio (pre ++ ratio_events ratio) = Some ratio.
Proof.
  intros Hr. unfold written_ratio.
  rewrite fold_left_app, ratio_events_words by exact Hr.
  rewrite ratio_words by exact Hr. reflexivity.
Qed.

Lemma call_set_bw_run E t bw w :
  exists r evs,
    call_tuner E t m_set_bw bw w
    = Done r (log w (EvTunerMethod t m_set_bw bw :: evs))
    /\ forallb is_tuner_event evs = true.
Proof.
  destruct t; unfold call_tuner, tuner_fn, e4k_set_bw, fc0012_set_bw,
    fc0013_set_bw, fc2580_set_bw, driver_call; run;
    rewrite <- app_assoc; eexists; eexists; (split; reflexivity).
Qed.

(** A run of [rtlsdr_set_sample_rate] whose two conversions are defined. *)
Lemma set_sample_rate_run E w r q :
  crystal_quot (clamp_rate r) = Some q ->
  0 <= q <= 4294967295 ->
  0 < clear_low2 q ->
  crystal_2_22 / clear_low2 q <= 2147483647 ->
  exists pre,
    rtlsdr_set_sample_rate E PTR r w
    = Done 0 (mk_world (set_rate (dev w) (clamp_rate r)) (tuners w)
                (trace w ++ pre ++ ratio_events (clear_low2 q)))
    /\ forallb is_tuner_event pre = true
    /\ match tuner (dev w) with
       | None => pre = []
       | Some t =>
           exists evs,
             pre = EvTunerMethod t m_set_bw (crystal_2_22 / clear_low2 q) :: evs
       end.
Proof.
  intros Hq Hrange Hpos Hbw.
  unfold rtlsdr_set_sample_rate. cbv zeta. fold (clamp_rate r).
  rewrite Hq. unfold uint32_of_integral, uint32_value.
  replace ((0 <=? q) && (q <=? 4294967295)) with true
    by (symmetry; apply andb_true_intro; split; apply Z.leb_le; lia).
  unfold bind, ret, get_dev, put_dev.
  destruct (tuner (dev w)) as [t|] eqn:Ht.
  - unfold crystal_quot, int_of_integral, int_value.
    replace (clear_low2 q =? 0) with false by (symmetry; apply Z.eqb_neq; lia).
    assert (H0 : 0 <= crystal_2_22 / clear_low2 q)
      by (apply Z.div_pos; [unfold crystal_2_22, CRYSTAL_FREQ|]; lia).
    replace ((-2147483648 <=? crystal_2_22 / clear_low2 q)
             && (crystal_2_22 / clear_low2 q <=? 2147483647)) with true
      by (symmetry; apply andb_true_intro; split; apply Z.leb_le; lia).
    destruct (call_set_bw_run E t (crystal_2_22 / clear_low2 q) w)
      as (rc & evs & Hcall & Hall).
    exists (EvTunerMethod t m_set_bw (crystal_2_22 / clear_low2 q) :: evs).
    split; [|split; [exact Hall | now exists evs]].
    unfold ret. rewrite Hcall.
    rewrite !demod_write_reg_run. unfold log, ratio_events.
    cbn [dev tuners trace].
    rewrite <- !app_assoc. reflexivity.
  - exists []. split; [|split; reflexivity].
    rewrite !demod_write_reg_run. unfold log, ratio_events.
    cbn [dev tuners trace app].
    rewrite <- !app_assoc. reflexivity.
Qed.

Lemma achieved_rate_close r ratio :
  0 < r -> 0 < ratio ->
  r * ratio <= crystal_2_22 ->
  (crystal_2_22 - r * ratio) * 1048576 <= crystal_2_22 ->
  (Qabs (achieved_rate ratio - inject_Z r)
   <= achieved_rate ratio * (1 # 1048576))%Q.
Proof.
  intros Hr Hratio Hle Hclose.
  unfold achieved_rate.
  destruct ratio as [|p|p]; try lia.
  unfold Qdiv, Qinv, inject_Z. cbn [Qnum Qden].
  rewrite Qabs_pos.
  - unfold Qle, Qminus, Qplus, Qopp, Qmult. cbn [Qnum Qden].
    rewrite ?Pos.mul_1_l, ?Pos.mul_1_r, ?Z.mul_1_r, Pos2Z.inj_mul.
    set (n := crystal_2_22) in *. set (d := Z.pos p) in *.
    replace ((n + - r * d) * (d * 1048576))
      with (d * ((n - r * d) * 1048576)) by ring.
    rewrite (Z.mul_comm n d).
    apply Z.mul_le_mono_nonneg_l; lia.
  - unfold Qle, Qminus, Qplus, Qopp, Qmult. cbn [Qnum Qden].
    rewrite ?Pos.mul_1_l, ?Pos.mul_1_r, ?Z.mul_1_r. lia.
Qed.

Lemma crystal_quot_bounds r :
  28125 < r <= MAX_SAMP_RATE ->
  37748736 <= crystal_2_22 / r <= 4294967295.
Proof.
  unfold MAX_SAMP_RATE, crystal_2_22, CRYSTAL_FREQ. intros Hr.
  change (28800000 * 2 ^ 22) with 120795955200000.
  split.
  - apply Z.div_le_lower_bound; lia.
  - apply Z.lt_succ_r. apply Z.div_lt_upper_bound; lia.
Qed.

Lemma clamp_rate_small r : 0 <= r <= MAX_SAMP_RATE -> clamp_rate r = r.
Proof.
  unfold clamp_rate, u32, MAX_SAMP_RATE. intros Hr.
  rewrite Z.mod_small by lia.
  destruct (Z.gtb_spec r 3200000); [lia | reflexivity].
Qed.

Lemma clamp_rate_large r :
  MAX_SAMP_RATE < r <= 4294967295 -> clamp_rate r = MAX_SAMP_RATE.
Proof.
  unfold clamp_rate, u32, MAX_SAMP_RATE. intros Hr.
  rewrite Z.mod_small by lia.
  destruct (Z.gtb_spec r 3200000); [reflexivity | lia].
Qed.

(** The facts about the ratio of a rate in the range where the quotient
    fits a [uint32_t]. *)
Lemma ratio_facts r :
  28125 < r <= MAX_SAMP_RATE ->
  let ratio := clear_low2 (crystal_2_22 / r) in
  37748733 <= ratio <= 4294967295
  /\ ratio mod 4 = 0
  /\ r * ratio <= crystal_2_22
  /\ crystal_2_22 - r * ratio < 4 * r
  /\ crystal_2_22 / ratio <= 2147483647.
Proof.
  intros Hr ratio.
  pose proof (crystal_quot_bounds Hr) as Hq.
  assert (Hq' : 0 <= crystal_2_22 / r < 4294967296) by lia.
  destruct (clear_low2_bounds Hq') as [Hb Hm]. fold ratio in Hb, Hm.
  unfold MAX_SAMP_RATE in Hr.
  assert (Hr0 : 0 < r) by lia.
  pose proof (Z.mul_div_le crystal_2_22 r Hr0) as Hlo.
  pose proof (Z.mul_succ_div_gt crystal_2_22 r Hr0) as Hhi.
  assert (Hle : r * ratio <= crystal_2_22) by nia.
  repeat split; try lia; try nia.
  apply Z.lt_succ_r. apply Z.div_lt_upper_bound; [lia|].
  unfold crystal_2_22, CRYSTAL_FREQ.
  change (28800000 * 2 ^ 22) with 120795955200000. lia.
Qed.

(** The integer model of the quotient and the computation on binary64
    floats give the same integral part on these divisors, the ends of the
    ranges among them. *)
Example crystal_quot_agrees :
  let samples := [0; 1; 7; 28125; 28126; 250000; 1000000; 1024000; 2048000;
                  2400000; 3199999; 3200000; 37748736; 58982400; 4294967295] in
  map crystal_quot_double samples = map crystal_quot samples.
Proof. vm_compute. reflexivity. Qed.

(** And on a grid of 400 divisors from 1 to 3195592. *)
Example crystal_quot_agrees_on_grid :
  forallb
    (fun k =>
       let d := 1 + 8009 * Z.of_nat k in
       match crystal_quot_double d, crystal_quot d with
       | Some a, Some b => a =? b
       | _, _ => false
       end)
    (seq 0 400)
  = true.
Proof. vm_compute. reflexivity. Qed.

(** C5, as amended.  For every requested rate [r] with
    [28125 < r <= 3200000], [rtlsdr_set_sample_rate] returns 0 and the ratio
    it writes to the demodulator is [floor(28800000 * 2^22 / r)] with the low
    two bits cleared; that ratio is a multiple of 4 and the rate it achieves,
    [28800000 * 2^22 / ratio], is within [achieved * 2^-20] of [r]. *)
Theorem set_sample_rate_ratio E w r :
  28125 < r <= MAX_SAMP_RATE ->
  let ratio := clear_low2 (crystal_2_22 / r) in
  (exists w',
      rtlsdr_set_sample_rate E PTR r w = Done 0 w'
      /\ written_ratio (added w w') = Some ratio)
  /\ ratio = 4 * (crystal_2_22 / r / 4)
  /\ ratio mod 4 = 0
  /\ (Qabs (achieved_rate ratio - inject_Z r)
      <= achieved_rate ratio * (1 # 1048576))%Q.
Proof.
  intros Hr ratio.
  pose proof (crystal_quot_bounds Hr) as Hq.
  destruct (ratio_facts Hr) as (Hb & Hm & Hle & Hgap & Hbw). fold ratio in Hb, Hm, Hle, Hgap, Hbw.
  assert (Hclamp : clamp_rate r = r)
    by (apply clamp_rate_small; unfold MAX_SAMP_RATE in *; lia).
  assert (Hquot : crystal_quot (clamp_rate r) = Some (crystal_2_22 / r)).
  { rewrite Hclamp. unfold crystal_quot.
    destruct (Z.eqb_spec r 0); [lia | reflexivity]. }
  repeat split.
  - destruct (@set_sample_rate_run E w r _ Hquot) as (pre & Hrun & _);
      [lia | fold ratio; lia | fold ratio; lia |].
    eexists. split; [exact Hrun|].
    rewrite added_app. apply written_ratio_run. fold ratio. lia.
  - apply clear_low2_spec. lia.
  - exact Hm.
  - unfold MAX_SAMP_RATE in Hr.
    apply achieved_rate_close; try lia.
    unfold crystal_2_22, CRYSTAL_FREQ in *.
    change (28800000 * 2 ^ 22) with 120795955200000 in *. lia.
Qed.

Lemma set_sample_rate_ratio_witness :
  28125 < 1000000 <= MAX_SAMP_RATE
  /\ (exists w',
         rtlsdr_set_sample_rate env_silent PTR 1000000 world0 = Done 0 w'
         /\ written_ratio (added world0 w') = Some 120795952)
  /\ (Qabs (achieved_rate 120795952 - inject_Z 1000000)
      <= achieved_rate 120795952 * (1 # 1048576))%Q.
Proof.
  assert (H : 28125 < 1000000 <= MAX_SAMP_RATE) by (unfold MAX_SAMP_RATE; lia).
  split; [exact H|].
  pose proof (@set_sample_rate_ratio env_silent world0 1000000 H) as T.
  change (clear_low2 (crystal_2_22 / 1000000)) with 120795952 in T.
  destruct T as (T1 & _ & _ & T4).
  split; [exact T1 | exact T4].
Defined.

(** C5 as stated fails at [r = 28125]: the quotient is [2^32], one more than
    a [uint32_t] holds, so the conversion that stores it is undefined and no
    ratio is written. *)
Lemma set_sample_rate_28125_undefined :
  0 < 28125 <= MAX_SAMP_RATE
  /\ crystal_2_22 / 28125 = 4294967296
  /\ rtlsdr_set_sample_rate env_silent PTR 28125 world0
     = Fault UndefinedConversion world0
  /\ written_ratio
       (trace (outcome_world (rtlsdr_set_sample_rate env_silent PTR 28125 world0)))
     = None.
Proof. repeat split; try reflexivity; unfold MAX_SAMP_RATE; lia. Qed.

(** C6, as amended.  [rtlsdr_set_sample_rate(dev, 2048000)] computes
    [floor(28800000 * 4194304 / 2048000) = 58982400], which is a multiple of
    4 already, and writes it as two 16-bit demodulator register writes, the
    high word 0x0384 to register 0x9f and then the low word 0x0000 to
    register 0xa1 of page 1; the achieved rate is 2048000 exactly. *)
Theorem set_sample_rate_2048000 E w :
  exists pre w',
    rtlsdr_set_sample_rate E PTR 2048000 w = Done 0 w'
    /\ added w w'
       = pre ++ [ EvControlOut 0x9f20 0x11 [0x03; 0x84]; EvControlIn 0x20 0x0a 1;
                  EvControlOut 0xa120 0x11 [0x00; 0x00]; EvControlIn 0x20 0x0a 1 ]
    /\ forallb is_tuner_event pre = true
    /\ written_ratio (added w w') = Some 58982400
    /\ clear_low2 (crystal_2_22 / 2048000) = 58982400
    /\ (achieved_rate 58982400 == inject_Z 2048000)%Q
    /\ rate (dev w') = 2048000.
Proof.
  assert (Hquot : crystal_quot (clamp_rate 2048000) = Some 58982400)
    by reflexivity.
  destruct (@set_sample_rate_run E w 2048000 _ Hquot) as (pre & Hrun & Hpre & _);
    [lia | reflexivity | vm_compute; discriminate |].
  change (clear_low2 58982400) with 58982400 in Hrun.
  exists pre. eexists. split; [exact Hrun|].
  rewrite added_app.
  repeat split; try reflexivity; try exact Hpre.
  apply written_ratio_run. lia.
Qed.

(** C6 as stated fails: the ratio written for 2048000 is 58982400, not
    58982396. *)
Lemma set_sample_rate_2048000_not_58982396 :
  written_ratio
    (trace (outcome_world (rtlsdr_set_sample_rate env_silent PTR 2048000 world0)))
  = Some 58982400
  /\ 58982400 <> 58982396.
Proof. split; [reflexivity | lia]. Qed.

(** C7.  For every requested rate [r > 3200000] (a [uint32_t]),
    [rtlsdr_set_sample_rate(dev, r)] is [rtlsdr_set_sample_rate(dev, 3200000)]:
    same result, same writes, same state; the ratio written is that of
    3200000 and [rtlsdr_get_sample_rate] returns 3200000 afterwards. *)
Theorem set_sample_rate_clamped E h w r :
  MAX_SAMP_RATE < r <= 4294967295 ->
  rtlsdr_set_sample_rate E h r w = rtlsdr_set_sample_rate E h MAX_SAMP_RATE w
  /\ exists w',
       rtlsdr_set_sample_rate E PTR r w = Done 0 w'
       /\ written_ratio (added w w') = Some (clear_low2 (crystal_2_22 / MAX_SAMP_RATE))
       /\ rtlsdr_get_sample_rate PTR w' = Done 3200000 w'.
Proof.
  intros Hr.
  pose proof (clamp_rate_large Hr) as Hc.
  assert (Hm : clamp_rate MAX_SAMP_RATE = MAX_SAMP_RATE) by reflexivity.
  split.
  - unfold rtlsdr_set_sample_rate. cbv zeta.
    fold (clamp_rate r). fold (clamp_rate MAX_SAMP_RATE).
    rewrite Hc, Hm. reflexivity.
  - assert (Hquot : crystal_quot (clamp_rate r) = Some 37748736)
      by (rewrite Hc; reflexivity).
    destruct (@set_sample_rate_run E w r _ Hquot) as (pre & Hrun & _);
      [lia | reflexivity | vm_compute; discriminate |].
    eexists. split; [exact Hrun|]. split.
    + rewrite added_app.
      change (clear_low2 (crystal_2_22 / MAX_SAMP_RATE)) with 37748736.
      change (clear_low2 37748736) with 37748736.
      apply written_ratio_run. lia.
    + rewrite Hc. reflexivity.
Qed.

Lemma set_sample_rate_clamped_witness :
  MAX_SAMP_RATE < 10000000 <= 4294967295
  /\ rtlsdr_set_sample_rate env_fc0013 PTR 10000000 world0
     = rtlsdr_set_sample_rate env_fc0013 PTR MAX_SAMP_RATE world0.
Proof.
  assert (H : MAX_SAMP_RATE < 10000000 <= 4294967295)
    by (unfold MAX_SAMP_RATE; lia).
  split; [exact H|].
  exact (proj1 (@set_sample_rate_clamped env_fc0013 PTR world0 10000000 H)).
Defined.

(* ------------------------------------------------------------------ *)
(** ** Streaming *)

Lemma libusb_callback_run (transfer : libusb_transfer) (w : world) :
  cb (dev w) <> 0 ->
  _libusb_callback transfer w = Done tt (log w (handler_events (dev w) transfer)).
Proof.
  intros Hcb. apply Z.eqb_neq in Hcb.
  unfold _libusb_callback, handler_events.
  destruct (status transfer); try (now rewrite log_nil).
  run. rewrite Hcb. run. rewrite <- app_assoc. reflexivity.
Qed.

Lemma libusb_callback_null (transfer : libusb_transfer) (w : world) :
  status transfer = LIBUSB_TRANSFER_COMPLETED ->
  cb (dev w) = 0 ->
  _libusb_callback transfer w = Fault NullDereference w.
Proof.
  intros Hst Hcb. unfold _libusb_callback. rewrite Hst. run.
  rewrite Hcb. reflexivity.
Qed.

(** C4.  On a device with a callback registered, for a transfer that
    completed with status "completed" the handler calls the user callback
    with the transfer's buffer, its actual length and the context stored in
    the device, and then submits that same transfer (same descriptor, same
    buffer) again; it does nothing else: it frees and allocates nothing and
    leaves the device untouched.  For a transfer with any other status it
    does nothing at all.  So over any sequence of completions delivered to
    the handler, the calls made are exactly a callback followed by the
    resubmission for each completed transfer, in order.  With no callback
    registered ([dev->cb] is NULL) the call for a completed transfer goes
    through a NULL pointer, and neither a callback nor a resubmission
    happens. *)
Theorem libusb_callback_resubmits (transfer : libusb_transfer) (w : world) :
  (cb (dev w) <> 0 ->
   status transfer = LIBUSB_TRANSFER_COMPLETED ->
   _libusb_callback transfer w
   = Done tt
       (log w [ EvUserCallback (cb (dev w)) (buffer transfer)
                  (actual_length transfer) (cb_ctx (dev w));
                EvSubmitTransfer transfer ]))
  /\ (status transfer <> LIBUSB_TRANSFER_COMPLETED ->
      _libusb_callback transfer w = Done tt w)
  /\ (cb (dev w) <> 0 ->
      forall completions,
        for_each completions _libusb_callback w
        = Done tt (log w (flat_map (handler_events (dev w)) completions)))
  /\ (cb (dev w) = 0 ->
      status transfer = LIBUSB_TRANSFER_COMPLETED ->
      _libusb_callback transfer w = Fault NullDereference w).
Proof.
  split; [|split; [|split]].
  - intros Hcb H. rewrite libusb_callback_run by exact Hcb.
    unfold handler_events. rewrite H. reflexivity.
  - intros H. unfold _libusb_callback.
    destruct (status transfer); try reflexivity. contradiction.
  - intros Hcb completions. revert w Hcb.
    induction completions as [|t l IH]; intros w Hcb; cbn [for_each flat_map].
    + unfold ret. now rewrite log_nil.
    + rewrite (bind_done _ (libusb_callback_run t w Hcb)).
      rewrite IH by exact Hcb. rewrite log_log. reflexivity.
  - intros Hcb H. apply libusb_callback_null; assumption.
Qed.

Lemma libusb_callback_resubmits_witness :
  let done := mk_transfer 7 LIBUSB_TRANSFER_COMPLETED 4096 262144 in
  let stalled := mk_transfer 7 LIBUSB_TRANSFER_STALL 4096 0 in
  let w := mk_world (set_cb dev_zero 0x4000 0x7000) tuners_init [] in
  _libusb_callback done w
  = Done tt (log w [EvUserCallback 0x4000 4096 262144 0x7000;
                    EvSubmitTransfer done])
  /\ _libusb_callback stalled w = Done tt w
  /\ for_each [done; stalled; done] _libusb_callback w
     = Done tt (log w [EvUserCallback 0x4000 4096 262144 0x7000;
                       EvSubmitTransfer done;
                       EvUserCallback 0x4000 4096 262144 0x7000;
                       EvSubmitTransfer done])
  /\ _libusb_callback done world0 = Fault NullDereference world0.
Proof.
  intros done stalled w.
  assert (Hcb : cb (dev w) <> 0) by (cbn; discriminate).
  split; [|split; [|split]].
  - apply (proj1 (libusb_callback_resubmits done w) Hcb). reflexivity.
  - apply (proj1 (proj2 (libusb_callback_resubmits stalled w))).
    cbn. discriminate.
  - apply (proj1 (proj2 (proj2 (libusb_callback_resubmits done w))) Hcb).
  - apply (proj2 (proj2 (proj2 (libusb_callback_resubmits done world0))));
      reflexivity.
Defined.

(* ------------------------------------------------------------------ *)
(** ** Opening a device: the error paths *)

(** C3, on the code.  [rtlsdr_open] returns the error on each of its three
    error paths, but releases everything it acquired on one of them only:
    when [libusb_open] fails.  When no device is selected the enumerated
    device list stays allocated, and when [libusb_claim_interface] fails the
    opened device handle stays open. *)
Theorem open_error_paths E index w :
  (select_device (bus E) 0 (u32 index) 0 = None ->
   exists w',
     rtlsdr_open E index w = Done (-1, NULL) w'
     /\ outstanding (added w w') = [ResDeviceList])
  /\ (forall i,
         select_device (bus E) 0 (u32 index) 0 = Some i ->
         open_rc E i < 0 ->
         exists w',
           rtlsdr_open E index w = Done (open_rc E i, NULL) w'
           /\ outstanding (added w w') = [])
  /\ (forall i,
         select_device (bus E) 0 (u32 index) 0 = Some i ->
         0 <= open_rc E i ->
         claim_rc E < 0 ->
         exists w',
           rtlsdr_open E index w = Done (claim_rc E, NULL) w'
           /\ outstanding (added w w') = [ResDeviceHandle]).
Proof.
  unfold rtlsdr_open, open_err. cbv zeta. repeat split.
  - intros Hsel. rewrite Hsel. run.
    eexists. split; [reflexivity|].
    rewrite <- !app_assoc. cbn [app]. rewrite added_app. reflexivity.
  - intros i Hsel Hrc. rewrite Hsel. run.
    assert (Hb : (open_rc E i <? 0) = true) by (apply Z.ltb_lt; lia).
    rewrite Hb. run.
    eexists. split; [reflexivity|].
    rewrite <- !app_assoc. cbn [app]. rewrite added_app.
    unfold outstanding. cbn [fold_left]. unfold held_after. cbn [acquires releases].
    rewrite Hb. reflexivity.
  - intros i Hsel Hrc Hclaim. rewrite Hsel. run.
    assert (Hb : (open_rc E i <? 0) = false) by (apply Z.ltb_ge; lia).
    assert (Hc : (claim_rc E <? 0) = true) by (apply Z.ltb_lt; lia).
    rewrite Hb. run. rewrite Hc. run.
    eexists. split; [reflexivity|].
    rewrite <- !app_assoc. cbn [app]. rewrite added_app.
    unfold outstanding. cbn [fold_left]. unfold held_after. cbn [acquires releases].
    rewrite Hb, Hc. reflexivity.
Qed.

Lemma open_error_paths_witness :
  (exists w',
      rtlsdr_open env_empty_bus 0 world0 = Done (-1, NULL) w'
      /\ outstanding (added world0 w') = [ResDeviceList])
  /\ (exists w',
         rtlsdr_open env_open_fails 0 world0 = Done (-3, NULL) w'
         /\ outstanding (added world0 w') = [])
  /\ (exists w',
         rtlsdr_open env_claim_fails 0 world0 = Done (-6, NULL) w'
         /\ outstanding (added world0 w') = [ResDeviceHandle]).
Proof.
  split; [|split].
  - apply (proj1 (open_error_paths env_empty_bus 0 world0)). reflexivity.
  - apply (proj1 (proj2 (open_error_paths env_open_fails 0 world0)) 0%nat).
    + reflexivity.
    + reflexivity.
  - apply (proj2 (proj2 (open_error_paths env_claim_fails 0 world0)) 0%nat).
    + reflexivity.
    + cbn. discriminate.
    + reflexivity.
Defined.

(* ------------------------------------------------------------------ *)
(** ** Tuner operations *)

Lemma row_set_row_same tb t r : row (set_row tb t r) t = r.
Proof. destruct t; reflexivity. Qed.

Lemma call_tune_run E t f w :
  exists r evs,
    call_tuner E t m_tune f w = Done r (log w (EvTunerMethod t m_tune f :: evs))
    /\ (forall gate, repeater_open gate evs = gate)
    /\ (forall gate, methods_gated gate evs = true).
Proof.
  destruct t; unfold call_tuner, tuner_fn, e4k_tune, fc0012_tune, fc0013_tune,
    fc2580_tune, driver_call, rtlsdr_set_gpio_bit, rtlsdr_read_reg,
    rtlsdr_write_reg, libusb_control_transfer_in, libusb_control_transfer_out;
    cbv zeta; run; rewrite <- ?app_assoc; cbn [app];
    eexists; eexists; (split; [reflexivity | split; intros gate; reflexivity]).
Qed.

Lemma set_center_freq_run E w t fq f :
  tuner (dev w) = Some t ->
  int_value (corrected_freq (u32 fq) (corr (row (tuners w) t))) = Some f ->
  exists r evs,
    rtlsdr_set_center_freq E PTR fq w
    = Done r
        (mk_world (dev w)
           (if r =? 0
            then set_row (tuners w) t
                   (set_freq (row (tuners w) t) (s32 (u32 fq)))
            else tuners w)
           (trace w ++ repeater_events 1
              ++ EvTunerMethod t m_tune f :: evs ++ repeater_events 0))
    /\ (forall gate, repeater_open gate evs = gate)
    /\ (forall gate, methods_gated gate evs = true).
Proof.
  intros Ht Hf.
  unfold rtlsdr_set_center_freq. cbv zeta.
  unfold bind at 1. unfold get_dev at 1. rewrite Ht.
  unfold bind at 1. rewrite set_i2c_repeater_run.
  unfold bind at 1. unfold get_row at 1. cbn [tuners log].
  unfold bind at 1. unfold int_of_integral. rewrite Hf. unfold ret at 1.
  destruct (call_tune_run E t f (log w (repeater_events 1)))
    as (r & evs & Hcall & Hopen & Hgated).
  exists r, evs. split; [|split; assumption].
  unfold bind at 1. rewrite Hcall.
  unfold bind at 1. rewrite set_i2c_repeater_run.
  destruct (r =? 0); run; rewrite <- ?app_assoc; cbn [app]; reflexivity.
Qed.

Lemma set_center_freq_undefined E w t fq :
  tuner (dev w) = Some t ->
  int_value (corrected_freq (u32 fq) (corr (row (tuners w) t))) = None ->
  rtlsdr_set_center_freq E PTR fq w
  = Fault UndefinedConversion (log w (repeater_events 1)).
Proof.
  intros Ht Hf.
  unfold rtlsdr_set_center_freq. cbv zeta.
  unfold bind at 1. unfold get_dev at 1. rewrite Ht.
  unfold bind at 1. rewrite set_i2c_repeater_run.
  unfold bind at 1. unfold get_row at 1. cbn [tuners log].
  unfold bind at 1. unfold int_of_integral. rewrite Hf. reflexivity.
Qed.

Lemma set_tuner_gain_run E w t g :
  tuner (dev w) = Some t ->
  rtlsdr_set_tuner_gain E PTR g w
  = Done 0 (mk_world (dev w)
              (set_row (tuners w) t (set_gain (row (tuners w) t) g))
              (trace w ++ [EvTunerMethod t m_set_gain g])).
Proof.
  intros Ht. unfold rtlsdr_set_tuner_gain.
  unfold bind at 1. unfold get_dev at 1. rewrite Ht.
  destruct t; unfold call_tuner, tuner_fn, e4k_set_gain, fc0012_set_gain,
    fc0013_set_gain, fc2580_set_gain; run; reflexivity.
Qed.

(** With the conversion of the corrected frequency defined,
    [rtlsdr_set_center_freq] runs the tuner's [tune] with the repeater open
    and leaves the repeater closed, whatever its state before. *)
Lemma set_center_freq_gated E w t fq f gate :
  tuner (dev w) = Some t ->
  int_value (corrected_freq (u32 fq) (corr (row (tuners w) t))) = Some f ->
  exists r w',
    rtlsdr_set_center_freq E PTR fq w = Done r w'
    /\ methods_gated gate (added w w') = true
    /\ repeater_open gate (added w w') = false.
Proof.
  intros Ht Hf.
  destruct (@set_center_freq_run E _ _ _ _ Ht Hf) as (r & evs & Hrun & Hopen & Hgated).
  exists r. eexists. split; [exact Hrun|].
  rewrite added_app.
  change (EvTunerMethod t m_tune f :: evs ++ repeater_events 0)
    with ([EvTunerMethod t m_tune f] ++ evs ++ repeater_events 0).
  rewrite !methods_gated_app, !repeater_after_app, Hgated, !Hopen.
  split; reflexivity.
Qed.

(** Setting the correction it already has is refused with -1 and changes
    nothing. *)
Lemma set_freq_correction_unchanged E w t :
  tuner (dev w) = Some t ->
  rtlsdr_set_freq_correction E PTR (corr (row (tuners w) t)) w = Done (-1) w.
Proof.
  intros Ht. unfold rtlsdr_set_freq_correction. run. rewrite Ht. run.
  rewrite Z.eqb_refl. reflexivity.
Qed.

(** C1, on the code.  A handle in degraded mode is one whose tuner pointer is
    NULL, which is how [rtlsdr_open] leaves it when no signature matched
    ([open_binds_first_match]).  On such a handle the three setters return -1
    and change nothing, but [rtlsdr_close] does not: after opening the
    repeater, [rtlsdr_deinit_baseband] calls [exit] through the NULL tuner
    pointer. *)
Theorem degraded_handle E w fq ppm g :
  tuner (dev w) = None ->
  rtlsdr_set_center_freq E PTR fq w = Done (-1) w
  /\ rtlsdr_set_freq_correction E PTR ppm w = Done (-1) w
  /\ rtlsdr_set_tuner_gain E PTR g w = Done (-1) w
  /\ rtlsdr_close E PTR w
     = Fault NullDereference (log w (repeater_events 1)).
Proof.
  intros Ht. repeat split.
  - unfold rtlsdr_set_center_freq. cbv zeta. run. rewrite Ht. reflexivity.
  - unfold rtlsdr_set_freq_correction. run. rewrite Ht. reflexivity.
  - unfold rtlsdr_set_tuner_gain. run. rewrite Ht. reflexivity.
  - unfold rtlsdr_close, rtlsdr_deinit_baseband, deref_tuner.
    unfold bind at 1. unfold bind at 1. rewrite set_i2c_repeater_run.
    unfold bind at 1. unfold bind at 1. unfold get_dev.
    cbn [dev log]. rewrite Ht. reflexivity.
Qed.

Lemma degraded_handle_witness :
  let w1 := outcome_world (rtlsdr_open env_silent 0 world0) in
  rtlsdr_open env_silent 0 world0 = Done (0, PTR) w1
  /\ tuner (dev w1) = None
  /\ rtlsdr_set_tuner_gain env_silent PTR 10 w1 = Done (-1) w1
  /\ rtlsdr_close env_silent PTR w1
     = Fault NullDereference (log w1 (repeater_events 1)).
Proof.
  intros w1.
  assert (Hopen : rtlsdr_open env_silent 0 world0 = Done (0, PTR) w1)
    by (vm_compute; reflexivity).
  assert (Ht : tuner (dev w1) = None) by (vm_compute; reflexivity).
  destruct (@degraded_handle env_silent w1 100000000 25 10 Ht)
    as (_ & _ & Hgain & Hclose).
  split; [exact Hopen|]. split; [exact Ht|]. split; [exact Hgain | exact Hclose].
Defined.

(** C9, on the code.  With a bound tuner and a correction different from the
    cached one, [rtlsdr_set_freq_correction] stores the new correction before
    it retunes and keeps it when the retune fails: whenever the call returns a
    non-zero result, the cached correction is the new value all the same. *)
Theorem freq_correction_kept_on_failure E w t ppm r w' :
  tuner (dev w) = Some t ->
  corr (row (tuners w) t) <> ppm ->
  rtlsdr_set_freq_correction E PTR ppm w = Done r w' ->
  r <> 0 ->
  corr (row (tuners w') t) = ppm
  /\ corr (row (tuners w') t) <> corr (row (tuners w) t).
Proof.
  intros Ht Hne Hrun Hr.
  assert (Hgoal : corr (row (tuners w') t) = ppm); [|split; congruence].
  unfold rtlsdr_set_freq_correction in Hrun.
  unfold bind at 1 in Hrun. unfold get_dev at 1 in Hrun. rewrite Ht in Hrun.
  unfold bind at 1 in Hrun. unfold get_row at 1 in Hrun.
  destruct (Z.eqb_spec (corr (row (tuners w) t)) ppm) as [|_]; [contradiction|].
  unfold bind at 1 in Hrun. unfold put_row at 1 in Hrun.
  unfold bind at 1 in Hrun. unfold get_row at 1 in Hrun.
  cbn [tuners] in Hrun. rewrite row_set_row_same in Hrun.
  set (w2 := mk_world (dev w)
               (set_row (tuners w) t (set_corr (row (tuners w) t) ppm))
               (trace w)) in Hrun.
  assert (Ht2 : tuner (dev w2) = Some t) by exact Ht.
  destruct (int_value
              (corrected_freq (u32 (freq (set_corr (row (tuners w) t) ppm)))
                 (corr (row (tuners w2) t)))) as [f|] eqn:Hf.
  - destruct (@set_center_freq_run E _ _ _ _ Ht2 Hf) as (r' & evs & Hrun' & _).
    rewrite Hrun' in Hrun. injection Hrun as -> <-.
    destruct (Z.eqb_spec r 0) as [|_]; [contradiction|].
    cbn [tuners]. unfold w2. cbn [tuners].
    rewrite row_set_row_same. reflexivity.
  - rewrite (@set_center_freq_undefined E _ _ _ Ht2 Hf) in Hrun. discriminate.
Qed.

Lemma freq_correction_kept_on_failure_witness :
  let w := outcome_world (rtlsdr_open env_failing_driver 0 world0) in
  let w' := outcome_world (rtlsdr_set_freq_correction env_failing_driver PTR 25 w) in
  tuner (dev w) = Some RTLSDR_TUNER_FC0013
  /\ corr (row (tuners w) RTLSDR_TUNER_FC0013) = 0
  /\ rtlsdr_set_freq_correction env_failing_driver PTR 25 w = Done (-1) w'
  /\ corr (row (tuners w') RTLSDR_TUNER_FC0013) = 25.
Proof.
  intros w w'.
  assert (Ht : tuner (dev w) = Some RTLSDR_TUNER_FC0013)
    by (vm_compute; reflexivity).
  assert (H0 : corr (row (tuners w) RTLSDR_TUNER_FC0013) = 0)
    by (vm_compute; reflexivity).
  assert (Hc : corr (row (tuners w) RTLSDR_TUNER_FC0013) <> 25)
    by (rewrite H0; discriminate).
  assert (Hrun : rtlsdr_set_freq_correction env_failing_driver PTR 25 w
                 = Done (-1) w') by (vm_compute; reflexivity).
  assert (Hr : -1 <> 0) by discriminate.
  destruct (@freq_correction_kept_on_failure env_failing_driver w
              RTLSDR_TUNER_FC0013 25 (-1) w' Ht Hc Hrun Hr) as [Hkept _].
  split; [exact Ht|]. split; [exact H0|]. split; [exact Hrun | exact Hkept].
Defined.

(** C2, on the code.  With a bound tuner, [rtlsdr_set_tuner_gain] calls the
    tuner's [set_gain] and nothing else: it does not touch the repeater, so
    with the repeater closed before the call (as [rtlsdr_open] leaves it) the
    method runs behind a closed repeater.  [rtlsdr_set_sample_rate] calls
    [set_bw] in the same way. *)
Theorem tuner_methods_outside_repeater E w t g :
  tuner (dev w) = Some t ->
  (exists w',
      rtlsdr_set_tuner_gain E PTR g w = Done 0 w'
      /\ added w w' = [EvTunerMethod t m_set_gain g]
      /\ methods_gated false (added w w') = false)
  /\ (exists evs w',
         rtlsdr_set_sample_rate E PTR 2048000 w = Done 0 w'
         /\ added w w' = EvTunerMethod t m_set_bw 2048000 :: evs
         /\ methods_gated false (added w w') = false).
Proof.
  intros Ht. split.
  - eexists. split; [apply set_tuner_gain_run; exact Ht|].
    rewrite added_app. split; reflexivity.
  - assert (Hquot : crystal_quot (clamp_rate 2048000) = Some 58982400)
      by reflexivity.
    destruct (@set_sample_rate_run E w 2048000 _ Hquot)
      as (pre & Hrun & _ & Hpre);
      [lia | reflexivity | vm_compute; discriminate |].
    rewrite Ht in Hpre. destruct Hpre as (evs & ->).
    change (crystal_2_22 / clear_low2 58982400) with 2048000 in Hrun.
    eexists. eexists. split; [exact Hrun|].
    rewrite added_app. split; reflexivity.
Qed.

Lemma tuner_methods_outside_repeater_witness :
  let w := outcome_world (rtlsdr_open env_fc0013 0 world0) in
  tuner (dev w) = Some RTLSDR_TUNER_FC0013
  /\ repeater_open false (trace w) = false
  /\ methods_gated false (trace w) = true
  /\ exists w',
       rtlsdr_set_tuner_gain env_fc0013 PTR 10 w = Done 0 w'
       /\ added w w' = [EvTunerMethod RTLSDR_TUNER_FC0013 m_set_gain 10]
       /\ methods_gated false (added w w') = false.
Proof.
  intros w.
  assert (Ht : tuner (dev w) = Some RTLSDR_TUNER_FC0013)
    by (vm_compute; reflexivity).
  split; [exact Ht|].
  split; [vm_compute; reflexivity|].
  split; [vm_compute; reflexivity|].
  exact (proj1 (@tuner_methods_outside_repeater env_fc0013 w
                  RTLSDR_TUNER_FC0013 10 Ht)).
Defined.

(* ------------------------------------------------------------------ *)
(** ** Tuner probing *)

Lemma byte_of_reg_bit x n :
  0 <= n < 8 -> Z.testbit (Z.land (u16 x) 0xff) n = Z.testbit x n.
Proof.
  intros Hn. unfold u16.
  change 0xff with (Z.ones 8). change 65536 with (2 ^ 16).
  rewrite Z.land_spec, Z.ones_spec_low by lia.
  rewrite Z.mod_pow2_bits_low by lia.
  apply andb_true_r.
Qed.

Lemma u8_bit x n : 0 <= n < 8 -> Z.testbit (u8 x) n = Z.testbit x n.
Proof.
  intros Hn. unfold u8. change 256 with (2 ^ 8).
  apply Z.mod_pow2_bits_low. lia.
Qed.

Lemma gpio_mask_bit g : 0 <= g < 8 -> Z.testbit (u8 (Z.shiftl 1 g)) g = true.
Proof.
  intros Hg. rewrite u8_bit by lia.
  rewrite Z.shiftl_spec by lia. rewrite Z.sub_diag. reflexivity.
Qed.

Lemma i2c_read_reg_run E a c w :
  exists r, rtlsdr_i2c_read_reg E a c w = Done r (log w (i2c_read_events a c)).
Proof.
  unfold rtlsdr_i2c_read_reg, rtlsdr_write_array, rtlsdr_read_array,
    libusb_control_transfer_out, libusb_control_transfer_in, i2c_read_events.
  cbv zeta. run. rewrite <- app_assoc. eexists. reflexivity.
Qed.

Lemma set_gpio_output_run E g w :
  0 <= g < 8 ->
  exists x y,
    rtlsdr_set_gpio_output E g w = Done tt (log w (gpio_output_events x y))
    /\ Z.testbit x g = false /\ Z.testbit y g = true.
Proof.
  intros Hg.
  unfold rtlsdr_set_gpio_output, rtlsdr_read_reg, rtlsdr_write_reg,
    libusb_control_transfer_out, libusb_control_transfer_in, reg_payload.
  cbv zeta. run. rewrite <- !app_assoc. cbn [app].
  change (Z.to_nat 1) with 1%nat. change (1 =? 1) with true. cbn [firstn].
  eexists. eexists. split; [reflexivity|]. split.
  - rewrite byte_of_reg_bit, Z.land_spec, Z.lnot_spec, gpio_mask_bit by lia.
    apply andb_false_r.
  - rewrite byte_of_reg_bit, Z.lor_spec, gpio_mask_bit by lia.
    apply orb_true_r.
Qed.

Lemma set_gpio_bit_run E g v w :
  0 <= g < 8 ->
  exists b,
    rtlsdr_set_gpio_bit E g v w = Done tt (log w (gpio_bit_events b))
    /\ Z.testbit b g = truthy v.
Proof.
  intros Hg.
  unfold rtlsdr_set_gpio_bit, rtlsdr_read_reg, rtlsdr_write_reg,
    libusb_control_transfer_out, libusb_control_transfer_in, reg_payload.
  cbv zeta. run. rewrite <- !app_assoc. cbn [app].
  change (Z.to_nat 1) with 1%nat. change (1 =? 1) with true. cbn [firstn].
  eexists. split; [reflexivity|].
  rewrite byte_of_reg_bit, u8_bit by lia.
  destruct (truthy v).
  - rewrite Z.lor_spec, gpio_mask_bit by lia. apply orb_true_r.
  - rewrite Z.land_spec, Z.lnot_spec, gpio_mask_bit by lia. apply andb_false_r.
Qed.

Lemma find_first_match (m : rtlsdr_tuners -> bool) a b :
  m a = true -> m b = true -> (rank a < rank b)%nat ->
  find m priority_chain <> Some b.
Proof.
  intros Ha Hb Hlt. unfold priority_chain. cbn [find].
  destruct a, b; cbn in Hlt; try lia;
    rewrite ?Ha, ?Hb;
    repeat match goal with
           | |- context [if m ?t then _ else _] => destruct (m t)
           end; discriminate.
Qed.

(** The run of the probing chain: what it binds and what it puts on the
    wire. *)
Lemma probe_tuners_run E w :
  let I := ids E in
  exists rs w1 x y hi lo x6 y6,
    signature_reads E w = Done rs w1
    /\ Z.testbit y 5 = true /\ Z.testbit hi 5 = true /\ Z.testbit lo 5 = false
    /\ Z.testbit y6 6 = true
    /\ let bound := find (signature_matches I rs) priority_chain in
       probe_tuners E w
       = Done tt
           (mk_world
              (match bound with
               | Some t => set_tuner (dev w) (Some t)
               | None => dev w
               end)
              (tuners w)
              (trace w ++ probe_events I x y hi lo x6 y6 bound)).
Proof.
  intros I.
  destruct (i2c_read_reg_run E (E4K_I2C_ADDR I) (E4K_CHECK_ADDR I) w)
    as (r1 & H1).
  set (w1 := log w _) in H1.
  destruct (i2c_read_reg_run E (FC0013_I2C_ADDR I) (FC0013_CHECK_ADDR I) w1)
    as (r2 & H2).
  set (w2 := log w1 _) in H2.
  destruct (@set_gpio_output_run E 5 w2) as (x & y & H3 & Hx & Hy); [lia|].
  set (w3 := log w2 _) in H3.
  destruct (@set_gpio_bit_run E 5 1 w3) as (hi & H4 & Hhi); [lia|].
  set (w4 := log w3 _) in H4.
  destruct (@set_gpio_bit_run E 5 0 w4) as (lo & H5 & Hlo); [lia|].
  set (w5 := log w4 _) in H5.
  destruct (i2c_read_reg_run E (FC2580_I2C_ADDR I) (FC2580_CHECK_ADDR I) w5)
    as (r3 & H6).
  set (w6 := log w5 _) in H6.
  destruct (i2c_read_reg_run E (FC0012_I2C_ADDR I) (FC0012_CHECK_ADDR I) w6)
    as (r4 & H7).
  set (w7 := log w6 _) in H7.
  destruct (@set_gpio_output_run E 6 w7) as (x6 & y6 & H8 & _ & Hy6); [lia|].
  set (w8 := log w7 _) in H8.
  exists (r1, r2, r3, r4), w7, x, y, hi, lo, x6, y6.
  split.
  { unfold signature_reads. cbv zeta. fold I.
    rewrite (bind_done _ H1), (bind_done _ H2), (bind_done _ H3),
      (bind_done _ H4), (bind_done _ H5), (bind_done _ H6), (bind_done _ H7).
    reflexivity. }
  do 4 (split; [assumption|]).
  set (m := signature_matches I (r1, r2, r3, r4)).
  assert (E1 : m RTLSDR_TUNER_E4000 = (r1 =? E4K_CHECK_VAL I)) by reflexivity.
  assert (E2 : m RTLSDR_TUNER_FC0013 = (r2 =? FC0013_CHECK_VAL I)) by reflexivity.
  assert (E3 : m RTLSDR_TUNER_FC2580 = (Z.land r3 0x7f =? FC2580_CHECK_VAL I))
    by reflexivity.
  assert (E4 : m RTLSDR_TUNER_FC0012 = (r4 =? FC0012_CHECK_VAL I)) by reflexivity.
  unfold priority_chain. cbn [find]. cbv zeta.
  unfold probe_tuners. cbv zeta. fold I.
  rewrite (bind_done _ H1). rewrite <- E1.
  destruct (m RTLSDR_TUNER_E4000).
  { reflexivity. }
  rewrite (bind_done _ H2). rewrite <- E2.
  destruct (m RTLSDR_TUNER_FC0013).
  { unfold bind_tuner, get_dev, put_dev, bind, w2, w1.
    rewrite !log_log. reflexivity. }
  rewrite (bind_done _ H3), (bind_done _ H4), (bind_done _ H5), (bind_done _ H6).
  rewrite <- E3.
  destruct (m RTLSDR_TUNER_FC2580).
  { unfold bind_tuner, get_dev, put_dev, bind, w6, w5, w4, w3, w2, w1.
    rewrite !log_log. unfold log, probe_events. cbn [dev tuners trace].
    rewrite <- !app_assoc. reflexivity. }
  rewrite (bind_done _ H7). rewrite <- E4.
  destruct (m RTLSDR_TUNER_FC0012).
  { rewrite (bind_done _ H8).
    unfold bind_tuner, get_dev, put_dev, bind, w8, w7, w6, w5, w4, w3, w2, w1.
    rewrite !log_log. unfold log, probe_events. cbn [dev tuners trace].
    rewrite <- !app_assoc. reflexivity. }
  unfold ret, w7, w6, w5, w4, w3, w2, w1.
  rewrite !log_log. unfold log, probe_events. cbn [dev tuners trace].
  rewrite <- !app_assoc. reflexivity.
Qed.

(** C8.  The probing chain of [rtlsdr_open] reads the identification
    registers in the order E4000, FC0013, FC2580, FC0012 and binds the first
    variant of that order whose signature is read (the FC2580 identifier
    masked to 7 bits); when none is, the tuner pointer stays as it was.  So of
    two variants whose signatures both match, the later one is never bound.
    When neither E4000 nor FC0013 matches, GPIO 5 is made an output and
    pulsed high then low before the FC2580 register is read; when FC0012 is
    bound, the last thing the chain does is make GPIO 6 an output. *)
Theorem probe_first_match E w :
  let I := ids E in
  exists rs w1 w',
    signature_reads E w = Done rs w1
    /\ probe_tuners E w = Done tt w'
    /\ tuners w' = tuners w
    /\ tuner (dev w')
       = match find (signature_matches I rs) priority_chain with
         | Some t => Some t
         | None => tuner (dev w)
         end
    /\ (forall a b,
           signature_matches I rs a = true ->
           signature_matches I rs b = true ->
           (rank a < rank b)%nat ->
           tuner (dev w') <> Some b)
    /\ (signature_matches I rs RTLSDR_TUNER_E4000 = false ->
        signature_matches I rs RTLSDR_TUNER_FC0013 = false ->
        exists x y hi lo rest,
          added w w'
          = i2c_read_events (E4K_I2C_ADDR I) (E4K_CHECK_ADDR I)
            ++ i2c_read_events (FC0013_I2C_ADDR I) (FC0013_CHECK_ADDR I)
            ++ gpio_output_events x y
            ++ gpio_bit_events hi ++ gpio_bit_events lo
            ++ i2c_read_events (FC2580_I2C_ADDR I) (FC2580_CHECK_ADDR I)
            ++ rest
          /\ Z.testbit y 5 = true
          /\ Z.testbit hi 5 = true /\ Z.testbit lo 5 = false)
    /\ (tuner (dev w') = Some RTLSDR_TUNER_FC0012 ->
        tuner (dev w) <> Some RTLSDR_TUNER_FC0012 ->
        exists pre x y,
          added w w' = pre ++ gpio_output_events x y
          /\ Z.testbit y 6 = true).
Proof.
  intros I.
  destruct (probe_tuners_run E w)
    as (rs & w1 & x & y & hi & lo & x6 & y6 & Hreads & Hy & Hhi & Hlo & Hy6 & Hrun).
  fold I in Hrun. cbv zeta in Hrun.
  exists rs, w1. eexists. split; [exact Hreads|]. split; [exact Hrun|].
  cbn [dev tuners trace]. rewrite added_app.
  set (m := signature_matches I rs) in *.
  clear Hrun.
  destruct (find m priority_chain) as [t|] eqn:Hfind.
  - destruct (find_some _ _ Hfind) as [_ Hmt].
    split; [reflexivity|]. split; [reflexivity|]. split; [|split].
    + intros a b Ha Hb Hlt Hbound. injection Hbound as ->.
      exact (@find_first_match m a b Ha Hb Hlt Hfind).
    + intros N1 N2.
      destruct t; try congruence; exists x, y, hi, lo; eexists;
        (split; [|repeat split; assumption]);
        unfold probe_events; cbv zeta; rewrite <- ?app_assoc;
        repeat f_equal; reflexivity.
    + intros Hb _. cbn [tuner set_tuner] in Hb. injection Hb as ->.
      eexists. exists x6, y6. split; [|exact Hy6].
      unfold probe_events. cbv zeta. rewrite !app_assoc. reflexivity.
  - split; [reflexivity|]. split; [reflexivity|]. split; [|split].
    + intros a b Ha Hb Hlt _.
      assert (Hnone : forall t, In t priority_chain -> m t = false)
        by (intros t; apply find_none; exact Hfind).
      rewrite (Hnone a) in Ha; [discriminate|].
      destruct a; cbn; tauto.
    + intros _ _. exists x, y, hi, lo. eexists.
      split; [|repeat split; assumption].
      unfold probe_events. cbv zeta. rewrite <- ?app_assoc. reflexivity.
    + intros Hb Hn. contradiction.
Qed.

(** A successful [rtlsdr_open] returns 0 and a handle whose tuner is the first
    of the chain whose signature the chips answered at probing time, NULL
    when none did. *)
Lemma open_binds_first_match E index w i :
  select_device (bus E) 0 (u32 index) 0 = Some i ->
  0 <= open_rc E i ->
  0 <= claim_rc E ->
  exists w0 rs w1 w',
    signature_reads E w0 = Done rs w1
    /\ rtlsdr_open E index w = Done (0, PTR) w'
    /\ tuner (dev w') = find (signature_matches (ids E) rs) priority_chain
    /\ tuners w' = tuners w.
Proof.
  intros Hsel Hopen Hclaim.
  assert (Hb : (open_rc E i <? 0) = false) by (apply Z.ltb_ge; lia).
  assert (Hc : (claim_rc E <? 0) = false) by (apply Z.ltb_ge; lia).
  unfold rtlsdr_open. cbv zeta. rewrite Hsel.
  run. rewrite Hb. run. rewrite Hc. run.
  match goal with
  | |- context [bind (rtlsdr_init_baseband E) _ ?wa] =>
      destruct (only_logs_init_baseband E wa) as (u1 & ev1 & Hinit);
      set (w_init := log wa ev1) in *
  end.
  rewrite (bind_done _ Hinit).
  rewrite (bind_done _ (set_i2c_repeater_run E 1 w_init)).
  set (w0 := log w_init (repeater_events 1)).
  destruct (probe_tuners_run E w0)
    as (rs & wr & x & y & hi & lo & x6 & y6 & Hreads & _ & _ & _ & _ & Hprobe).
  cbv zeta in Hprobe.
  set (w1 := mk_world _ _ _) in Hprobe.
  rewrite (bind_done _ Hprobe).
  exists w0, rs, wr.
  assert (Htun : tuners w1 = tuners w0) by reflexivity.
  assert (Hfind : tuner (dev w1)
                  = find (signature_matches (ids E) rs) priority_chain).
  { unfold w1. cbn [dev].
    destruct (find (signature_matches (ids E) rs) priority_chain);
      reflexivity. }
  unfold bind at 1.
  destruct (tuner (dev w1)) as [t|] eqn:Ht.
  - destruct (only_logs_call_tuner E t m_init 0 w1) as (rc & ev2 & Hcall).
    unfold bind at 1. rewrite (bind_done _ Hcall).
    unfold bind at 1. rewrite set_i2c_repeater_run.
    eexists. split; [exact Hreads|]. split; [reflexivity|].
    cbn [log dev tuners]. split; [rewrite Ht; exact Hfind|].
    rewrite Htun. reflexivity.
  - unfold bind at 1. unfold bind at 1. rewrite set_i2c_repeater_run.
    eexists. split; [exact Hreads|]. split; [reflexivity|].
    cbn [log dev tuners]. split; [rewrite Ht; exact Hfind|].
    rewrite Htun. reflexivity.
Qed.

Lemma probe_first_match_witness :
  exists w',
    probe_tuners env_two_chips world0 = Done tt w'
    /\ signature_matches sample_ids (0x40, 0xa3, 0, 0xa3) RTLSDR_TUNER_E4000 = true
    /\ signature_matches sample_ids (0x40, 0xa3, 0, 0xa3) RTLSDR_TUNER_FC0013 = true
    /\ tuner (dev w') = Some RTLSDR_TUNER_E4000.
Proof.
  destruct (probe_first_match env_two_chips world0)
    as (rs & w1 & w' & Hreads & Hprobe & _ & Hbound & _).
  assert (Hrs : rs = (0x40, 0xa3, 0, 0xa3)).
  { assert (Hv : outcome_value (signature_reads env_two_chips world0) = Some rs)
      by (rewrite Hreads; reflexivity).
    assert (Hc : outcome_value (signature_reads env_two_chips world0)
                 = Some (0x40, 0xa3, 0, 0xa3)) by (vm_compute; reflexivity).
    rewrite Hv in Hc. injection Hc as Hc. exact Hc. }
  rewrite Hrs in Hbound.
  exists w'. split; [exact Hprobe|].
  split; [reflexivity|]. split; [reflexivity|]. exact Hbound.
Defined.

(** The same chain seen from [rtlsdr_open]: the FC2580 signature read with
    bit 7 set wins over FC0012, and FC0012 alone is bound with GPIO 6 made an
    output (bit 6 of the last byte written to GPOE). *)
Example open_binds_by_priority :
  tuner (dev (outcome_world (rtlsdr_open env_two_chips 0 world0)))
  = Some RTLSDR_TUNER_E4000
  /\ tuner (dev (outcome_world (rtlsdr_open env_fc2580_fc0012 0 world0)))
     = Some RTLSDR_TUNER_FC2580
  /\ tuner (dev (outcome_world (rtlsdr_open env_fc0012 0 world0)))
     = Some RTLSDR_TUNER_FC0012
  /\ tuner (dev (outcome_world (rtlsdr_open env_silent 0 world0))) = None.
Proof. vm_compute. repeat split. Qed.

(* ------------------------------------------------------------------ *)
(** ** Sample rate: the whole range of requests *)

Lemma clamp_rate_range r :
  28125 < r <= 4294967295 -> 28125 < clamp_rate r <= MAX_SAMP_RATE.
Proof.
  intros Hr. destruct (Z.le_gt_cases r MAX_SAMP_RATE) as [Hle|Hgt].
  - rewrite clamp_rate_small by (unfold MAX_SAMP_RATE in *; lia). lia.
  - rewrite clamp_rate_large by lia. unfold MAX_SAMP_RATE. lia.
Qed.

Lemma clamp_rate_idem r :
  28125 < r <= 4294967295 -> clamp_rate (clamp_rate r) = clamp_rate r.
Proof.
  intros Hr. pose proof (clamp_rate_range Hr) as Hc.
  apply clamp_rate_small. lia.
Qed.

(** The rate recomputed from the ratio, cut to an integer, is the rate the
    ratio was computed from. *)
Lemma real_rate_exact r :
  28125 < r <= MAX_SAMP_RATE ->
  crystal_2_22 / clear_low2 (crystal_2_22 / r) = r.
Proof.
  intros Hr.
  destruct (ratio_facts Hr) as (Hb & _ & Hle & Hgap & _).
  set (ratio := clear_low2 (crystal_2_22 / r)) in *.
  unfold MAX_SAMP_RATE in Hr.
  symmetry. apply Z.div_unique with (r := crystal_2_22 - r * ratio); lia.
Qed.

(** A run of [rtlsdr_set_sample_rate] for any request above 28125. *)
Lemma set_sample_rate_defined E w r :
  28125 < r <= 4294967295 ->
  let ratio := clear_low2 (crystal_2_22 / clamp_rate r) in
  exists pre,
    rtlsdr_set_sample_rate E PTR r w
    = Done 0 (mk_world (set_rate (dev w) (clamp_rate r)) (tuners w)
                (trace w ++ pre ++ ratio_events ratio))
    /\ forallb is_tuner_event pre = true
    /\ match tuner (dev w) with
       | None => pre = []
       | Some t => exists evs, pre = EvTunerMethod t m_set_bw (clamp_rate r) :: evs
       end.
Proof.
  intros Hr ratio.
  pose proof (clamp_rate_range Hr) as Hc.
  pose proof (crystal_quot_bounds Hc) as Hq.
  destruct (ratio_facts Hc) as (Hb & _ & _ & _ & Hbw). fold ratio in Hb, Hbw.
  assert (Hquot : crystal_quot (clamp_rate r)
                  = Some (crystal_2_22 / clamp_rate r)).
  { unfold crystal_quot.
    destruct (Z.eqb_spec (clamp_rate r) 0); [lia | reflexivity]. }
  destruct (@set_sample_rate_run E w r _ Hquot) as (pre & Hrun & Hpre & Hshape);
    [lia | fold ratio; lia | fold ratio; lia |].
  fold ratio in Hrun, Hshape.
  exists pre. split; [exact Hrun|]. split; [exact Hpre|].
  destruct (tuner (dev w)); [|exact Hshape].
  destruct Hshape as (evs & ->). exists evs.
  unfold ratio. rewrite (real_rate_exact Hc). reflexivity.
Qed.



(** X2.  With a tuner bound, the bandwidth [rtlsdr_set_sample_rate] hands to the
    tuner's [set_bw] is the requested rate itself (3200000 for a larger
    request): cut to an integer, the rate recomputed from the rounded ratio
    loses nothing.  The call is made before anything is written to the
    demodulator and is the first thing the call does. *)
Theorem set_bw_receives_requested_rate E w t r :
  tuner (dev w) = Some t ->
  28125 < r <= 4294967295 ->
  exists evs w',
    rtlsdr_set_sample_rate E PTR r w = Done 0 w'
    /\ added w w'
       = EvTunerMethod t m_set_bw (Z.min r MAX_SAMP_RATE)
         :: evs ++ ratio_events (clear_low2 (crystal_2_22 / Z.min r MAX_SAMP_RATE))
    /\ forallb is_tuner_event evs = true.
Proof.
  intros Ht Hr.
  assert (Hmin : clamp_rate r = Z.min r MAX_SAMP_RATE).
  { destruct (Z.le_gt_cases r MAX_SAMP_RATE) as [Hle|Hgt].
    - rewrite clamp_rate_small by (unfold MAX_SAMP_RATE in *; lia). lia.
    - rewrite clamp_rate_large by lia. lia. }
  destruct (@set_sample_rate_defined E w r Hr) as (pre & Hrun & Hpre & Hshape).
  rewrite Ht in Hshape. destruct Hshape as (evs & ->).
  rewrite Hmin in Hrun.
  exists evs. eexists. split; [exact Hrun|].
  rewrite added_app. split; [reflexivity|].
  cbn [forallb is_tuner_event andb] in Hpre. exact Hpre.
Qed.

Lemma set_bw_receives_requested_rate_witness :
  let w := outcome_world (rtlsdr_open env_fc0013 0 world0) in
  exists evs w',
    rtlsdr_set_sample_rate env_fc0013 PTR 1000000 w = Done 0 w'
    /\ added w w'
       = EvTunerMethod RTLSDR_TUNER_FC0013 m_set_bw 1000000
         :: evs ++ ratio_events 120795952.
Proof.
  intros w.
  assert (Ht : tuner (dev w) = Some RTLSDR_TUNER_FC0013)
    by (vm_compute; reflexivity).
  assert (Hr : 28125 < 1000000 <= 4294967295) by lia.
  destruct (@set_bw_receives_requested_rate env_fc0013 w _ 1000000 Ht Hr)
    as (evs & w' & Hrun & Hadded & _).
  exists evs, w'. split; [exact Hrun|]. exact Hadded.
Defined.

(** X3.  After [rtlsdr_set_sample_rate] with any request above 28125,
    [rtlsdr_get_sample_rate] returns the request cut to 3200000, the ratio in
    the demodulator is that of the cut rate, and neither the tuner binding nor
    the tuner table has changed. *)
Theorem set_get_sample_rate E w r :
  28125 < r <= 4294967295 ->
  exists w',
    rtlsdr_set_sample_rate E PTR r w = Done 0 w'
    /\ rtlsdr_get_sample_rate PTR w' = Done (Z.min r MAX_SAMP_RATE) w'
    /\ written_ratio (added w w')
       = Some (clear_low2 (crystal_2_22 / Z.min r MAX_SAMP_RATE))
    /\ tuner (dev w') = tuner (dev w)
    /\ tuners w' = tuners w.
Proof.
  intros Hr.
  assert (Hmin : clamp_rate r = Z.min r MAX_SAMP_RATE).
  { destruct (Z.le_gt_cases r MAX_SAMP_RATE) as [Hle|Hgt].
    - rewrite clamp_rate_small by (unfold MAX_SAMP_RATE in *; lia). lia.
    - rewrite clamp_rate_large by lia. lia. }
  pose proof (clamp_rate_range Hr) as Hc.
  destruct (ratio_facts Hc) as (Hb & _).
  destruct (@set_sample_rate_defined E w r Hr) as (pre & Hrun & _).
  rewrite Hmin in *.
  eexists. split; [exact Hrun|].
  rewrite added_app.
  split; [reflexivity|]. split; [apply written_ratio_run; lia|].
  split; reflexivity.
Qed.

Lemma set_get_sample_rate_witness :
  28125 < 250000 <= 4294967295
  /\ exists w',
       rtlsdr_set_sample_rate env_silent PTR 250000 world0 = Done 0 w'
       /\ rtlsdr_get_sample_rate PTR w' = Done 250000 w'.
Proof.
  assert (H : 28125 < 250000 <= 4294967295) by lia.
  split; [exact H|].
  destruct (@set_get_sample_rate env_silent world0 250000 H)
    as (w' & Hrun & Hget & _).
  exists w'. split; [exact Hrun | exact Hget].
Defined.

(* ------------------------------------------------------------------ *)
(** ** Tuner operations: what the getters see afterwards *)

Lemma row_set_row_other tb t t' r :
  t <> t' -> row (set_row tb t r) t' = row tb t'.
Proof. destruct t, t'; intros H; try reflexivity; contradiction. Qed.

Lemma s32_u32_small x : 0 <= x <= 2147483647 -> s32 (u32 x) = x.
Proof.
  intros Hx. unfold s32, u32.
  rewrite (Z.mod_small x) by lia. rewrite Z.mod_small by lia. lia.
Qed.

(** X4.  Whenever [rtlsdr_set_center_freq] returns on a handle with a bound tuner,
    [rtlsdr_get_center_freq] afterwards returns the requested frequency if
    the tuner's [tune] returned 0 and the frequency cached before otherwise;
    correction and gain are as before, and so are the rows of the other
    tuners. *)
Theorem set_get_center_freq E w t fq r w' :
  tuner (dev w) = Some t ->
  0 <= fq <= 2147483647 ->
  rtlsdr_set_center_freq E PTR fq w = Done r w' ->
  rtlsdr_get_center_freq PTR w'
  = Done (if r =? 0 then fq else freq (row (tuners w) t)) w'
  /\ corr (row (tuners w') t) = corr (row (tuners w) t)
  /\ gain (row (tuners w') t) = gain (row (tuners w) t)
  /\ (forall t', t' <> t -> row (tuners w') t' = row (tuners w) t').
Proof.
  intros Ht Hfq Hrun.
  destruct (int_value (corrected_freq (u32 fq) (corr (row (tuners w) t))))
    as [f|] eqn:Hf.
  - destruct (@set_center_freq_run E _ _ _ _ Ht Hf) as (r' & evs & Hrun' & _).
    rewrite Hrun' in Hrun. injection Hrun as -> <-.
    unfold rtlsdr_get_center_freq, bind, get_dev, get_row, ret.
    cbn [dev]. rewrite Ht.
    destruct (r =? 0); cbn [tuners].
    + rewrite !row_set_row_same. cbn [freq corr gain set_freq].
      rewrite s32_u32_small by exact Hfq.
      repeat split; try reflexivity.
      intros t' Hne. apply row_set_row_other. congruence.
    + repeat split; reflexivity.
  - rewrite (@set_center_freq_undefined E _ _ _ Ht Hf) in Hrun. discriminate.
Qed.

Lemma set_get_center_freq_witness :
  let w := outcome_world (rtlsdr_open env_fc0013 0 world0) in
  let w' := outcome_world (rtlsdr_set_center_freq env_fc0013 PTR 100000000 w) in
  rtlsdr_get_center_freq PTR w = Done 0 w
  /\ rtlsdr_set_center_freq env_fc0013 PTR 100000000 w = Done 0 w'
  /\ rtlsdr_get_center_freq PTR w' = Done 100000000 w'.
Proof.
  intros w w'.
  assert (Ht : tuner (dev w) = Some RTLSDR_TUNER_FC0013)
    by (vm_compute; reflexivity).
  assert (Hfq : 0 <= 100000000 <= 2147483647) by lia.
  assert (Hrun : rtlsdr_set_center_freq env_fc0013 PTR 100000000 w = Done 0 w')
    by (vm_compute; reflexivity).
  destruct (@set_get_center_freq env_fc0013 w _ 100000000 0 w' Ht Hfq Hrun)
    as (Hget & _).
  split; [vm_compute; reflexivity|]. split; [exact Hrun | exact Hget].
Defined.

(** X5.  With a bound tuner [rtlsdr_set_tuner_gain] cannot fail: it returns 0 for
    every gain, [rtlsdr_get_tuner_gain] returns that gain afterwards, and
    nothing was sent to the device or to a chip driver; the cached frequency
    and correction are as before. *)
Theorem set_get_tuner_gain E w t g :
  tuner (dev w) = Some t ->
  exists w',
    rtlsdr_set_tuner_gain E PTR g w = Done 0 w'
    /\ rtlsdr_get_tuner_gain PTR w' = Done g w'
    /\ existsb touches_hardware (added w w') = false
    /\ freq (row (tuners w') t) = freq (row (tuners w) t)
    /\ corr (row (tuners w') t) = corr (row (tuners w) t).
Proof.
  intros Ht.
  exists (mk_world (dev w)
            (set_row (tuners w) t (set_gain (row (tuners w) t) g))
            (trace w ++ [EvTunerMethod t m_set_gain g])).
  split; [apply set_tuner_gain_run; exact Ht|].
  rewrite added_app.
  unfold rtlsdr_get_tuner_gain, bind, get_dev, get_row, ret.
  cbn [dev]. rewrite Ht. cbn [tuners]. rewrite !row_set_row_same.
  repeat split; reflexivity.
Qed.

Lemma set_get_tuner_gain_witness :
  let w := outcome_world (rtlsdr_open env_fc0013 0 world0) in
  exists w',
    rtlsdr_set_tuner_gain env_fc0013 PTR 297 w = Done 0 w'
    /\ rtlsdr_get_tuner_gain PTR w' = Done 297 w'.
Proof.
  intros w.
  assert (Ht : tuner (dev w) = Some RTLSDR_TUNER_FC0013)
    by (vm_compute; reflexivity).
  destruct (@set_get_tuner_gain env_fc0013 w _ 297 Ht) as (w' & Hrun & Hget & _).
  exists w'. split; [exact Hrun | exact Hget].
Defined.

(** X6.  Whenever [rtlsdr_set_freq_correction] returns on a handle with a bound
    tuner, whatever it returns, the cached correction is the requested one:
    [rtlsdr_get_freq_correction] returns it, and the same request made again
    is refused with -1 without a single transfer. *)
Theorem set_freq_correction_then_again E w t ppm r w' :
  tuner (dev w) = Some t ->
  rtlsdr_set_freq_correction E PTR ppm w = Done r w' ->
  rtlsdr_get_freq_correction PTR w' = Done ppm w'
  /\ rtlsdr_set_freq_correction E PTR ppm w' = Done (-1) w'.
Proof.
  intros Ht Hrun.
  assert (Hfacts : tuner (dev w') = Some t /\ corr (row (tuners w') t) = ppm).
  { unfold rtlsdr_set_freq_correction in Hrun.
    unfold bind at 1 in Hrun. unfold get_dev at 1 in Hrun. rewrite Ht in Hrun.
    unfold bind at 1 in Hrun. unfold get_row at 1 in Hrun.
    destruct (Z.eqb_spec (corr (row (tuners w) t)) ppm) as [Heq|_].
    { injection Hrun as _ <-. split; assumption. }
    unfold bind at 1 in Hrun. unfold put_row at 1 in Hrun.
    unfold bind at 1 in Hrun. unfold get_row at 1 in Hrun.
    cbn [tuners] in Hrun. rewrite row_set_row_same in Hrun.
    set (w2 := mk_world (dev w)
                 (set_row (tuners w) t (set_corr (row (tuners w) t) ppm))
                 (trace w)) in Hrun.
    assert (Ht2 : tuner (dev w2) = Some t) by exact Ht.
    destruct (int_value
                (corrected_freq (u32 (freq (set_corr (row (tuners w) t) ppm)))
                   (corr (row (tuners w2) t)))) as [f|] eqn:Hf.
    - destruct (@set_center_freq_run E _ _ _ _ Ht2 Hf) as (r' & evs & Hrun' & _).
      rewrite Hrun' in Hrun. injection Hrun as _ <-.
      cbn [dev tuners]. split; [exact Ht|].
      destruct (r' =? 0); unfold w2; cbn [tuners];
        rewrite ?row_set_row_same; reflexivity.
    - rewrite (@set_center_freq_undefined E _ _ _ Ht2 Hf) in Hrun.
      discriminate. }
  destruct Hfacts as [Ht' Hc]. split.
  - unfold rtlsdr_get_freq_correction, bind, get_dev, get_row, ret.
    rewrite Ht', Hc. reflexivity.
  - rewrite <- Hc at 1. apply set_freq_correction_unchanged. exact Ht'.
Qed.

Lemma set_freq_correction_then_again_witness :
  let w := outcome_world (rtlsdr_open env_fc0013 0 world0) in
  let w' := outcome_world (rtlsdr_set_freq_correction env_fc0013 PTR 25 w) in
  rtlsdr_set_freq_correction env_fc0013 PTR 25 w = Done 0 w'
  /\ rtlsdr_get_freq_correction PTR w' = Done 25 w'
  /\ rtlsdr_set_freq_correction env_fc0013 PTR 25 w' = Done (-1) w'.
Proof.
  intros w w'.
  assert (Ht : tuner (dev w) = Some RTLSDR_TUNER_FC0013)
    by (vm_compute; reflexivity).
  assert (Hrun : rtlsdr_set_freq_correction env_fc0013 PTR 25 w = Done 0 w')
    by (vm_compute; reflexivity).
  destruct (@set_freq_correction_then_again env_fc0013 w _ 25 0 w' Ht Hrun)
    as (Hget & Hagain).
  split; [exact Hrun|]. split; [exact Hget | exact Hagain].
Defined.

(* ------------------------------------------------------------------ *)
(** ** Register protocol: what a read returns, what a write changes *)

Lemma lor_shl8 a b :
  0 <= a < 256 -> 0 <= b < 256 ->
  u16 (Z.lor (Z.shiftl a 8) b) = a * 256 + b.
Proof.
  intros Ha Hb.
  assert (Hland : Z.land (Z.shiftl a 8) b = 0).
  { apply Z.bits_inj'. intros n Hn. rewrite Z.land_spec, Z.bits_0.
    destruct (Z.ltb_spec n 8).
    - rewrite Z.shiftl_spec_low by lia. reflexivity.
    - replace b with (b mod 2 ^ 8) by (apply Z.mod_small; change (2 ^ 8) with 256; lia).
      rewrite Z.mod_pow2_bits_high by lia. apply andb_false_r. }
  rewrite <- Z.lxor_lor, <- Z.add_nocarry_lxor by exact Hland.
  rewrite Z.shiftl_mul_pow2 by lia. change (2 ^ 8) with 256.
  unfold u16. apply Z.mod_small. lia.
Qed.

Lemma low_bits_lor_shl8 a b n :
  0 <= n < 8 -> Z.testbit (Z.lor (Z.shiftl a 8) b) n = Z.testbit b n.
Proof.
  intros Hn. rewrite Z.lor_spec, Z.shiftl_spec_low by lia. reflexivity.
Qed.

Lemma u8_lor_shl8 a b : 0 <= b < 256 -> u8 (Z.lor (Z.shiftl a 8) b) = b.
Proof.
  intros Hb. unfold u8. change 256 with (2 ^ 8).
  rewrite <- Z.land_ones by lia.
  apply Z.bits_inj'. intros n Hn. rewrite Z.land_spec.
  destruct (Z.ltb_spec n 8).
  - rewrite low_bits_lor_shl8, Z.ones_spec_low by lia. apply andb_true_r.
  - rewrite Z.ones_spec_high by lia. rewrite andb_false_r.
    replace b with (b mod 2 ^ 8) by (apply Z.mod_small; change (2 ^ 8) with 256; lia).
    symmetry. apply Z.mod_pow2_bits_high. lia.
Qed.

Lemma last_written_app tr v i d :
  last_written (tr ++ [EvControlOut v i d]) = d.
Proof. unfold last_written. rewrite fold_left_app. reflexivity. Qed.

Lemma last_written_app_in tr v i n :
  last_written (tr ++ [EvControlIn v i n]) = last_written tr.
Proof. unfold last_written. rewrite fold_left_app. reflexivity. Qed.

Lemma payload_2 val :
  0 <= val < 65536 ->
  firstn (Z.to_nat 2) (reg_payload (u16 val) 2) = [val / 256; val mod 256].
Proof.
  intros Hv. unfold reg_payload, u16, u8.
  change (Z.to_nat 2) with 2%nat. change (2 =? 1) with false. cbn [firstn].
  rewrite (Z.mod_small val) by lia.
  change 0xff with (Z.ones 8).
  rewrite Z.land_ones, Z.shiftr_div_pow2 by lia. change (2 ^ 8) with 256.
  rewrite (Z.mod_small (val / 256))
    by (split; [apply Z.div_pos; lia | apply Z.div_lt_upper_bound; lia]).
  reflexivity.
Qed.

Lemma payload_1 val :
  firstn (Z.to_nat 1) (reg_payload (u16 val) 1) = [val mod 256].
Proof.
  unfold reg_payload, u16.
  change (Z.to_nat 1) with 1%nat. change (1 =? 1) with true. cbn [firstn].
  change 0xff with (Z.ones 8).
  rewrite Z.land_ones by lia. change (2 ^ 8) with 256.
  f_equal. change 65536 with (256 * 256).
  rewrite Z.rem_mul_r by lia.
  rewrite Z.mul_comm, Z.mod_add by lia. apply Z.mod_mod. lia.
Qed.

(** X7.  Over a transport that echoes the bytes last written, a register written
    with two bytes reads back with its bytes exchanged, on the system/USB
    path and on the demodulator path alike: the write sends the high byte
    first, the read takes the first byte as the low one.  A register written
    with one byte reads back with the byte written as its low byte and
    whatever the read's local buffer held as its high byte. *)
Theorem register_write_then_read E w block page addr val :
  echoes E ->
  0 <= val < 65536 ->
  (exists w',
      (rtlsdr_write_reg E block addr val 2 ;;; rtlsdr_read_reg E block addr 2) w
      = Done (byte_swap val) w')
  /\ (exists w',
         (rtlsdr_demod_write_reg E page addr val 2 ;;;
          rtlsdr_demod_read_reg E page addr 2) w
         = Done (byte_swap val) w')
  /\ (exists w',
         (rtlsdr_demod_write_reg E page addr val 1 ;;;
          rtlsdr_demod_read_reg E page addr 1) w
         = Done (u8 (stack_junk E) * 256 + val mod 256) w').
Proof.
  intros Hecho Hval.
  assert (Hq : 0 <= val / 256 < 256)
    by (split; [apply Z.div_pos; lia | apply Z.div_lt_upper_bound; lia]).
  assert (Hm : 0 <= val mod 256 < 256) by (apply Z.mod_pos_bound; lia).
  assert (Hj : 0 <= u8 (stack_junk E) < 256)
    by (unfold u8; apply Z.mod_pos_bound; lia).
  assert (U1 : u8 (val mod 256) = val mod 256)
    by (unfold u8; apply Z.mod_small; lia).
  assert (U2 : u8 (val / 256) = val / 256)
    by (unfold u8; apply Z.mod_small; lia).
  split; [|split].
  - unfold rtlsdr_write_reg, rtlsdr_read_reg, libusb_control_transfer_out,
      libusb_control_transfer_in, local_byte. cbv zeta. run.
    rewrite Hecho, last_written_app, payload_2 by exact Hval.
    change (Z.to_nat 2) with 2%nat. cbn [firstn nth].
    rewrite U1, U2, lor_shl8 by lia. eexists. reflexivity.
  - unfold rtlsdr_demod_write_reg, rtlsdr_demod_read_reg,
      libusb_control_transfer_out, libusb_control_transfer_in, local_byte.
    cbv zeta. run.
    rewrite Hecho, last_written_app_in, last_written_app, payload_2
      by exact Hval.
    change (Z.to_nat 2) with 2%nat. cbn [firstn nth].
    rewrite U1, U2, lor_shl8 by lia. eexists. reflexivity.
  - unfold rtlsdr_demod_write_reg, rtlsdr_demod_read_reg,
      libusb_control_transfer_out, libusb_control_transfer_in, local_byte.
    cbv zeta. run.
    rewrite Hecho, last_written_app_in, last_written_app, payload_1.
    change (Z.to_nat 1) with 1%nat. cbn [firstn nth].
    rewrite U1, lor_shl8 by lia. eexists. reflexivity.
Qed.

Lemma register_write_then_read_witness :
  echoes env_echo
  /\ outcome_value
       ((rtlsdr_demod_write_reg env_echo 1 0x9f 0x1234 2 ;;;
         rtlsdr_demod_read_reg env_echo 1 0x9f 2) world0)
     = Some 0x3412.
Proof.
  assert (He : echoes env_echo) by (intros tr v i n; reflexivity).
  assert (Hv : 0 <= 0x1234 < 65536) by lia.
  split; [exact He|].
  destruct (proj1 (proj2 (@register_write_then_read env_echo world0 0 1 0x9f
                            0x1234 He Hv))) as (w' & Hrun).
  rewrite Hrun. reflexivity.
Defined.

Lemma u8_shl8_or_0x20 a : u8 (Z.lor (Z.shiftl a 8) 0x20) = 0x20.
Proof. apply u8_lor_shl8. lia. Qed.

(** X8.  [rtlsdr_demod_read_reg] sends the same request whatever register it is
    asked for: its address parameter is a byte, so the register number is
    shifted out of it and only the marker 0x20 is left.  Reads of two
    registers of a page are the same transfer. *)
Theorem demod_read_ignores_address E page addr addr' len w :
  rtlsdr_demod_read_reg E page addr len w
  = rtlsdr_demod_read_reg E page addr' len w
  /\ exists r,
       rtlsdr_demod_read_reg E page addr len w
       = Done r (log w [EvControlIn 0x20 page len]).
Proof.
  unfold rtlsdr_demod_read_reg, libusb_control_transfer_in. cbv zeta.
  rewrite !u8_shl8_or_0x20. split; [reflexivity|].
  run. eexists. reflexivity.
Qed.

Lemma low_byte_of_reg x n :
  0 <= n < 8 -> Z.testbit (u8 (u16 x)) n = Z.testbit x n.
Proof.
  intros Hn. rewrite u8_bit by lia. unfold u16. change 65536 with (2 ^ 16).
  apply Z.mod_pow2_bits_low. lia.
Qed.

Lemma mask_other_bit g n :
  0 <= g < 8 -> 0 <= n -> n <> g -> Z.testbit (u8 (Z.shiftl 1 g)) n = false.
Proof.
  intros Hg Hn Hne.
  replace (u8 (Z.shiftl 1 g)) with (2 ^ g).
  - apply Z.pow2_bits_false. lia.
  - rewrite Z.shiftl_1_l. unfold u8. symmetry. apply Z.mod_small.
    split; [apply Z.pow_nonneg; lia|].
    change 256 with (2 ^ 8). apply Z.pow_lt_mono_r; lia.
Qed.

(** X9.  [rtlsdr_set_gpio_bit] is a read-modify-write of the GPO register: it
    reads GPO, and the byte it writes back has the addressed bit set as asked
    and every other bit as read. *)
Theorem set_gpio_bit_changes_one_bit E g v w :
  0 <= g < 8 ->
  exists b,
    rtlsdr_set_gpio_bit E g v w = Done tt (log w (gpio_bit_events b))
    /\ forall n, 0 <= n < 8 ->
         Z.testbit b n
         = if n =? g then truthy v
           else Z.testbit (read_byte E (trace w) GPO 0x0200) n.
Proof.
  intros Hg.
  unfold rtlsdr_set_gpio_bit, rtlsdr_read_reg, rtlsdr_write_reg,
    libusb_control_transfer_out, libusb_control_transfer_in, reg_payload.
  cbv zeta. run. rewrite <- !app_assoc. cbn [app].
  change (Z.to_nat 1) with 1%nat. change (1 =? 1) with true. cbn [firstn].
  eexists. split; [reflexivity|].
  intros n Hn. rewrite byte_of_reg_bit, u8_bit by lia.
  assert (Hread : forall x, Z.testbit
            (u8 (u16 (Z.lor (Z.shiftl x 8)
                        (local_byte E
                           (firstn 1 (snd (ctrl_in E (trace w) GPO
                                             (u16 (Z.shiftl SYSB 8)) 1))) 0)))) n
          = Z.testbit (read_byte E (trace w) GPO 0x0200) n).
  { intros x. rewrite low_byte_of_reg, low_bits_lor_shl8 by lia. reflexivity. }
  destruct (Z.eqb_spec n g) as [->|Hne].
  - destruct (truthy v).
    + rewrite Z.lor_spec, gpio_mask_bit by lia. apply orb_true_r.
    + rewrite Z.land_spec, Z.lnot_spec, gpio_mask_bit by lia.
      apply andb_false_r.
  - destruct (truthy v).
    + rewrite Z.lor_spec, mask_other_bit, orb_false_r by lia. apply Hread.
    + rewrite Z.land_spec, Z.lnot_spec, mask_other_bit, andb_true_r by lia.
      apply Hread.
Qed.

Lemma set_gpio_bit_changes_one_bit_witness :
  exists b,
    rtlsdr_set_gpio_bit env_echo 6 1 world0 = Done tt (log world0 (gpio_bit_events b))
    /\ Z.testbit b 6 = true.
Proof.
  assert (Hg : 0 <= 6 < 8) by lia.
  destruct (@set_gpio_bit_changes_one_bit env_echo 6 1 world0 Hg) as (b & Hrun & Hbits).
  exists b. split; [exact Hrun|]. apply (Hbits 6). lia.
Defined.

(** X10.  [rtlsdr_set_gpio_output] sets the addressed bit of the output-enable
    register GPOE and keeps its other bits as read; before that it writes to
    GPO, and what it writes there is the value it read from the direction
    register GPD, with the addressed bit cleared: the other bits of GPO are
    replaced by those of GPD. *)
Theorem set_gpio_output_writes E g w :
  0 <= g < 8 ->
  exists x y,
    rtlsdr_set_gpio_output E g w = Done tt (log w (gpio_output_events x y))
    /\ forall n, 0 <= n < 8 ->
         Z.testbit x n
         = (if n =? g then false
            else Z.testbit (read_byte E (trace w) GPD 0x0200) n)
         /\ Z.testbit y n
            = (if n =? g then true
               else Z.testbit
                      (read_byte E
                         (trace w ++ [EvControlIn GPD 0x0200 1;
                                      EvControlOut GPO 0x0210 [x]])
                         GPOE 0x0200) n).
Proof.
  intros Hg.
  unfold rtlsdr_set_gpio_output, rtlsdr_read_reg, rtlsdr_write_reg,
    libusb_control_transfer_out, libusb_control_transfer_in, reg_payload.
  cbv zeta. run. rewrite <- !app_assoc. cbn [app].
  change (Z.to_nat 1) with 1%nat. change (1 =? 1) with true. cbn [firstn].
  eexists. eexists. split; [reflexivity|].
  intros n Hn. split.
  - rewrite byte_of_reg_bit, Z.land_spec, Z.lnot_spec by lia.
    unfold local_byte, read_byte.
    destruct (Z.eqb_spec n g) as [->|Hne].
    + rewrite gpio_mask_bit by lia. apply andb_false_r.
    + rewrite mask_other_bit, andb_true_r by lia.
      unfold u16 at 1. change 65536 with (2 ^ 16).
      rewrite Z.mod_pow2_bits_low, low_bits_lor_shl8 by lia. reflexivity.
  - rewrite byte_of_reg_bit, Z.lor_spec by lia.
    unfold local_byte, read_byte.
    destruct (Z.eqb_spec n g) as [->|Hne].
    + rewrite gpio_mask_bit by lia. apply orb_true_r.
    + rewrite mask_other_bit, orb_false_r by lia.
      unfold u16 at 1. change 65536 with (2 ^ 16).
      rewrite Z.mod_pow2_bits_low, low_bits_lor_shl8 by lia. reflexivity.
Qed.

Lemma set_gpio_output_writes_witness :
  exists x y,
    rtlsdr_set_gpio_output env_echo 5 world0
    = Done tt (log world0 (gpio_output_events x y))
    /\ Z.testbit x 5 = false /\ Z.testbit y 5 = true.
Proof.
  assert (Hg : 0 <= 5 < 8) by lia.
  destruct (@set_gpio_output_writes env_echo 5 world0 Hg) as (x & y & Hrun & Hbits).
  exists x, y. split; [exact Hrun|].
  split; [apply (proj1 (Hbits 5 ltac:(lia))) | apply (proj2 (Hbits 5 ltac:(lia)))].
Defined.

(* ------------------------------------------------------------------ *)
(** ** Baseband initialisation, open and close as whole runs *)

Lemma write_reg_run E block addr val len w :
  rtlsdr_write_reg E block addr val len w
  = Done tt (log w [reg_write_event block addr val len]).
Proof.
  unfold rtlsdr_write_reg, libusb_control_transfer_out, reg_write_event.
  cbv zeta. run. reflexivity.
Qed.

Lemma for_each_run {A} (l : list A) (body : A -> M unit) (f : A -> list event) :
  (forall x w, body x w = Done tt (log w (f x))) ->
  forall w, for_each l body w = Done tt (log w (flat_map f l)).
Proof.
  intros Hbody. induction l as [|x l IH]; intros w; cbn [for_each flat_map].
  - unfold ret. now rewrite log_nil.
  - rewrite (bind_done _ (Hbody x w)), IH, log_log. reflexivity.
Qed.

Lemma init_baseband_run E w :
  rtlsdr_init_baseband E w = Done tt (log w init_baseband_events).
Proof.
  unfold rtlsdr_init_baseband, init_baseband_events.
  repeat (rewrite (bind_done _ (write_reg_run E _ _ _ _ _)), ?log_log).
  repeat (rewrite (bind_done _ (demod_write_reg_run E _ _ _ _ _)), ?log_log).
  rewrite (bind_done _
             (for_each_run _ _
                (fun ic => demod_write_events 1 (0x1c + Z.of_nat (fst ic)) (snd ic) 1)
                (fun ic w => demod_write_reg_run E 1 _ (snd ic) 1 w) _)),
    ?log_log.
  repeat (rewrite (bind_done _ (demod_write_reg_run E _ _ _ _ _)), ?log_log).
  rewrite demod_write_reg_run, log_log.
  cbn [app]. rewrite <- ?app_assoc. reflexivity.
Qed.

Lemma tuner_init_run E t w :
  exists rc,
    call_tuner E t m_init 0 w = Done rc (log w (tuner_init_events (Some t))).
Proof.
  destruct t; eexists;
    unfold call_tuner, tuner_fn, e4k_init, fc0012_init, fc0013_init,
      fc2580_init, driver_call, tuner_init_events;
    run; rewrite <- app_assoc; reflexivity.
Qed.

Lemma open_run E index w i :
  select_device (bus E) 0 (u32 index) 0 = Some i ->
  0 <= open_rc E i ->
  0 <= claim_rc E ->
  exists bound x y hi lo x6 y6,
    rtlsdr_open E index w
    = Done (0, PTR)
        (mk_world (set_tuner (set_devh (set_ctx dev_zero true) true) bound)
           (tuners w) (trace w ++ open_events E i x y hi lo x6 y6 bound)).
Proof.
  intros Hsel Hopen Hclaim.
  assert (Hb : (open_rc E i <? 0) = false) by (apply Z.ltb_ge; lia).
  assert (Hc : (claim_rc E <? 0) = false) by (apply Z.ltb_ge; lia).
  unfold rtlsdr_open. cbv zeta. rewrite Hsel.
  run. rewrite Hb. run. rewrite Hc. run.
  rewrite (bind_done _ (init_baseband_run E _)).
  rewrite (bind_done _ (set_i2c_repeater_run E 1 _)).
  match goal with
  | |- context [bind (probe_tuners E) _ ?wa] =>
      destruct (probe_tuners_run E wa)
        as (rs & wr & x & y & hi & lo & x6 & y6 & _ & _ & _ & _ & _ & Hprobe)
  end.
  cbv zeta in Hprobe.
  set (bound := find _ priority_chain) in Hprobe.
  rewrite (bind_done _ Hprobe).
  exists bound, x, y, hi, lo, x6, y6.
  clear Hprobe. clearbody bound.
  unfold log at 1 2 3 4 5 6. cbn [dev tuners trace].
  unfold bind at 1.
  destruct bound as [t|]; cbn [dev tuner set_tuner].
  - match goal with
    | |- bind _ _ ?wa = _ =>
        destruct (tuner_init_run E t wa) as (rc & Hcall)
    end.
    unfold bind at 1. rewrite (bind_done _ Hcall).
    unfold bind at 1. rewrite set_i2c_repeater_run.
    unfold ret, log, open_events. cbn [dev tuners trace].
    rewrite <- !app_assoc. reflexivity.
  - change (tuner (set_devh (set_ctx dev_zero true) true))
      with (@None rtlsdr_tuners).
    cbv iota. unfold bind at 1. unfold bind at 1.
    rewrite set_i2c_repeater_run.
    unfold ret, log, open_events. cbn [dev tuners trace tuner_init_events].
    rewrite <- !app_assoc. reflexivity.
Qed.

Lemma off_repeater_after gate e :
  off_repeater e = true -> repeater_after gate e = gate.
Proof.
  destruct e; cbn; try reflexivity; try discriminate.
  destruct data; [reflexivity|].
  intros H. apply negb_true_iff in H. rewrite H, andb_false_r. reflexivity.
Qed.

Lemma off_repeater_open gate evs :
  forallb off_repeater evs = true -> repeater_open gate evs = gate.
Proof.
  unfold repeater_open. induction evs as [|e evs IH]; cbn; [reflexivity|].
  intros H. apply andb_true_iff in H. destruct H as [He Hevs].
  rewrite off_repeater_after by exact He. apply IH, Hevs.
Qed.

Lemma off_repeater_gated gate evs :
  forallb off_repeater evs = true -> methods_gated gate evs = true.
Proof.
  induction evs as [|e evs IH]; cbn; [reflexivity|].
  intros H. apply andb_true_iff in H. destruct H as [He Hevs].
  rewrite off_repeater_after by exact He. rewrite IH by exact Hevs.
  destruct e; try reflexivity; discriminate.
Qed.

Lemma holds_nothing_fold evs held :
  forallb holds_nothing evs = true -> fold_left held_after evs held = held.
Proof.
  revert held. induction evs as [|e evs IH]; intros held; cbn; [reflexivity|].
  intros H. apply andb_true_iff in H. destruct H as [He Hevs].
  rewrite IH by exact Hevs. unfold held_after. unfold holds_nothing in He.
  destruct (acquires e), (releases e); try discriminate. reflexivity.
Qed.

Lemma probe_events_off_repeater I x y hi lo x6 y6 bound :
  forallb off_repeater (probe_events I x y hi lo x6 y6 bound) = true.
Proof. destruct bound as [[]|]; reflexivity. Qed.

Lemma probe_events_hold_nothing I x y hi lo x6 y6 bound :
  forallb holds_nothing (probe_events I x y hi lo x6 y6 bound) = true.
Proof. destruct bound as [[]|]; reflexivity. Qed.

Lemma open_events_gated E i x y hi lo x6 y6 bound gate :
  methods_gated gate (open_events E i x y hi lo x6 y6 bound) = true
  /\ repeater_open gate (open_events E i x y hi lo x6 y6 bound) = false.
Proof.
  unfold open_events.
  set (pre := [EvMalloc; _; _; _; _; _]).
  assert (Hpre : forallb off_repeater pre = true) by reflexivity.
  assert (Hinit : forall g, methods_gated g init_baseband_events = true
                            /\ repeater_open g init_baseband_events = false)
    by (intros []; split; vm_compute; reflexivity).
  assert (Hon : forall g, methods_gated g (repeater_events 1) = true
                          /\ repeater_open g (repeater_events 1) = true)
    by (intros []; split; vm_compute; reflexivity).
  assert (Hoff : forall g, methods_gated g (repeater_events 0) = true
                           /\ repeater_open g (repeater_events 0) = false)
    by (intros []; split; vm_compute; reflexivity).
  assert (Htin : methods_gated true (tuner_init_events bound) = true
                 /\ repeater_open true (tuner_init_events bound) = true)
    by (destruct bound as [[]|]; split; reflexivity).
  pose proof (probe_events_off_repeater (ids E) x y hi lo x6 y6 bound) as Hpr.
  rewrite !methods_gated_app, !repeater_after_app.
  rewrite (off_repeater_open _ _ Hpre), (off_repeater_gated _ _ Hpre).
  rewrite (proj1 (Hinit gate)), (proj2 (Hinit gate)).
  rewrite (proj1 (Hon false)), (proj2 (Hon false)).
  rewrite (off_repeater_open _ _ Hpr), (off_repeater_gated _ _ Hpr).
  rewrite (proj1 Htin), (proj2 Htin).
  rewrite (proj1 (Hoff true)), (proj2 (Hoff true)).
  split; reflexivity.
Qed.

Lemma open_events_outstanding E i x y hi lo x6 y6 bound :
  0 <= open_rc E i ->
  0 <= claim_rc E ->
  outstanding (open_events E i x y hi lo x6 y6 bound)
  = [ResDevStruct; ResSession; ResDeviceHandle; ResInterface].
Proof.
  intros Hopen Hclaim.
  assert (Hb : (open_rc E i <? 0) = false) by (apply Z.ltb_ge; lia).
  assert (Hc : (claim_rc E <? 0) = false) by (apply Z.ltb_ge; lia).
  unfold outstanding, open_events.
  rewrite fold_left_app.
  cbn [fold_left]. unfold held_after at 1 2 3 4 5 6. cbn [acquires releases].
  rewrite Hb, Hc. cbn [app filter resource_eqb negb].
  apply holds_nothing_fold.
  rewrite !forallb_app, probe_events_hold_nothing.
  destruct bound as [[]|]; vm_compute; reflexivity.
Qed.

Lemma off_ratio_fold evs st :
  forallb off_ratio evs = true -> fold_left ratio_words_after evs st = st.
Proof.
  revert st. induction evs as [|e evs IH]; intros st; cbn; [reflexivity|].
  intros H. apply andb_true_iff in H. destruct H as [He Hevs].
  rewrite IH by exact Hevs.
  destruct e; try reflexivity. cbn in He |- *.
  destruct (wIndex =? 17); cbn in He.
  - apply negb_true_iff, orb_false_iff in He. destruct He as [H1 H2].
    rewrite H1, H2. reflexivity.
  - rewrite !andb_false_r. reflexivity.
Qed.

Lemma open_events_off_ratio E i x y hi lo x6 y6 bound :
  forallb off_ratio (open_events E i x y hi lo x6 y6 bound) = true.
Proof.
  unfold open_events. rewrite !forallb_app.
  assert (Hp : forallb off_ratio (probe_events (ids E) x y hi lo x6 y6 bound)
               = true) by (destruct bound as [[]|]; reflexivity).
  rewrite Hp. destruct bound as [[]|]; vm_compute; reflexivity.
Qed.

Lemma deinit_baseband_run E w t :
  tuner (dev w) = Some t ->
  rtlsdr_deinit_baseband E w
  = Done tt
      (log w (repeater_events 1 ++ [EvTunerMethod t m_exit 0]
              ++ repeater_events 0 ++ [reg_write_event SYSB DEMOD_CTL 0x20 1])).
Proof.
  intros Ht. unfold rtlsdr_deinit_baseband, deref_tuner.
  rewrite (bind_done _ (set_i2c_repeater_run E 1 w)).
  unfold bind at 1. unfold bind at 1. unfold get_dev at 1.
  cbn [log dev]. rewrite Ht. unfold ret at 1.
  assert (Hexit : forall w0, call_tuner E t m_exit 0 w0
                             = Done 0 (log w0 [EvTunerMethod t m_exit 0])).
  { intros w0. destruct t; unfold call_tuner, tuner_fn, e4k_exit, fc0012_exit,
      fc0013_exit, fc2580_exit; run; reflexivity. }
  rewrite (bind_done _ (Hexit _)).
  rewrite (bind_done _ (set_i2c_repeater_run E 0 _)).
  rewrite write_reg_run, !log_log. unfold log. cbn [dev tuners trace].
  rewrite <- ?app_assoc. reflexivity.
Qed.

Lemma close_run E w t :
  tuner (dev w) = Some t ->
  rtlsdr_close E PTR w = Done 0 (log w (close_events t (dev w))).
Proof.
  intros Ht. unfold rtlsdr_close.
  rewrite (bind_done _ (deinit_baseband_run E w Ht)).
  run.
  set (F := fun i =>
              (if truthy (nth i (xfer (dev w)) 0)
               then [EvFreeTransfer (nth i (xfer (dev w)) 0)] else [])
              ++ (if truthy (nth i (xfer_buf (dev w)) 0)
                  then [EvFreeBuffer (nth i (xfer_buf (dev w)) 0)] else [])).
  match goal with
  | |- context [for_each _ ?body] =>
      assert (Hbody : forall i w0, body i w0 = Done tt (log w0 (F i)))
  end.
  { intros i w0. unfold F. destruct w0 as [d0 t0 tr0].
    destruct (truthy (nth i (xfer (dev w)) 0));
      destruct (truthy (nth i (xfer_buf (dev w)) 0)); run;
      rewrite <- ?app_assoc, ?app_nil_r; reflexivity. }
  rewrite (bind_done _ (for_each_run _ _ F Hbody _)).
  run. unfold log, close_events, free_events. cbn [dev tuners trace].
  rewrite <- !app_assoc. reflexivity.
Qed.

(** X11.  [rtlsdr_init_baseband] performs one fixed sequence of 67 control
    transfers, whatever the device answers and whatever the state: it pulses
    the demodulator's soft reset (0x14 then 0x10 to register 0x01 of page 1,
    which leaves the I2C repeater closed), loads the 20 FIR coefficients into
    registers 0x1c to 0x2f of page 1 in table order, and programs no
    resampling ratio. *)
Theorem init_baseband_fixed_writes :
  exists evs,
    (forall E w, rtlsdr_init_baseband E w = Done tt (log w evs))
    /\ List.length evs = 67%nat
    /\ existsb (fun e => negb (touches_hardware e)) evs = false
    /\ demod_bytes_written 1 0x01 0x01 evs = [0x14; 0x10]
    /\ demod_bytes_written 1 0x1c 0x2f evs = fir_coeff
    /\ (forall gate, repeater_open gate evs = false)
    /\ written_ratio evs = None.
Proof.
  exists init_baseband_events.
  split; [intros E w; apply init_baseband_run|].
  split; [reflexivity|]. split; [reflexivity|]. split; [reflexivity|].
  split; [reflexivity|]. split; [intros []; reflexivity|]. reflexivity.
Qed.

Lemma open_events_calls E i x y hi lo x6 y6 bound :
  tuner_calls (open_events E i x y hi lo x6 y6 bound)
  = match bound with Some t => [(t, m_init, 0)] | None => [] end.
Proof. destruct bound as [[]|]; reflexivity. Qed.

(** X12.  A successful [rtlsdr_open] returns 0 and a handle, holding exactly the
    device structure, the libusb session, the device handle and the claimed
    interface (the device list is freed).  The only tuner method it calls is
    [init] of the tuner it bound, with the I2C repeater open, and it leaves
    the repeater closed. *)
Theorem open_success_holds E index w i :
  select_device (bus E) 0 (u32 index) 0 = Some i ->
  0 <= open_rc E i ->
  0 <= claim_rc E ->
  exists w',
    rtlsdr_open E index w = Done (0, PTR) w'
    /\ outstanding (added w w') = open_holds
    /\ tuner_calls (added w w')
       = match tuner (dev w') with Some t => [(t, m_init, 0)] | None => [] end
    /\ (forall gate, methods_gated gate (added w w') = true)
    /\ (forall gate, repeater_open gate (added w w') = false).
Proof.
  intros Hsel Hopen Hclaim.
  destruct (open_run E index w Hsel Hopen Hclaim)
    as (bound & x & y & hi & lo & x6 & y6 & Hrun).
  eexists. split; [exact Hrun|]. rewrite added_app. cbn [dev].
  split; [apply open_events_outstanding; assumption|].
  split; [rewrite open_events_calls; destruct bound; reflexivity|].
  split; intros gate; apply open_events_gated.
Qed.

Lemma open_success_holds_witness :
  exists w',
    rtlsdr_open env_two_chips 0 world0 = Done (0, PTR) w'
    /\ outstanding (added world0 w') = open_holds
    /\ tuner_calls (added world0 w')
       = match tuner (dev w') with Some t => [(t, m_init, 0)] | None => [] end
    /\ (forall gate, methods_gated gate (added world0 w') = true)
    /\ (forall gate, repeater_open gate (added world0 w') = false).
Proof.
  apply (@open_success_holds env_two_chips 0 world0 0%nat);
    [reflexivity | cbn; lia | cbn; lia].
Defined.

(** X13.  A successful [rtlsdr_open] sets no sample rate: the handle reports 0 Hz,
    no resampling ratio is written to the demodulator, every transfer and
    buffer slot is NULL, and streaming is off, so that cancelling returns -2. *)
Theorem open_sets_no_sample_rate E index w i :
  select_device (bus E) 0 (u32 index) 0 = Some i ->
  0 <= open_rc E i ->
  0 <= claim_rc E ->
  exists w',
    rtlsdr_open E index w = Done (0, PTR) w'
    /\ rtlsdr_get_sample_rate PTR w' = Done 0 w'
    /\ written_ratio (added w w') = None
    /\ xfer (dev w') = repeat 0 BUF_COUNT
    /\ xfer_buf (dev w') = repeat 0 BUF_COUNT
    /\ rtlsdr_cancel_async PTR w' = Done (-2) w'.
Proof.
  intros Hsel Hopen Hclaim.
  destruct (open_run E index w Hsel Hopen Hclaim)
    as (bound & x & y & hi & lo & x6 & y6 & Hrun).
  eexists. split; [exact Hrun|]. rewrite added_app.
  split; [reflexivity|].
  split.
  { unfold written_ratio.
    rewrite off_ratio_fold by apply open_events_off_ratio. reflexivity. }
  split; [reflexivity|]. split; reflexivity.
Qed.

Lemma open_sets_no_sample_rate_witness :
  exists w',
    rtlsdr_open env_fc0013 0 world0 = Done (0, PTR) w'
    /\ rtlsdr_get_sample_rate PTR w' = Done 0 w'
    /\ written_ratio (added world0 w') = None
    /\ xfer (dev w') = repeat 0 BUF_COUNT
    /\ xfer_buf (dev w') = repeat 0 BUF_COUNT
    /\ rtlsdr_cancel_async PTR w' = Done (-2) w'.
Proof.
  apply (@open_sets_no_sample_rate env_fc0013 0 world0 0%nat);
    [reflexivity | cbn; lia | cbn; lia].
Defined.

Lemma frees_of_app a b : frees_of (a ++ b) = frees_of a ++ frees_of b.
Proof. apply filter_app. Qed.

Lemma frees_of_free_events d : frees_of (free_events d) = free_events d.
Proof.
  unfold free_events, frees_of.
  induction (seq 0 BUF_COUNT) as [|i l IH]; [reflexivity|].
  cbn [flat_map]. rewrite filter_app, IH. f_equal.
  destruct (truthy (nth i (xfer d) 0));
    destruct (truthy (nth i (xfer_buf d) 0)); reflexivity.
Qed.

Lemma free_events_hold_nothing d : forallb holds_nothing (free_events d) = true.
Proof.
  unfold free_events.
  induction (seq 0 BUF_COUNT) as [|i l IH]; [reflexivity|].
  cbn [flat_map]. rewrite forallb_app, IH, andb_true_r.
  destruct (truthy (nth i (xfer d) 0));
    destruct (truthy (nth i (xfer_buf d) 0)); reflexivity.
Qed.

Lemma free_events_off_repeater d : forallb off_repeater (free_events d) = true.
Proof.
  unfold free_events.
  induction (seq 0 BUF_COUNT) as [|i l IH]; [reflexivity|].
  cbn [flat_map]. rewrite forallb_app, IH, andb_true_r.
  destruct (truthy (nth i (xfer d) 0));
    destruct (truthy (nth i (xfer_buf d) 0)); reflexivity.
Qed.

Lemma close_events_release t d held :
  fold_left held_after (close_events t d) held
  = filter (fun r => match r with ResDeviceList => true | _ => false end) held.
Proof.
  unfold close_events.
  rewrite !fold_left_app.
  rewrite (@holds_nothing_fold (repeater_events 1)) by reflexivity.
  rewrite (@holds_nothing_fold [EvTunerMethod t m_exit 0]) by reflexivity.
  rewrite (@holds_nothing_fold (repeater_events 0)) by reflexivity.
  cbn [fold_left]. unfold held_after at 3 4 5. cbn [acquires releases].
  rewrite (@holds_nothing_fold (free_events d)) by apply free_events_hold_nothing.
  unfold held_after. cbn [acquires releases].
  induction held as [|r held IH]; [reflexivity|].
  destruct r; cbn in IH |- *; rewrite ?IH; reflexivity.
Qed.

Lemma close_events_gated t d gate :
  methods_gated gate (close_events t d) = true
  /\ repeater_open gate (close_events t d) = false.
Proof.
  unfold close_events.
  set (mid := [reg_write_event SYSB DEMOD_CTL 0x20 1; _; _]).
  set (post := [EvLibusbExit; EvFree]).
  assert (Hon : forall g, methods_gated g (repeater_events 1) = true
                          /\ repeater_open g (repeater_events 1) = true)
    by (intros []; split; vm_compute; reflexivity).
  assert (Hoff : forall g, methods_gated g (repeater_events 0) = true
                           /\ repeater_open g (repeater_events 0) = false)
    by (intros []; split; vm_compute; reflexivity).
  assert (Hmid : forallb off_repeater mid = true) by reflexivity.
  assert (Hpost : forallb off_repeater post = true) by reflexivity.
  pose proof (free_events_off_repeater d) as Hfree.
  assert (Hexit : methods_gated true [EvTunerMethod t m_exit 0] = true
                  /\ repeater_open true [EvTunerMethod t m_exit 0] = true)
    by (split; reflexivity).
  rewrite !methods_gated_app, !repeater_after_app.
  rewrite (proj1 (Hon gate)), (proj2 (Hon gate)).
  rewrite (proj1 Hexit), (proj2 Hexit).
  rewrite (proj1 (Hoff true)), (proj2 (Hoff true)).
  rewrite (@off_repeater_gated false mid Hmid), (@off_repeater_open false mid Hmid).
  rewrite (@off_repeater_gated false _ Hfree), (@off_repeater_open false _ Hfree).
  rewrite (@off_repeater_gated false post Hpost), (@off_repeater_open false post Hpost).
  split; reflexivity.
Qed.

(** X14.  [rtlsdr_close] on a handle with a bound tuner returns 0.  It calls the
    tuner's [exit] and nothing else of the tuner, with the I2C repeater open,
    and closes the repeater again; it frees each non-NULL transfer and buffer
    of the 32 slots once, in slot order, and releases everything a successful
    open holds. *)
Theorem close_releases_everything E w t :
  tuner (dev w) = Some t ->
  exists w',
    rtlsdr_close E PTR w = Done 0 w'
    /\ tuner_calls (added w w') = [(t, m_exit, 0)]
    /\ (forall gate, methods_gated gate (added w w') = true)
    /\ (forall gate, repeater_open gate (added w w') = false)
    /\ frees_of (added w w') = free_events (dev w)
    /\ fold_left held_after (added w w') open_holds = [].
Proof.
  intros Ht. eexists. split; [apply (close_run E w Ht)|].
  unfold log. rewrite added_app.
  split.
  { unfold close_events, tuner_calls. rewrite !flat_map_app.
    assert (Hfree : forall l,
               flat_map (fun e => match e with
                                  | EvTunerMethod t0 m a => [(t0, m, a)]
                                  | _ => []
                                  end) (frees_of l) = []).
    { induction l as [|e l IH]; [reflexivity|].
      destruct e; cbn; try exact IH. }
    rewrite <- (frees_of_free_events (dev w)), Hfree. reflexivity. }
  split; [intros gate; apply close_events_gated|].
  split; [intros gate; apply close_events_gated|].
  split.
  { unfold close_events. rewrite !frees_of_app, frees_of_free_events.
    change (frees_of (repeater_events 1)) with (@nil event).
    change (frees_of (repeater_events 0)) with (@nil event).
    cbn [frees_of filter app]. apply app_nil_r. }
  rewrite close_events_release. reflexivity.
Qed.

Lemma close_releases_everything_witness :
  exists w',
    rtlsdr_close env_silent PTR world_two_slots = Done 0 w'
    /\ tuner_calls (added world_two_slots w') = [(RTLSDR_TUNER_E4000, m_exit, 0)]
    /\ (forall gate, methods_gated gate (added world_two_slots w') = true)
    /\ (forall gate, repeater_open gate (added world_two_slots w') = false)
    /\ frees_of (added world_two_slots w') = free_events (dev world_two_slots)
    /\ fold_left held_after (added world_two_slots w') open_holds = [].
Proof.
  apply (@close_releases_everything env_silent world_two_slots
           RTLSDR_TUNER_E4000).
  reflexivity.
Defined.

Lemma added_trans w evs1 evs2 d1 t1 d2 t2 :
  added w (mk_world d2 t2 (trace (mk_world d1 t1 (trace w ++ evs1)) ++ evs2))
  = evs1 ++ evs2.
Proof. cbn [trace]. rewrite <- app_assoc. apply added_app. Qed.

(** X15.  Opening a device and closing the handle again releases everything that
    was acquired, frees no transfer or buffer, and leaves the static tuner
    table as it was, provided the open bound a tuner (without one, closing
    dereferences NULL). *)
Theorem open_close_balanced E index w i :
  select_device (bus E) 0 (u32 index) 0 = Some i ->
  0 <= open_rc E i ->
  0 <= claim_rc E ->
  exists w1,
    rtlsdr_open E index w = Done (0, PTR) w1
    /\ (tuner (dev w1) = None ->
        rtlsdr_close E PTR w1
        = Fault NullDereference (log w1 (repeater_events 1)))
    /\ (tuner (dev w1) <> None ->
        exists w2,
          rtlsdr_close E PTR w1 = Done 0 w2
          /\ outstanding (added w w2) = []
          /\ frees_of (added w1 w2) = []
          /\ tuners w2 = tuners w).
Proof.
  intros Hsel Hopen Hclaim.
  destruct (open_run E index w Hsel Hopen Hclaim)
    as (bound & x & y & hi & lo & x6 & y6 & Hrun).
  eexists. split; [exact Hrun|].
  set (w1 := mk_world _ _ _).
  split.
  - intros Hnone. unfold rtlsdr_close, rtlsdr_deinit_baseband, deref_tuner.
    unfold bind at 1. unfold bind at 1.
    rewrite set_i2c_repeater_run.
    unfold bind at 1. unfold bind at 1. unfold get_dev. cbn [log dev].
    rewrite Hnone. reflexivity.
  - intros Hsome. destruct (tuner (dev w1)) as [t|] eqn:Ht; [|congruence].
    eexists. split; [apply (close_run E w1 Ht)|].
    unfold log. split; [|split].
    + unfold w1 at 2 3. rewrite added_trans.
      unfold outstanding. rewrite fold_left_app.
      change (fold_left held_after (open_events E i x y hi lo x6 y6 bound) [])
        with (outstanding (open_events E i x y hi lo x6 y6 bound)).
      rewrite open_events_outstanding by assumption.
      rewrite close_events_release. reflexivity.
    + rewrite added_app. unfold close_events.
      rewrite !frees_of_app, frees_of_free_events. reflexivity.
    + reflexivity.
Qed.

Lemma open_close_balanced_witness :
  exists w1,
    rtlsdr_open env_two_chips 0 world0 = Done (0, PTR) w1
    /\ (tuner (dev w1) = None ->
        rtlsdr_close env_two_chips PTR w1
        = Fault NullDereference (log w1 (repeater_events 1)))
    /\ (tuner (dev w1) <> None ->
        exists w2,
          rtlsdr_close env_two_chips PTR w1 = Done 0 w2
          /\ outstanding (added world0 w2) = []
          /\ frees_of (added w1 w2) = []
          /\ tuners w2 = tuners world0).
Proof.
  apply (@open_close_balanced env_two_chips 0 world0 0%nat);
    [reflexivity | cbn; lia | cbn; lia].
Defined.

(** X16.  [rtlsdr_open] always returns, and on no path does it touch the static
    tuner table: a handle it returns with a tuner bound reports the centre
    frequency, the correction and the gain that the last user of that tuner
    left there, although this run tuned nothing. *)
Theorem open_keeps_tuner_table E index w :
  exists r h w',
    rtlsdr_open E index w = Done (r, h) w'
    /\ tuners w' = tuners w
    /\ existsb (fun c => match c with
                         | (_, m_init, _) => false
                         | _ => true
                         end) (tuner_calls (added w w')) = false
    /\ forall t, tuner (dev w') = Some t ->
         rtlsdr_get_center_freq h w' = Done (freq (row (tuners w) t)) w'
         /\ rtlsdr_get_freq_correction h w' = Done (corr (row (tuners w) t)) w'
         /\ rtlsdr_get_tuner_gain h w' = Done (gain (row (tuners w) t)) w'.
Proof.
  destruct (select_device (bus E) 0 (u32 index) 0) as [i|] eqn:Hsel.
  - destruct (open_rc E i <? 0) eqn:Hb.
    + exists (open_rc E i), NULL. eexists.
      unfold rtlsdr_open, open_err. cbv zeta. rewrite Hsel. run. rewrite Hb.
      run. split; [reflexivity|]. split; [reflexivity|].
      rewrite <- !app_assoc, added_app.
      split; [reflexivity|]. intros t Ht. discriminate Ht.
    + destruct (claim_rc E <? 0) eqn:Hc.
      * exists (claim_rc E), NULL. eexists.
        unfold rtlsdr_open, open_err. cbv zeta. rewrite Hsel. run. rewrite Hb.
        run. rewrite Hc. run. split; [reflexivity|]. split; [reflexivity|].
        rewrite <- !app_assoc, added_app.
        split; [reflexivity|]. intros t Ht. discriminate Ht.
      * apply Z.ltb_ge in Hb, Hc.
        destruct (open_run E index w Hsel Hb Hc)
          as (bound & x & y & hi & lo & x6 & y6 & Hrun).
        exists 0, PTR. eexists. split; [exact Hrun|].
        split; [reflexivity|]. rewrite added_app, open_events_calls.
        split; [destruct bound; reflexivity|].
        intros t Ht. cbn [dev] in Ht.
        unfold rtlsdr_get_center_freq, rtlsdr_get_freq_correction,
          rtlsdr_get_tuner_gain, bind, get_dev, get_row, ret.
        cbn [dev tuners]. rewrite Ht. repeat split.
  - exists (-1), NULL. eexists.
    unfold rtlsdr_open, open_err. cbv zeta. rewrite Hsel. run.
    split; [reflexivity|]. split; [reflexivity|].
    rewrite <- !app_assoc, added_app.
    split; [reflexivity|]. intros t Ht. discriminate Ht.
Qed.

(* ------------------------------------------------------------------ *)
(** ** Enumeration *)

Lemma find_known_device_sound v p d :
  find_known_device v p = Some d -> vid d = v /\ pid d = p /\ In d devices.
Proof.
  unfold find_known_device. intros H.
  destruct (find_some _ _ H) as [Hin Hm].
  apply andb_true_iff in Hm. destruct Hm as [Hv Hp].
  apply Z.eqb_eq in Hv, Hp. auto.
Qed.

(** X17.  [find_known_device] answers with a row of the table whose ids are the
    ones asked for, and every row of the table is found under its own ids:
    no row is shadowed by an earlier one. *)
Theorem find_known_device_spec v p :
  (forall d, find_known_device v p = Some d ->
             vid d = v /\ pid d = p /\ In d devices)
  /\ (forall d, In d devices -> find_known_device (vid d) (pid d) = Some d)
  /\ (find_known_device v p = None ->
      forall d, In d devices -> vid d <> v \/ pid d <> p).
Proof.
  split; [intros d; apply find_known_device_sound|]. split.
  - intros d Hin. unfold devices in Hin. cbn [In] in Hin.
    repeat (destruct Hin as [<-|Hin]; [reflexivity|]). destruct Hin.
  - intros Hnone d Hin. unfold find_known_device in Hnone.
    pose proof (find_none _ _ Hnone d Hin) as Hm.
    apply andb_false_iff in Hm.
    destruct Hm as [Hm|Hm]; apply Z.eqb_neq in Hm; auto.
Qed.

Lemma u32_small x : 0 <= x < 4294967296 -> u32 x = x.
Proof. intros H. unfold u32. apply Z.mod_small. exact H. Qed.

Lemma u32_pred_succ c : 0 <= c < 4294967296 -> u32 (u32 (c + 1) - 1) = c.
Proof.
  intros H. unfold u32.
  destruct (Z.eq_dec c 4294967295) as [->|Hne]; [reflexivity|].
  rewrite (Z.mod_small (c + 1)) by lia.
  replace (c + 1 - 1) with c by lia. apply Z.mod_small. lia.
Qed.

Lemma select_device_counted l : forall i index c,
  0 <= c <= index -> index < 4294967295 ->
  (c = 0 \/ index <> c - 1) ->
  select_device l i index c
  = nth_error (known_positions l i) (Z.to_nat (index - c)).
Proof.
  induction l as [|[v p] l IH]; intros i index c Hc Hi Hne;
    cbn [select_device known_positions].
  - destruct (Z.to_nat (index - c)); reflexivity.
  - destruct (find_known_device v p) as [d|].
    + rewrite u32_pred_succ by lia.
      destruct (index =? c) eqn:Heq.
      * apply Z.eqb_eq in Heq. subst c.
        rewrite Z.sub_diag. reflexivity.
      * apply Z.eqb_neq in Heq.
        rewrite IH by (rewrite ?u32_small by lia; lia).
        rewrite u32_small by lia.
        replace (Z.to_nat (index - c)) with (S (Z.to_nat (index - (c + 1))))
          by lia.
        reflexivity.
    + assert (Hno : (index =? u32 (c - 1)) = false).
      { apply Z.eqb_neq. destruct (Z.eq_dec c 0) as [->|Hc0].
        - change (u32 (0 - 1)) with 4294967295. lia.
        - rewrite u32_small by lia. lia. }
      rewrite Hno. apply IH; lia.
Qed.

Lemma count_devices_counted l : forall c,
  0 <= c -> c + Z.of_nat (List.length (known l)) < 4294967296 ->
  count_devices l c = c + Z.of_nat (List.length (known l)).
Proof.
  induction l as [|[v p] l IH]; intros c Hc Hlen; cbn [count_devices].
  - cbn. lia.
  - unfold known in *. cbn [flat_map fst snd] in *.
    destruct (find_known_device v p) as [d|].
    + cbn [app List.length] in *.
      rewrite u32_small by lia. rewrite IH by lia. lia.
    + cbn [app] in *. apply IH; lia.
Qed.

Lemma last_known_cons v p l :
  l <> [] -> last_known ((v, p) :: l) = last_known l.
Proof.
  intros Hl. unfold last_known. cbn [rev].
  destruct (rev l) as [|[v' p'] r] eqn:Hr.
  - apply (f_equal (@rev _)) in Hr. rewrite rev_involutive in Hr.
    cbn in Hr. contradiction.
  - reflexivity.
Qed.

Lemma name_loop_counted l : forall index c device,
  0 <= c <= index -> index < 4294967296 ->
  name_loop l index c device
  = match nth_error (known l) (Z.to_nat (index - c)) with
    | Some d => Some d
    | None => match l with [] => device | _ => last_known l end
    end.
Proof.
  induction l as [|[v p] l IH]; intros index c device Hc Hi;
    cbn [name_loop].
  - cbn. destruct (Z.to_nat (index - c)); reflexivity.
  - unfold known. cbn [flat_map fst snd]. fold (known l).
    destruct (find_known_device v p) as [d|] eqn:Hd.
    + rewrite u32_pred_succ by lia. cbn [app].
      destruct (index =? c) eqn:Heq.
      * apply Z.eqb_eq in Heq. subst c. rewrite Z.sub_diag. reflexivity.
      * apply Z.eqb_neq in Heq.
        rewrite IH by (rewrite ?u32_small by lia; lia).
        rewrite u32_small by lia.
        replace (Z.to_nat (index - c)) with (S (Z.to_nat (index - (c + 1))))
          by lia.
        cbn [nth_error].
        destruct (nth_error (known l) (Z.to_nat (index - (c + 1))));
          [reflexivity|].
        destruct l as [|vp l']; [unfold last_known; cbn [rev app]; now rewrite Hd|].
        rewrite last_known_cons by discriminate. reflexivity.
    + cbn [app]. rewrite IH by lia.
      destruct (nth_error (known l) (Z.to_nat (index - c))); [reflexivity|].
      destruct l as [|vp l']; [unfold last_known; cbn [rev app]; now rewrite Hd|].
      rewrite last_known_cons by discriminate. reflexivity.
Qed.

Lemma enumeration_balanced :
  outstanding [EvLibusbInit; EvGetDeviceList; EvFreeDeviceList; EvLibusbExit]
  = [].
Proof. reflexivity. Qed.

(** X18.  [rtlsdr_get_device_count] returns the number of devices on the bus whose
    ids are in the table (as long as that number fits the [uint32_t] counter),
    touching no device, and releases the session and the list it acquired. *)
Theorem get_device_count_counts E w :
  Z.of_nat (List.length (known (bus E))) < 4294967296 ->
  exists w',
    rtlsdr_get_device_count E w
    = Done (Z.of_nat (List.length (known (bus E)))) w'
    /\ existsb touches_hardware (added w w') = false
    /\ outstanding (added w w') = []
    /\ dev w' = dev w.
Proof.
  intros Hlen. unfold rtlsdr_get_device_count. cbv zeta. run.
  rewrite count_devices_counted by lia. rewrite Z.add_0_l.
  eexists. split; [reflexivity|].
  rewrite <- !app_assoc, added_app. repeat split.
Qed.

Lemma get_device_count_counts_witness :
  exists w',
    rtlsdr_get_device_count env_mixed world0 = Done 2 w'
    /\ existsb touches_hardware (added world0 w') = false
    /\ outstanding (added world0 w') = []
    /\ dev w' = dev world0.
Proof.
  apply (@get_device_count_counts env_mixed world0). cbn. lia.
Defined.

(** The whole run of [rtlsdr_get_device_name]. *)
Lemma get_device_name_run E index w :
  0 <= index < 4294967296 ->
  rtlsdr_get_device_name E index w
  = Done
      match nth_error (known (bus E)) (Z.to_nat index) with
      | Some d => name d
      | None =>
          match last_known (bus E) with
          | Some d => name d
          | None => ""%string
          end
      end
      (log w [EvLibusbInit; EvGetDeviceList; EvFreeDeviceList; EvLibusbExit]).
Proof.
  intros Hi. unfold rtlsdr_get_device_name. cbv zeta.
  rewrite (u32_small Hi). run.
  rewrite name_loop_counted by lia. rewrite Z.sub_0_r.
  assert (Hlast : match bus E with [] => None | _ :: _ => last_known (bus E) end
                  = last_known (bus E))
    by (destruct (bus E); reflexivity).
  rewrite Hlast. unfold log.
  destruct (nth_error (known (bus E)) (Z.to_nat index)) as [d|];
    [|destruct (last_known (bus E)) as [d|]];
    rewrite <- !app_assoc; reflexivity.
Qed.

(** X19.  [rtlsdr_get_device_name] returns the name of the index-th supported
    device on the bus.  For an index past the last supported device it does
    not return the empty string in general: [device] keeps the result of the
    last lookup, so the name of the last device of the bus comes back when
    that one is supported, and the empty string only when it is not. *)
Theorem get_device_name_spec E index w :
  0 <= index < 4294967296 ->
  exists w',
    rtlsdr_get_device_name E index w
    = Done
        match nth_error (known (bus E)) (Z.to_nat index) with
        | Some d => name d
        | None =>
            match last_known (bus E) with
            | Some d => name d
            | None => ""%string
            end
        end w'
    /\ outstanding (added w w') = []
    /\ dev w' = dev w.
Proof.
  intros Hi. eexists. split; [apply (get_device_name_run E w Hi)|].
  unfold log. rewrite added_app. cbn [dev].
  split; [apply enumeration_balanced | reflexivity].
Qed.

Lemma get_device_name_spec_witness :
  (exists w',
      rtlsdr_get_device_name env_mixed 1 world0 = Done "GTek T803"%string w'
      /\ outstanding (added world0 w') = [] /\ dev w' = dev world0)
  /\ (exists w',
         rtlsdr_get_device_name env_mixed 7 world0 = Done "GTek T803"%string w'
         /\ outstanding (added world0 w') = [] /\ dev w' = dev world0)
  /\ (exists w',
         rtlsdr_get_device_name env_keyboard_last 7 world0 = Done ""%string w'
         /\ outstanding (added world0 w') = [] /\ dev w' = dev world0).
Proof.
  split; [|split].
  - apply (@get_device_name_spec env_mixed 1 world0). lia.
  - apply (@get_device_name_spec env_mixed 7 world0). lia.
  - apply (@get_device_name_spec env_keyboard_last 7 world0). lia.
Defined.

Lemma known_positions_nth l : forall i0 n i,
  nth_error (known_positions l i0) n = Some i ->
  exists v p d,
    nth_error l (i - i0) = Some (v, p)
    /\ (i0 <= i)%nat
    /\ find_known_device v p = Some d
    /\ nth_error (known l) n = Some d.
Proof.
  induction l as [|[v p] l IH]; intros i0 n i H; cbn [known_positions] in H.
  - destruct n; discriminate.
  - unfold known. cbn [flat_map fst snd]. fold (known l).
    destruct (find_known_device v p) as [d|] eqn:Hd.
    + destruct n as [|n]; cbn [nth_error] in H.
      * injection H as <-. exists v, p, d. rewrite Nat.sub_diag.
        repeat split; auto.
      * destruct (IH _ _ _ H) as (v' & p' & d' & Hn & Hle & Hf & Hk).
        exists v', p', d'.
        replace (i - i0)%nat with (S (i - S i0)) by lia.
        repeat split; auto; lia.
    + destruct (IH _ _ _ H) as (v' & p' & d' & Hn & Hle & Hf & Hk).
      exists v', p', d'.
      replace (i - i0)%nat with (S (i - S i0)) by lia.
      repeat split; auto; lia.
Qed.

Lemma known_positions_length l : forall i0,
  List.length (known_positions l i0) = List.length (known l).
Proof.
  induction l as [|[v p] l IH]; intros i0; [reflexivity|].
  cbn [known_positions]. unfold known. cbn [flat_map fst snd]. fold (known l).
  destruct (find_known_device v p); cbn [app List.length]; rewrite IH;
    reflexivity.
Qed.

(** X20.  The enumeration functions agree with [rtlsdr_open]: for an index below
    the device count, the device the loop of [rtlsdr_open] selects is a
    supported one, and its table name is the one [rtlsdr_get_device_name]
    returns for that index; for an index from the count up (0xffffffff
    apart) the loop selects nothing. *)
Theorem open_selects_named_device E index w :
  0 <= index < 4294967295 ->
  (index < Z.of_nat (List.length (known (bus E))) ->
   exists i v p d w',
     select_device (bus E) 0 (u32 index) 0 = Some i
     /\ nth_error (bus E) i = Some (v, p)
     /\ find_known_device v p = Some d
     /\ rtlsdr_get_device_name E index w = Done (name d) w')
  /\ (Z.of_nat (List.length (known (bus E))) <= index ->
      select_device (bus E) 0 (u32 index) 0 = None).
Proof.
  intros Hi. rewrite u32_small by lia.
  rewrite select_device_counted by lia. rewrite Z.sub_0_r.
  split.
  - intros Hlt.
    destruct (nth_error (known_positions (bus E) 0) (Z.to_nat index))
      as [i|] eqn:Hn.
    + destruct (known_positions_nth _ _ _ Hn) as (v & p & d & Hb & _ & Hf & Hk).
      rewrite Nat.sub_0_r in Hb.
      assert (Hrange : 0 <= index < 4294967296) by lia.
      pose proof (get_device_name_run E w Hrange) as Hrun.
      rewrite Hk in Hrun.
      exists i, v, p, d. eexists.
      split; [reflexivity|]. split; [exact Hb|]. split; [exact Hf|exact Hrun].
    + apply nth_error_None in Hn. rewrite known_positions_length in Hn. lia.
  - intros Hge. apply nth_error_None. rewrite known_positions_length. lia.
Qed.

Lemma open_selects_named_device_witness :
  (1 < Z.of_nat (List.length (known (bus env_mixed))) ->
   exists i v p d w',
     select_device (bus env_mixed) 0 (u32 1) 0 = Some i
     /\ nth_error (bus env_mixed) i = Some (v, p)
     /\ find_known_device v p = Some d
     /\ rtlsdr_get_device_name env_mixed 1 world0 = Done (name d) w')
  /\ (Z.of_nat (List.length (known (bus env_mixed))) <= 1 ->
      select_device (bus env_mixed) 0 (u32 1) 0 = None).
Proof.
  apply (@open_selects_named_device env_mixed 1 world0). lia.
Defined.

(** X21.  Index 0xffffffff equals [device_count - 1] while the counter is still 0:
    when the first device of the bus is not a supported one, [rtlsdr_open]
    selects it all the same, opens it, claims its interface and returns 0
    with a handle. *)
Theorem open_index_wraps E v p l w :
  bus E = (v, p) :: l ->
  find_known_device v p = None ->
  0 <= open_rc E 0 ->
  0 <= claim_rc E ->
  exists w',
    rtlsdr_open E 4294967295 w = Done (0, PTR) w'
    /\ In (EvLibusbOpen 0 (open_rc E 0)) (added w w')
    /\ In (EvClaimInterface (claim_rc E)) (added w w')
    /\ outstanding (added w w') = open_holds.
Proof.
  intros Hbus Hnone Hopen Hclaim.
  assert (Hsel : select_device (bus E) 0 (u32 4294967295) 0 = Some 0%nat).
  { rewrite Hbus. cbn [select_device]. rewrite Hnone. reflexivity. }
  destruct (open_run E 4294967295 w Hsel Hopen Hclaim)
    as (bound & x & y & hi & lo & x6 & y6 & Hrun).
  eexists. split; [exact Hrun|]. rewrite added_app.
  split; [unfold open_events; cbn; tauto|].
  split; [unfold open_events; cbn; tauto|].
  apply open_events_outstanding; assumption.
Qed.

Lemma open_index_wraps_witness :
  exists w',
    rtlsdr_open env_keyboard_first 4294967295 world0 = Done (0, PTR) w'
    /\ In (EvLibusbOpen 0 (open_rc env_keyboard_first 0)) (added world0 w')
    /\ In (EvClaimInterface (claim_rc env_keyboard_first)) (added world0 w')
    /\ outstanding (added world0 w') = open_holds.
Proof.
  apply (@open_index_wraps env_keyboard_first 0x046d 0xc31c [(0x0bda, 0x2838)]
           world0);
    [reflexivity | reflexivity | cbn; lia | cbn; lia].
Defined.

(* ------------------------------------------------------------------ *)
(** ** Asynchronous streaming *)

Lemma update_slot_length i v l :
  List.length (update_slot i v l) = List.length l.
Proof.
  revert i. induction l as [|x l IH]; intros [|i]; cbn; auto.
Qed.

Lemma update_slot_same i v l :
  (i < List.length l)%nat -> nth i (update_slot i v l) 0 = v.
Proof.
  revert i. induction l as [|x l IH]; intros [|i] H; cbn in *; try lia.
  apply IH. lia.
Qed.

Lemma update_slot_other i j v l :
  i <> j -> nth j (update_slot i v l) 0 = nth j l 0.
Proof.
  revert i j. induction l as [|x l IH]; intros [|i] [|j] H; cbn; auto.
  - contradiction.
Qed.

Lemma alloc_transfers_fill A slots : forall d t tr atr,
  alloc_transfers A slots (mk_async_world (mk_world d t tr) atr)
  = mk_async_world
      (mk_world (set_xfer d (fill_slots (alloc_transfer A) slots (xfer d))) t tr)
      (atr ++ fill_events AvAllocTransfer (alloc_transfer A) slots (xfer d)).
Proof.
  induction slots as [|i slots IH]; intros d t tr atr;
    cbn [alloc_transfers fill_slots fill_events base dev].
  - destruct d. cbn. now rewrite app_nil_r.
  - destruct (truthy (nth i (xfer d) 0)); [apply IH|].
    unfold with_dev, alog. cbn [base atrace tuners trace].
    rewrite IH. cbn [xfer set_xfer]. rewrite <- app_assoc. reflexivity.
Qed.

Lemma alloc_buffers_fill A slots : forall d t tr atr,
  alloc_buffers A slots (mk_async_world (mk_world d t tr) atr)
  = mk_async_world
      (mk_world
         (set_xfer_buf d (fill_slots (malloc_buffer A) slots (xfer_buf d))) t tr)
      (atr ++ fill_events (AvMallocBuffer BUF_LENGTH) (malloc_buffer A) slots
                (xfer_buf d)).
Proof.
  induction slots as [|i slots IH]; intros d t tr atr;
    cbn [alloc_buffers fill_slots fill_events base dev].
  - destruct d. cbn. now rewrite app_nil_r.
  - destruct (truthy (nth i (xfer_buf d) 0)); [apply IH|].
    unfold with_dev, alog. cbn [base atrace tuners trace].
    rewrite IH. cbn [xfer_buf set_xfer_buf]. rewrite <- app_assoc. reflexivity.
Qed.

Lemma submit_transfers_run slots : forall d t tr atr,
  submit_transfers slots (mk_async_world (mk_world d t tr) atr)
  = mk_async_world (mk_world d t tr)
      (atr ++ submit_events (xfer d) (xfer_buf d) slots).
Proof.
  induction slots as [|i slots IH]; intros d t tr atr;
    cbn [submit_transfers submit_events flat_map base dev].
  - now rewrite app_nil_r.
  - unfold alog. cbn [base atrace]. rewrite IH, <- app_assoc. reflexivity.
Qed.

Lemma fill_slots_length alloc slots : forall l,
  List.length (fill_slots alloc slots l) = List.length l.
Proof.
  induction slots as [|i slots IH]; intros l; cbn [fill_slots]; [reflexivity|].
  destruct (truthy (nth i l 0)); rewrite IH; [|apply update_slot_length];
    reflexivity.
Qed.

(** Slot [j] after a loop over the slots [a .. a+n-1]. *)
Lemma fill_slots_nth alloc n : forall a l j,
  (j < List.length l)%nat ->
  nth j (fill_slots alloc (seq a n) l) 0
  = if ((a <=? j) && (j <? a + n))%nat then slot_after alloc l j
    else nth j l 0.
Proof.
  induction n as [|n IH]; intros a l j Hj; cbn [seq fill_slots].
  - replace ((a <=? j) && (j <? a + 0))%nat with false; [reflexivity|].
    symmetry. apply andb_false_iff.
    destruct (Nat.leb_spec a j); [right; apply Nat.ltb_ge; lia | now left].
  - destruct (Nat.eq_dec j a) as [->|Hne].
    + replace ((a <=? a) && (a <? a + S n))%nat with true
        by (symmetry; apply andb_true_iff; split;
            [apply Nat.leb_le | apply Nat.ltb_lt]; lia).
      unfold slot_after.
      destruct (truthy (nth a l 0)) eqn:Hn.
      * rewrite IH by exact Hj.
        replace ((S a <=? a) && (a <? S a + n))%nat with false; [reflexivity|].
        symmetry. apply andb_false_iff. left. apply Nat.leb_gt. lia.
      * rewrite IH by (rewrite update_slot_length; exact Hj).
        replace ((S a <=? a) && (a <? S a + n))%nat with false
          by (symmetry; apply andb_false_iff; left; apply Nat.leb_gt; lia).
        apply update_slot_same. exact Hj.
    + assert (Hc : ((S a <=? j) && (j <? S a + n))%nat
                   = ((a <=? j) && (j <? a + S n))%nat).
      { destruct (Nat.leb_spec (S a) j), (Nat.leb_spec a j),
          (Nat.ltb_spec j (S a + n)), (Nat.ltb_spec j (a + S n));
          try reflexivity; lia. }
      destruct (truthy (nth a l 0)) eqn:Hn.
      * rewrite IH by exact Hj. rewrite Hc. reflexivity.
      * rewrite IH by (rewrite update_slot_length; exact Hj). rewrite Hc.
        unfold slot_after. rewrite update_slot_other by auto. reflexivity.
Qed.

Lemma flat_map_ext_on {A B} (f g : A -> list B) (l : list A) :
  (forall x, In x l -> f x = g x) -> flat_map f l = flat_map g l.
Proof.
  induction l as [|x l IH]; intros H; cbn [flat_map]; [reflexivity|].
  rewrite (H x) by (left; reflexivity).
  rewrite IH by (intros y Hy; apply H; right; exact Hy). reflexivity.
Qed.

Lemma fill_events_alloc mk alloc n : forall a l,
  fill_events mk alloc (seq a n) l = alloc_events mk alloc l (seq a n).
Proof.
  induction n as [|n IH]; intros a l; cbn [seq fill_events]; [reflexivity|].
  unfold alloc_events. cbn [flat_map]. fold (alloc_events mk alloc l (seq (S a) n)).
  destruct (truthy (nth a l 0)) eqn:Hn; [apply IH|].
  cbn [app]. f_equal. rewrite IH. unfold alloc_events.
  apply flat_map_ext_on. intros i Hi. apply in_seq in Hi.
  rewrite update_slot_other by lia. reflexivity.
Qed.

Lemma fill_slots_id alloc slots l :
  (forall i, In i slots -> truthy (nth i l 0) = true) ->
  fill_slots alloc slots l = l.
Proof.
  induction slots as [|i slots IH]; intros H; cbn [fill_slots]; [reflexivity|].
  rewrite (H i) by (left; reflexivity).
  apply IH. intros j Hj. apply H. right. exact Hj.
Qed.

Lemma alloc_events_none mk alloc slots l :
  (forall i, In i slots -> truthy (nth i l 0) = true) ->
  alloc_events mk alloc l slots = [].
Proof.
  unfold alloc_events.
  induction slots as [|i slots IH]; intros H; cbn [flat_map]; [reflexivity|].
  rewrite (H i) by (left; reflexivity).
  apply IH. intros j Hj. apply H. right. exact Hj.
Qed.

Lemma wait_async_setup_run A fn c d t tr atr :
  let xs := fill_slots (alloc_transfer A) (seq 0 BUF_COUNT) (xfer d) in
  let bs := fill_slots (malloc_buffer A) (seq 0 BUF_COUNT) (xfer_buf d) in
  wait_async_setup A fn c (mk_async_world (mk_world d t tr) atr)
  = mk_async_world
      (mk_world
         (mk_dev (ctx d) (devh d) xs bs fn c 1 (tuner d) (rate d)) t tr)
      (atr
       ++ alloc_events AvAllocTransfer (alloc_transfer A) (xfer d)
            (seq 0 BUF_COUNT)
       ++ alloc_events (AvMallocBuffer BUF_LENGTH) (malloc_buffer A)
            (xfer_buf d) (seq 0 BUF_COUNT)
       ++ submit_events xs bs (seq 0 BUF_COUNT)).
Proof.
  intros xs bs. unfold wait_async_setup, with_dev.
  cbn [base dev tuners trace atrace].
  rewrite alloc_transfers_fill. cbn [xfer set_cb].
  rewrite alloc_buffers_fill. cbn [xfer_buf set_xfer].
  rewrite submit_transfers_run. cbn [base dev tuners trace atrace].
  rewrite !fill_events_alloc, <- !app_assoc. reflexivity.
Qed.

(** X22.  Before it enters the event loop, [rtlsdr_wait_async] stores the callback
    and its context, allocates a transfer or a buffer for exactly the slots
    that hold NULL and keeps the others, and then fills and submits all 32
    slots in order, slot [i]'s transfer with slot [i]'s buffer, 262144 bytes
    on endpoint 0x81; it tests no allocation, so a slot whose allocation
    failed is filled and submitted as NULL.  The flag [run_async] is 1
    afterwards. *)
Theorem wait_async_submits_all_slots A fn c w :
  List.length (xfer (dev w)) = BUF_COUNT ->
  List.length (xfer_buf (dev w)) = BUF_COUNT ->
  exists xs bs,
    let s' := wait_async_setup A fn c (async_of w) in
    xfer (dev (base s')) = xs
    /\ xfer_buf (dev (base s')) = bs
    /\ (forall i, (i < BUF_COUNT)%nat ->
          nth i xs 0 = slot_after (alloc_transfer A) (xfer (dev w)) i
          /\ nth i bs 0 = slot_after (malloc_buffer A) (xfer_buf (dev w)) i)
    /\ atrace s'
       = alloc_events AvAllocTransfer (alloc_transfer A) (xfer (dev w))
           (seq 0 BUF_COUNT)
         ++ alloc_events (AvMallocBuffer BUF_LENGTH) (malloc_buffer A)
              (xfer_buf (dev w)) (seq 0 BUF_COUNT)
         ++ submit_events xs bs (seq 0 BUF_COUNT)
    /\ cb (dev (base s')) = fn
    /\ cb_ctx (dev (base s')) = c
    /\ run_async (dev (base s')) = 1
    /\ trace (base s') = trace w.
Proof.
  intros Hx Hb. destruct w as [d t tr]. cbn [dev] in Hx, Hb.
  exists (fill_slots (alloc_transfer A) (seq 0 BUF_COUNT) (xfer d)),
    (fill_slots (malloc_buffer A) (seq 0 BUF_COUNT) (xfer_buf d)).
  cbv zeta. unfold async_of. rewrite wait_async_setup_run.
  cbn [base dev xfer xfer_buf atrace cb cb_ctx run_async trace app].
  split; [reflexivity|]. split; [reflexivity|]. split.
  { intros i Hi. split.
    - rewrite fill_slots_nth by lia.
      replace ((0 <=? i) && (i <? 0 + BUF_COUNT))%nat with true; [reflexivity|].
      symmetry. apply andb_true_iff. split; [apply Nat.leb_le | apply Nat.ltb_lt];
        lia.
    - rewrite fill_slots_nth by lia.
      replace ((0 <=? i) && (i <? 0 + BUF_COUNT))%nat with true; [reflexivity|].
      symmetry. apply andb_true_iff. split; [apply Nat.leb_le | apply Nat.ltb_lt];
        lia. }
  repeat split.
Qed.

Lemma wait_async_submits_all_slots_witness :
  exists xs bs,
    let s' := wait_async_setup async_sample 0x4000 0x7000
                (async_of world_two_slots) in
    xfer (dev (base s')) = xs
    /\ xfer_buf (dev (base s')) = bs
    /\ (forall i, (i < BUF_COUNT)%nat ->
          nth i xs 0
          = slot_after (alloc_transfer async_sample)
              (xfer (dev world_two_slots)) i
          /\ nth i bs 0
             = slot_after (malloc_buffer async_sample)
                 (xfer_buf (dev world_two_slots)) i)
    /\ atrace s'
       = alloc_events AvAllocTransfer (alloc_transfer async_sample)
           (xfer (dev world_two_slots)) (seq 0 BUF_COUNT)
         ++ alloc_events (AvMallocBuffer BUF_LENGTH)
              (malloc_buffer async_sample) (xfer_buf (dev world_two_slots))
              (seq 0 BUF_COUNT)
         ++ submit_events xs bs (seq 0 BUF_COUNT)
    /\ cb (dev (base s')) = 0x4000
    /\ cb_ctx (dev (base s')) = 0x7000
    /\ run_async (dev (base s')) = 1
    /\ trace (base s') = trace world_two_slots.
Proof.
  apply (@wait_async_submits_all_slots async_sample 0x4000 0x7000
           world_two_slots); reflexivity.
Defined.

Lemma truthy_nonzero x : x <> 0 -> truthy x = true.
Proof. intros H. unfold truthy. apply negb_true_iff, Z.eqb_neq, H. Qed.

Lemma slot_after_nonzero alloc l i :
  alloc i <> 0 -> truthy (slot_after alloc l i) = true.
Proof.
  intros H. unfold slot_after.
  destruct (truthy (nth i l 0)) eqn:Hn; [exact Hn | apply truthy_nonzero, H].
Qed.

Lemma aadded_app s b evs : aadded s (mk_async_world b (atrace s ++ evs)) = evs.
Proof.
  unfold aadded. cbn.
  rewrite skipn_app, skipn_all, Nat.sub_diag. reflexivity.
Qed.

Lemma allocations_in_submit xs bs slots :
  allocations_in (submit_events xs bs slots) = [].
Proof.
  unfold allocations_in, submit_events.
  induction slots as [|i slots IH]; [reflexivity|]. cbn. exact IH.
Qed.

Lemma aadded_mk b atr b' evs :
  aadded (mk_async_world b atr) (mk_async_world b' (atr ++ evs)) = evs.
Proof.
  unfold aadded. cbn [atrace].
  rewrite skipn_app, skipn_all, Nat.sub_diag. reflexivity.
Qed.

Lemma setup_slots A fn c d t tr atr :
  xfer (dev (base (wait_async_setup A fn c
                     (mk_async_world (mk_world d t tr) atr))))
  = fill_slots (alloc_transfer A) (seq 0 BUF_COUNT) (xfer d)
  /\ xfer_buf (dev (base (wait_async_setup A fn c
                            (mk_async_world (mk_world d t tr) atr))))
     = fill_slots (malloc_buffer A) (seq 0 BUF_COUNT) (xfer_buf d).
Proof. rewrite wait_async_setup_run. split; reflexivity. Qed.

Lemma in_range_true i n :
  (i < n)%nat -> ((0 <=? i) && (i <? 0 + n))%nat = true.
Proof.
  intros H. apply andb_true_iff.
  split; [apply Nat.leb_le | apply Nat.ltb_lt]; lia.
Qed.

Lemma fill_slots_all alloc l i :
  List.length l = BUF_COUNT ->
  In i (seq 0 BUF_COUNT) ->
  nth i (fill_slots alloc (seq 0 BUF_COUNT) l) 0 = slot_after alloc l i.
Proof.
  intros Hl Hi. apply in_seq in Hi.
  rewrite fill_slots_nth by lia. rewrite in_range_true by lia. reflexivity.
Qed.

(** The setup on a handle all of whose slots are allocated. *)
Lemma setup_reuse A fn c d t tr atr :
  (forall i, In i (seq 0 BUF_COUNT) -> truthy (nth i (xfer d) 0) = true) ->
  (forall i, In i (seq 0 BUF_COUNT) -> truthy (nth i (xfer_buf d) 0) = true) ->
  wait_async_setup A fn c (mk_async_world (mk_world d t tr) atr)
  = mk_async_world
      (mk_world
         (mk_dev (ctx d) (devh d) (xfer d) (xfer_buf d) fn c 1 (tuner d)
            (rate d)) t tr)
      (atr ++ submit_events (xfer d) (xfer_buf d) (seq 0 BUF_COUNT)).
Proof.
  intros Hx Hb. rewrite wait_async_setup_run. cbv zeta.
  rewrite !fill_slots_id by assumption.
  rewrite !alloc_events_none by assumption.
  reflexivity.
Qed.

(** X23.  Allocation happens once: when every allocation of a first call succeeded,
    a later call of [rtlsdr_wait_async] on a handle that still has those
    slots allocates nothing, keeps every slot, and submits the same 32
    transfers with the same buffers again. *)
Theorem wait_async_allocates_once A A' fn c fn' c' w s2 :
  List.length (xfer (dev w)) = BUF_COUNT ->
  List.length (xfer_buf (dev w)) = BUF_COUNT ->
  (forall i, (i < BUF_COUNT)%nat ->
     alloc_transfer A i <> 0 /\ malloc_buffer A i <> 0) ->
  let s1 := wait_async_setup A fn c (async_of w) in
  xfer (dev (base s2)) = xfer (dev (base s1)) ->
  xfer_buf (dev (base s2)) = xfer_buf (dev (base s1)) ->
  let s3 := wait_async_setup A' fn' c' s2 in
  allocations_in (aadded s2 s3) = []
  /\ aadded s2 s3
     = submit_events (xfer (dev (base s1))) (xfer_buf (dev (base s1)))
         (seq 0 BUF_COUNT)
  /\ xfer (dev (base s3)) = xfer (dev (base s1))
  /\ xfer_buf (dev (base s3)) = xfer_buf (dev (base s1)).
Proof.
  intros Hx Hb Hok s1 Hx2 Hb2 s3. subst s1 s3.
  destruct w as [d t tr]. destruct s2 as [[d2 t2 tr2] atr2].
  unfold async_of in *.
  destruct (setup_slots A fn c d t tr []) as [E1 E2].
  rewrite E1 in *. rewrite E2 in *. clear E1 E2.
  assert (Hx2' : xfer d2
                 = fill_slots (alloc_transfer A) (seq 0 BUF_COUNT) (xfer d))
    by exact Hx2.
  assert (Hb2' : xfer_buf d2
                 = fill_slots (malloc_buffer A) (seq 0 BUF_COUNT) (xfer_buf d))
    by exact Hb2.
  clear Hx2 Hb2.
  rewrite setup_reuse.
  - rewrite aadded_mk. rewrite <- Hx2', <- Hb2'.
    split; [apply allocations_in_submit|]. repeat split.
  - intros i Hi. rewrite Hx2', fill_slots_all by assumption.
    apply slot_after_nonzero, (Hok i). apply in_seq in Hi. lia.
  - intros i Hi. rewrite Hb2', fill_slots_all by assumption.
    apply slot_after_nonzero, (Hok i). apply in_seq in Hi. lia.
Qed.

Lemma wait_async_allocates_once_witness :
  let s1 := wait_async_setup async_sample 0x4000 0x7000 (async_of world0) in
  let s3 := wait_async_setup async_idle 0x4100 0 s1 in
  allocations_in (aadded s1 s3) = []
  /\ aadded s1 s3
     = submit_events (xfer (dev (base s1))) (xfer_buf (dev (base s1)))
         (seq 0 BUF_COUNT)
  /\ xfer (dev (base s3)) = xfer (dev (base s1))
  /\ xfer_buf (dev (base s3)) = xfer_buf (dev (base s1)).
Proof.
  apply (@wait_async_allocates_once async_sample async_idle 0x4000 0x7000
           0x4100 0 world0
           (wait_async_setup async_sample 0x4000 0x7000 (async_of world0)));
    try reflexivity.
  intros i Hi. cbn [async_sample alloc_transfer malloc_buffer].
  unfold BUF_LENGTH. lia.
Defined.

Lemma handler_events_run_async d v t :
  handler_events (set_run_async d v) t = handler_events d t.
Proof. reflexivity. Qed.

(** What a poll's completions do to the world when a callback is registered:
    the handler runs for each, and the first cancellation clears the flag. *)
Lemma deliver_fold cs : forall d t tr atr,
  cb d <> 0 ->
  deliver_all cs (mk_async_world (mk_world d t tr) atr)
  = ADone tt
      (mk_async_world
         (mk_world
            (if cancels_in cs && truthy (run_async d)
             then set_run_async d 0 else d)
            t (tr ++ flat_map (fun c => handler_events d (fst c)) cs))
         (atr ++ map (fun c => AvCompletion (fst c)) cs)).
Proof.
  induction cs as [|[x cancels] cs IH]; intros d t tr atr Hcb.
  - cbn. now rewrite !app_nil_r.
  - cbn [deliver_all]. unfold deliver. cbn [fst snd]. unfold alog.
    cbn [base atrace]. rewrite libusb_callback_run by exact Hcb.
    unfold log. cbn [dev tuners trace].
    cbn [cancels_in existsb flat_map map fst snd].
    fold (cancels_in cs).
    destruct (status x) eqn:Hst;
      try (rewrite IH by exact Hcb; rewrite <- !app_assoc; cbn [orb];
           reflexivity).
    destruct cancels;
      [|rewrite IH by exact Hcb; rewrite <- !app_assoc; cbn [orb];
        reflexivity].
    unfold rtlsdr_cancel_async, bind, get_dev, put_dev, ret. cbn [dev].
    destruct (truthy (run_async d)) eqn:Hrun; cbn [outcome_world orb andb].
    + cbn [dev tuners trace]. rewrite IH by exact Hcb.
      rewrite <- !app_assoc.
      cbn [run_async set_run_async]. change (truthy 0) with false.
      rewrite andb_false_r. reflexivity.
    + rewrite IH by exact Hcb. rewrite <- !app_assoc.
      rewrite Hrun, andb_false_r. reflexivity.
Qed.

(** Without a cancellation the completions of a poll leave the device as it
    is, unless the handler faults. *)
Lemma deliver_all_quiet cs : forall d t tr atr,
  cancels_in cs = false ->
  (exists tr' atr',
      deliver_all cs (mk_async_world (mk_world d t tr) atr)
      = ADone tt (mk_async_world (mk_world d t tr') atr'))
  \/ (exists f s',
         deliver_all cs (mk_async_world (mk_world d t tr) atr) = AFault f s').
Proof.
  induction cs as [|[x cancels] cs IH]; intros d t tr atr Hc.
  - left. exists tr, atr. reflexivity.
  - cbn [cancels_in existsb fst snd] in Hc. fold (cancels_in cs) in Hc.
    apply orb_false_iff in Hc. destruct Hc as [Hx Hcs].
    cbn [deliver_all]. unfold deliver. cbn [fst snd]. unfold alog.
    cbn [base atrace].
    destruct (Z.eq_dec (cb d) 0) as [Hnull|Hcb].
    + destruct (status x) eqn:Hst;
        try (unfold _libusb_callback; rewrite Hst; unfold ret;
             apply IH; exact Hcs).
      rewrite libusb_callback_null by assumption.
      right. eexists. eexists. reflexivity.
    + rewrite libusb_callback_run by exact Hcb.
      unfold log. cbn [dev tuners trace].
      destruct (status x); try (apply IH; exact Hcs).
      rewrite Hx. apply IH. exact Hcs.
Qed.

Lemma poll_ends_false A k :
  poll_ends A k = false ->
  (poll_rc A k <? 0) = false /\ cancels_in (completions A k) = false.
Proof. unfold poll_ends. intros H. apply orb_false_iff in H. exact H. Qed.

(** The streaming trace of the polls [k .. k+n-1]. *)
Lemma wait_loop_quiet A n : forall fuel k r d t tr atr,
  cb d <> 0 ->
  truthy (run_async d) = true ->
  (forall j, (k <= j < k + n)%nat -> poll_ends A j = false) ->
  wait_loop A (n + fuel) k r (mk_async_world (mk_world d t tr) atr)
  = wait_loop A fuel (k + n)
      (match n with O => r | S n' => poll_rc A (k + n') end)
      (mk_async_world
         (mk_world d t
            (tr ++ flat_map
                     (fun j => flat_map (fun c => handler_events d (fst c))
                                 (completions A j))
                     (seq k n)))
         (atr ++ flat_map (poll_events A) (seq k n))).
Proof.
  induction n as [|n IH]; intros fuel k r d t tr atr Hcb Hrun Hq.
  - cbn [Nat.add seq flat_map]. rewrite Nat.add_0_r, !app_nil_r. reflexivity.
  - cbn [Nat.add wait_loop base dev]. rewrite Hrun.
    destruct (poll_ends_false A k) as [Hrc Hc]; [apply Hq; lia|].
    rewrite deliver_fold by exact Hcb. rewrite Hc. cbn [andb].
    unfold alog. cbn [base atrace]. rewrite Hrc.
    rewrite IH by (try assumption; intros j Hj; apply Hq; lia).
    cbn [seq flat_map]. unfold poll_events at 2.
    rewrite <- !app_assoc.
    replace (S k + n)%nat with (k + S n)%nat by lia.
    destruct n as [|n'].
    + rewrite Nat.add_0_r. reflexivity.
    + replace (S k + n')%nat with (k + S n')%nat by lia. reflexivity.
Qed.

Lemma wait_loop_stops A fuel k r d t tr atr :
  cb d <> 0 ->
  truthy (run_async d) = true ->
  (forall j, (j < k)%nat -> poll_ends A j = false) ->
  poll_ends A k = true ->
  (k + 1 < fuel)%nat ->
  wait_loop A fuel 0 r (mk_async_world (mk_world d t tr) atr)
  = Some
      (ADone (poll_rc A k)
         (mk_async_world
            (mk_world
               (if cancels_in (completions A k) then set_run_async d 0 else d)
               t
               (tr ++ flat_map
                        (fun j => flat_map (fun c => handler_events d (fst c))
                                    (completions A j))
                        (seq 0 (S k))))
            (atr ++ flat_map (poll_events A) (seq 0 (S k))))).
Proof.
  intros Hcb Hrun Hq Hend Hfuel.
  replace fuel with (k + S (S (fuel - k - 2)))%nat by lia.
  rewrite wait_loop_quiet by (try assumption; intros j Hj; apply Hq; lia).
  cbn [Nat.add]. set (r' := match k with O => r | S n' => poll_rc A n' end).
  clearbody r'.
  cbn [wait_loop base dev]. rewrite Hrun.
  rewrite deliver_fold by exact Hcb. rewrite Hrun, andb_true_r.
  unfold alog. cbn [base atrace dev].
  rewrite seq_S, !flat_map_app. cbn [Nat.add flat_map].
  rewrite !app_nil_r. unfold poll_events at 3. rewrite <- !app_assoc.
  destruct (poll_rc A k <? 0) eqn:Hrc; [reflexivity|].
  unfold poll_ends in Hend. rewrite Hrc in Hend. cbn [orb] in Hend.
  rewrite Hend. cbn [run_async set_run_async]. reflexivity.
Qed.

(** While no poll fails and nobody cancels, the loop does not return. *)
Lemma wait_loop_never_returns A :
  (forall j, poll_ends A j = false) ->
  forall fuel k r d t tr atr r' s',
    truthy (run_async d) = true ->
    wait_loop A fuel k r (mk_async_world (mk_world d t tr) atr)
    <> Some (ADone r' s').
Proof.
  intros Hq. induction fuel as [|fuel IH];
    intros k r d t tr atr r' s' Hrun; cbn [wait_loop base dev].
  - discriminate.
  - rewrite Hrun.
    destruct (poll_ends_false A k (Hq k)) as [Hrc Hc].
    destruct (deliver_all_quiet (completions A k) d t tr atr Hc)
      as [(tr1 & atr1 & ->)|(f & s1 & ->)]; [|discriminate].
    unfold alog. cbn [base atrace]. rewrite Hrc. apply IH. exact Hrun.
Qed.

Lemma polls_in_app a b : polls_in (a ++ b) = (polls_in a + polls_in b)%nat.
Proof. unfold polls_in. now rewrite filter_app, length_app. Qed.

Lemma polls_in_alloc mk alloc l slots :
  (forall p, match mk p with AvHandleEvents _ => False | _ => True end) ->
  polls_in (alloc_events mk alloc l slots) = 0%nat.
Proof.
  intros Hmk. unfold alloc_events.
  induction slots as [|i slots IH]; [reflexivity|]. cbn [flat_map].
  rewrite polls_in_app, IH.
  destruct (truthy (nth i l 0)); [reflexivity|].
  specialize (Hmk (alloc i)). unfold polls_in. cbn.
  destruct (mk (alloc i)); try reflexivity. contradiction.
Qed.

Lemma polls_in_submit xs bs slots : polls_in (submit_events xs bs slots) = 0%nat.
Proof.
  unfold submit_events.
  induction slots as [|i slots IH]; [reflexivity|]. exact IH.
Qed.

Lemma polls_in_poll_events A k : polls_in (poll_events A k) = 1%nat.
Proof.
  unfold poll_events. rewrite polls_in_app.
  induction (completions A k) as [|c cs IH]; [reflexivity|]. exact IH.
Qed.

Lemma polls_in_polls A n : forall a,
  polls_in (flat_map (poll_events A) (seq a n)) = n.
Proof.
  induction n as [|n IH]; intros a; [reflexivity|].
  cbn [seq flat_map]. rewrite polls_in_app, polls_in_poll_events, IH.
  reflexivity.
Qed.

(** X24.  With a callback registered, the event loop of [rtlsdr_wait_async]
    ends with the first poll that fails or during which the user cancels, and
    the function returns that poll's return code.  Until then the handler runs for every transfer libusb
    completes, in order.  After a failed poll without a cancellation the flag
    [run_async] is still 1, so that a later [rtlsdr_cancel_async] returns 0
    although no loop is running; after a cancellation it returns -2. *)
Theorem wait_async_stops A fuel fn c w k :
  fn <> 0 ->
  (forall j, (j < k)%nat -> poll_ends A j = false) ->
  poll_ends A k = true ->
  (k + 1 < fuel)%nat ->
  exists s',
    rtlsdr_wait_async A fuel PTR fn c (async_of w)
    = Some (ADone (poll_rc A k) s')
    /\ polls_in (atrace s') = S k
    /\ added w (base s') = polls_handler_events A (set_cb (dev w) fn c) (S k)
    /\ run_async (dev (base s'))
       = (if cancels_in (completions A k) then 0 else 1)
    /\ outcome_value (rtlsdr_cancel_async PTR (base s'))
       = Some (if cancels_in (completions A k) then -2 else 0).
Proof.
  intros Hfn Hq Hend Hfuel. destruct w as [d t tr].
  unfold rtlsdr_wait_async, async_of. rewrite wait_async_setup_run. cbv zeta.
  rewrite wait_loop_stops with (k := k) by (try assumption; reflexivity).
  eexists. split; [reflexivity|].
  cbn [base atrace dev]. split; [|split; [|split]].
  - cbn [app]. rewrite !polls_in_app, !polls_in_alloc, polls_in_submit,
      polls_in_polls by (intros p; exact I). reflexivity.
  - rewrite added_app. reflexivity.
  - destruct (cancels_in (completions A k)); reflexivity.
  - destruct (cancels_in (completions A k)); reflexivity.
Qed.

Lemma wait_async_stops_witness :
  (exists s',
      rtlsdr_wait_async async_sample 3 PTR 0x4000 0x7000 (async_of world0)
      = Some (ADone 0 s')
      /\ polls_in (atrace s') = 2%nat
      /\ added world0 (base s')
         = [ EvUserCallback 0x4000 0x900000 262144 0x7000;
             EvSubmitTransfer
               (mk_transfer 0x5000 LIBUSB_TRANSFER_COMPLETED 0x900000 262144);
             EvUserCallback 0x4000 0x980000 512 0x7000;
             EvSubmitTransfer
               (mk_transfer 0x5200 LIBUSB_TRANSFER_COMPLETED 0x980000 512) ]
      /\ run_async (dev (base s')) = 0
      /\ outcome_value (rtlsdr_cancel_async PTR (base s')) = Some (-2))
  /\ (exists s',
         rtlsdr_wait_async async_failing 3 PTR 0x4000 0x7000 (async_of world0)
         = Some (ADone (-4) s')
         /\ polls_in (atrace s') = 2%nat
         /\ added world0 (base s')
            = [ EvUserCallback 0x4000 0x900000 262144 0x7000;
                EvSubmitTransfer
                  (mk_transfer 0x5000 LIBUSB_TRANSFER_COMPLETED 0x900000
                     262144) ]
         /\ run_async (dev (base s')) = 1
         /\ outcome_value (rtlsdr_cancel_async PTR (base s')) = Some 0).
Proof.
  split.
  - apply (@wait_async_stops async_sample 3 0x4000 0x7000 world0 1);
      [lia | intros [|j] Hj; [reflexivity | lia] | reflexivity | lia].
  - apply (@wait_async_stops async_failing 3 0x4000 0x7000 world0 1);
      [lia | intros [|j] Hj; [reflexivity | lia] | reflexivity | lia].
Defined.

(** X25.  Without a failing poll and without a cancellation
    [rtlsdr_wait_async] never returns: no number of iterations yields a
    return value, and with a callback registered none yields any result at
    all (with a NULL callback the run may stop in the fault of the first
    completed transfer). *)
Theorem wait_async_blocks A fn c s :
  (forall j, poll_ends A j = false) ->
  (forall fuel r s',
      rtlsdr_wait_async A fuel PTR fn c s <> Some (ADone r s'))
  /\ (fn <> 0 -> forall fuel, rtlsdr_wait_async A fuel PTR fn c s = None).
Proof.
  intros Hq. destruct s as [[d t tr] atr].
  unfold rtlsdr_wait_async. rewrite wait_async_setup_run. cbv zeta. split.
  - intros fuel r s'. apply wait_loop_never_returns; [exact Hq | reflexivity].
  - intros Hfn fuel. rewrite <- (Nat.add_0_r fuel) at 1.
    rewrite wait_loop_quiet by (try reflexivity; try exact Hfn;
                                intros j _; apply Hq).
    reflexivity.
Qed.

Lemma wait_async_blocks_witness :
  rtlsdr_wait_async async_idle 1000 PTR 0x4000 0x7000 (async_of world0) = None.
Proof.
  apply (proj2 (@wait_async_blocks async_idle 0x4000 0x7000 (async_of world0)
                  (fun j => eq_refl))).
  discriminate.
Defined.

(** X26.  Streaming and closing fit together: on a freshly opened handle with a
    tuner, when a callback is registered, every allocation succeeds and the
    event loop ends,
    [rtlsdr_close] frees exactly the 32 transfers and the 32 buffers that
    [rtlsdr_wait_async] allocated, each once, slot by slot. *)
Theorem close_frees_streaming_slots E A fuel fn c w t k :
  xfer (dev w) = repeat 0 BUF_COUNT ->
  xfer_buf (dev w) = repeat 0 BUF_COUNT ->
  tuner (dev w) = Some t ->
  (forall i, (i < BUF_COUNT)%nat ->
     alloc_transfer A i <> 0 /\ malloc_buffer A i <> 0) ->
  fn <> 0 ->
  (forall j, (j < k)%nat -> poll_ends A j = false) ->
  poll_ends A k = true ->
  (k + 1 < fuel)%nat ->
  exists s' w',
    rtlsdr_wait_async A fuel PTR fn c (async_of w)
    = Some (ADone (poll_rc A k) s')
    /\ allocations_in (atrace s')
       = map (fun i => AvAllocTransfer (alloc_transfer A i)) (seq 0 BUF_COUNT)
         ++ map (fun i => AvMallocBuffer BUF_LENGTH (malloc_buffer A i))
              (seq 0 BUF_COUNT)
    /\ rtlsdr_close E PTR (base s') = Done 0 w'
    /\ frees_of (added (base s') w')
       = flat_map
           (fun i => [ EvFreeTransfer (alloc_transfer A i);
                       EvFreeBuffer (malloc_buffer A i) ])
           (seq 0 BUF_COUNT).
Proof.
  intros Hx Hb Ht Hok Hfn Hq Hend Hfuel. destruct w as [d tb tr].
  cbn [dev] in Hx, Hb, Ht.
  unfold rtlsdr_wait_async, async_of. rewrite wait_async_setup_run. cbv zeta.
  rewrite wait_loop_stops with (k := k) by (try assumption; reflexivity).
  set (xs := fill_slots (alloc_transfer A) (seq 0 BUF_COUNT) (xfer d)).
  set (bs := fill_slots (malloc_buffer A) (seq 0 BUF_COUNT) (xfer_buf d)).
  assert (Hzero : forall i, truthy (nth i (repeat 0 BUF_COUNT) 0) = false).
  { intros i. rewrite nth_repeat. reflexivity. }
  assert (Hxs : forall i, In i (seq 0 BUF_COUNT) ->
                          nth i xs 0 = alloc_transfer A i).
  { intros i Hi. apply in_seq in Hi. unfold xs.
    rewrite fill_slots_nth by (rewrite Hx, repeat_length; lia).
    replace ((0 <=? i) && (i <? 0 + BUF_COUNT))%nat with true
      by (symmetry; apply andb_true_iff;
          split; [apply Nat.leb_le | apply Nat.ltb_lt]; lia).
    unfold slot_after. rewrite Hx, Hzero. reflexivity. }
  assert (Hbs : forall i, In i (seq 0 BUF_COUNT) ->
                          nth i bs 0 = malloc_buffer A i).
  { intros i Hi. apply in_seq in Hi. unfold bs.
    rewrite fill_slots_nth by (rewrite Hb, repeat_length; lia).
    replace ((0 <=? i) && (i <? 0 + BUF_COUNT))%nat with true
      by (symmetry; apply andb_true_iff;
          split; [apply Nat.leb_le | apply Nat.ltb_lt]; lia).
    unfold slot_after. rewrite Hb, Hzero. reflexivity. }
  match goal with
  | |- exists s' w', Some (ADone _ ?s) = _ /\ _ =>
      exists s; set (s' := s)
  end.
  assert (Htun : tuner (dev (base s')) = Some t).
  { unfold s'. cbn [base dev].
    destruct (cancels_in (completions A k)); exact Ht. }
  assert (Hxf : xfer (dev (base s')) = xs /\ xfer_buf (dev (base s')) = bs).
  { unfold s'. cbn [base dev].
    destruct (cancels_in (completions A k)); split; reflexivity. }
  eexists. split; [reflexivity|]. split; [|split].
  - unfold s'. cbn [atrace app]. unfold allocations_in.
    rewrite !filter_app.
    assert (Hpolls : forall n a,
               filter (fun e => match e with
                                | AvAllocTransfer _ | AvMallocBuffer _ _ => true
                                | _ => false
                                end) (flat_map (poll_events A) (seq a n)) = []).
    { induction n as [|n IH]; intros a; [reflexivity|].
      cbn [seq flat_map]. rewrite filter_app, IH, app_nil_r.
      unfold poll_events. rewrite filter_app. cbn [filter app].
      rewrite app_nil_r.
      induction (completions A a) as [|x l IHl]; [reflexivity|]. exact IHl. }
    rewrite Hpolls, app_nil_r.
    fold (allocations_in (submit_events xs bs (seq 0 BUF_COUNT))).
    rewrite allocations_in_submit, app_nil_r.
    unfold alloc_events. rewrite Hx, Hb.
    assert (Hall : forall (mk : Z -> async_event) alloc slots,
               (forall p, match mk p with
                          | AvAllocTransfer _ | AvMallocBuffer _ _ => True
                          | _ => False
                          end) ->
               filter (fun e => match e with
                                | AvAllocTransfer _ | AvMallocBuffer _ _ => true
                                | _ => false
                                end)
                 (flat_map (fun i => if truthy (nth i (repeat 0 BUF_COUNT) 0)
                                     then [] else [mk (alloc i)]) slots)
               = map (fun i => mk (alloc i)) slots).
    { intros mk alloc slots Hmk.
      induction slots as [|i slots IH]; [reflexivity|].
      cbn [flat_map map]. rewrite Hzero. cbn [app filter].
      specialize (Hmk (alloc i)).
      destruct (mk (alloc i)); try contradiction; rewrite IH; reflexivity. }
    rewrite !Hall by (intros p; exact I). reflexivity.
  - apply (close_run E (base s') Htun).
  - unfold log. rewrite added_app. unfold close_events.
    rewrite !frees_of_app, frees_of_free_events.
    change (frees_of (repeater_events 1)) with (@nil event).
    change (frees_of (repeater_events 0)) with (@nil event).
    cbn [frees_of filter app]. rewrite app_nil_r.
    unfold free_events. destruct Hxf as [-> ->].
    apply flat_map_ext_on. intros i Hi.
    rewrite (Hxs i Hi), (Hbs i Hi).
    apply in_seq in Hi.
    rewrite !truthy_nonzero by (apply (Hok i); lia). reflexivity.
Qed.

Lemma close_frees_streaming_slots_witness :
  exists s' w',
    rtlsdr_wait_async async_sample 3 PTR 0x4000 0x7000 (async_of world_opened)
    = Some (ADone (poll_rc async_sample 1) s')
    /\ allocations_in (atrace s')
       = map (fun i => AvAllocTransfer (alloc_transfer async_sample i))
           (seq 0 BUF_COUNT)
         ++ map (fun i => AvMallocBuffer BUF_LENGTH
                            (malloc_buffer async_sample i))
              (seq 0 BUF_COUNT)
    /\ rtlsdr_close env_silent PTR (base s') = Done 0 w'
    /\ frees_of (added (base s') w')
       = flat_map
           (fun i => [ EvFreeTransfer (alloc_transfer async_sample i);
                       EvFreeBuffer (malloc_buffer async_sample i) ])
           (seq 0 BUF_COUNT).
Proof.
  apply (@close_frees_streaming_slots env_silent async_sample 3 0x4000 0x7000
           world_opened RTLSDR_TUNER_E4000 1);
    [ reflexivity | reflexivity | reflexivity
    | intros i Hi; cbn [async_sample alloc_transfer malloc_buffer];
      unfold BUF_LENGTH; lia
    | lia
    | intros [|j] Hj; [reflexivity | lia]
    | reflexivity
    | lia ].
Defined.

(** C10, on the code.  [rtlsdr_cancel_async] returns -1 for a NULL handle.
    Otherwise it decides on the flag [run_async] alone: with the flag at 0 it
    returns -2 and changes nothing, with the flag set it clears it and
    returns 0; in each case it returns at once, without a call to libusb, so
    no transfer in flight is cancelled.  The flag is set when
    [rtlsdr_wait_async] enters its loop and cleared by a cancellation only:
    when the loop ends because a poll failed, [rtlsdr_wait_async] returns the
    error and leaves the flag at 1.  On that handle, which is not streaming
    any more, [rtlsdr_cancel_async] returns 0 and changes the flag, where a
    handle that is not streaming is to get -2 and no change. *)
Theorem cancel_async_stale_flag (w : world) :
  rtlsdr_cancel_async NULL w = Done (-1) w
  /\ (run_async (dev w) = 0 -> rtlsdr_cancel_async PTR w = Done (-2) w)
  /\ (run_async (dev w) <> 0 ->
      rtlsdr_cancel_async PTR w
      = Done 0 (mk_world (set_run_async (dev w) 0) (tuners w) (trace w)))
  /\ (forall h, exists r w',
         rtlsdr_cancel_async h w = Done r w'
         /\ trace w' = trace w /\ tuners w' = tuners w)
  /\ (forall A fuel fn c k,
         fn <> 0 ->
         (forall j, (j < k)%nat -> poll_ends A j = false) ->
         poll_rc A k < 0 ->
         cancels_in (completions A k) = false ->
         (k + 1 < fuel)%nat ->
         exists s',
           rtlsdr_wait_async A fuel PTR fn c (async_of w)
           = Some (ADone (poll_rc A k) s')
           /\ run_async (dev (base s')) = 1
           /\ rtlsdr_cancel_async PTR (base s')
              = Done 0
                  (mk_world (set_run_async (dev (base s')) 0)
                     (tuners (base s')) (trace (base s')))).
Proof.
  split; [reflexivity|]. split; [|split; [|split]].
  - intros H. unfold rtlsdr_cancel_async, truthy. run. rewrite H. reflexivity.
  - intros H. unfold rtlsdr_cancel_async, truthy. run.
    destruct (Z.eqb_spec (run_async (dev w)) 0); [contradiction|].
    reflexivity.
  - intros [|]; unfold rtlsdr_cancel_async, truthy; run.
    + exists (-1), w. repeat split.
    + destruct (run_async (dev w) =? 0); cbn [negb]; eexists; eexists;
        (split; [reflexivity | split; reflexivity]).
  - intros A fuel fn c k Hfn Hq Hrc Hcancel Hfuel.
    assert (Hend : poll_ends A k = true).
    { unfold poll_ends. apply orb_true_iff. left. apply Z.ltb_lt. exact Hrc. }
    destruct w as [d t tr].
    unfold rtlsdr_wait_async, async_of. rewrite wait_async_setup_run.
    cbv zeta.
    rewrite wait_loop_stops with (k := k) by (try assumption; reflexivity).
    rewrite Hcancel.
    eexists. split; [reflexivity|]. split; reflexivity.
Qed.

Lemma cancel_async_stale_flag_witness :
  exists s',
    rtlsdr_wait_async async_failing 3 PTR 0x4000 0x7000 (async_of world0)
    = Some (ADone (-4) s')
    /\ run_async (dev (base s')) = 1
    /\ rtlsdr_cancel_async PTR (base s')
       = Done 0
           (mk_world (set_run_async (dev (base s')) 0) (tuners (base s'))
              (trace (base s'))).
Proof.
  apply (proj2 (proj2 (proj2 (proj2 (cancel_async_stale_flag world0))))
           async_failing 3%nat 0x4000 0x7000 1%nat);
    [ lia | intros [|j] Hj; [reflexivity | lia] | reflexivity | reflexivity
    | lia ].
Defined.

(* ------------------------------------------------------------------ *)
(** ** What reaches the chip drivers *)

Lemma call_set_bw_request E t bw w :
  exists rc,
    call_tuner E t m_set_bw bw w
    = Done rc
        (log w [EvTunerMethod t m_set_bw bw; set_bw_request E (dev w) t bw]).
Proof.
  destruct t; unfold call_tuner, tuner_fn, e4k_set_bw, fc0012_set_bw,
    fc0013_set_bw, fc2580_set_bw, driver_call, set_bw_request; run;
    rewrite <- app_assoc; eexists; reflexivity.
Qed.

Lemma driver_calls_app a b : driver_calls (a ++ b) = driver_calls a ++ driver_calls b.
Proof. apply filter_app. Qed.

(** X27.  Whatever rate is asked for, [rtlsdr_set_sample_rate] makes one call
    into a chip driver, and the rate reaches it only on the FC0012 and FC0013:
    the E4000 is always set to 8 MHz and the FC2580 to mode 1.  The FC0012
    goes through the FC0013 driver, like the FC0013, with a bandwidth of whole
    MHz of the rate, which is at most 3, and with a frequency that is not the
    tuned one: it is read through a cast of the device pointer to a tuner
    pointer, which finds the low half of transfer slot 3 there, converted
    from [int] to [unsigned long] and divided by 1000. *)
Theorem set_sample_rate_driver_request E w t r :
  tuner (dev w) = Some t ->
  28125 < r <= 4294967295 ->
  exists w',
    rtlsdr_set_sample_rate E PTR r w = Done 0 w'
    /\ driver_calls (added w w')
       = [set_bw_request E (dev w) t (Z.min r MAX_SAMP_RATE)]
    /\ 0 <= Z.quot (Z.min r MAX_SAMP_RATE) 1000000 <= 3.
Proof.
  intros Ht Hr.
  assert (Hmin : clamp_rate r = Z.min r MAX_SAMP_RATE).
  { destruct (Z.le_gt_cases r MAX_SAMP_RATE) as [Hle|Hgt].
    - rewrite clamp_rate_small by (unfold MAX_SAMP_RATE in *; lia). lia.
    - rewrite clamp_rate_large by lia. lia. }
  pose proof (clamp_rate_range Hr) as Hc.
  pose proof (crystal_quot_bounds Hc) as Hqr.
  destruct (ratio_facts Hc) as (Hb & _ & _ & _ & _).
  set (q := crystal_2_22 / clamp_rate r) in *.
  assert (Hq : crystal_quot (clamp_rate r) = Some q).
  { unfold crystal_quot.
    replace (clamp_rate r =? 0) with false by (symmetry; apply Z.eqb_neq; lia).
    reflexivity. }
  assert (Hexact : crystal_2_22 / clear_low2 q = clamp_rate r)
    by (apply real_rate_exact; exact Hc).
  assert (Hpos : 0 < clear_low2 q) by lia.
  unfold rtlsdr_set_sample_rate. cbv zeta. fold (clamp_rate r).
  rewrite Hq. unfold uint32_of_integral, uint32_value.
  replace ((0 <=? q) && (q <=? 4294967295)) with true
    by (symmetry; apply andb_true_intro; split; apply Z.leb_le; lia).
  unfold bind, ret, get_dev, put_dev. rewrite Ht.
  unfold crystal_quot, int_of_integral, int_value.
  replace (clear_low2 q =? 0) with false by (symmetry; apply Z.eqb_neq; lia).
  rewrite Hexact.
  replace ((-2147483648 <=? clamp_rate r) && (clamp_rate r <=? 2147483647))
    with true
    by (symmetry; apply andb_true_intro; unfold MAX_SAMP_RATE in Hc;
        split; apply Z.leb_le; lia).
  destruct (call_set_bw_request E t (clamp_rate r) w) as (rc & Hcall).
  unfold ret. rewrite Hcall. rewrite !demod_write_reg_run.
  eexists. split; [reflexivity|].
  unfold log. cbn [dev tuners trace]. rewrite <- !app_assoc, added_app.
  rewrite Hmin. split.
  - rewrite !driver_calls_app.
    destruct t; reflexivity.
  - unfold MAX_SAMP_RATE.
    split; [apply Z.quot_pos; lia|].
    assert (Z.quot (Z.min r 3200000) 1000000 < 4)
      by (apply Z.quot_lt_upper_bound; lia).
    lia.
Qed.

Lemma set_sample_rate_driver_request_witness :
  exists w',
    rtlsdr_set_sample_rate env_fc0012 PTR 2048000 world_fc0012_streamed
    = Done 0 w'
    /\ driver_calls (added world_fc0012_streamed w')
       = [EvDriver FC0013_SetFrequency [18446744073575333; 2]].
Proof.
  destruct (@set_sample_rate_driver_request env_fc0012 world_fc0012_streamed
              RTLSDR_TUNER_FC0012 2048000 eq_refl ltac:(lia))
    as (w' & Hrun & Hcalls & _).
  exists w'. split; [exact Hrun|]. rewrite Hcalls. reflexivity.
Defined.

(** X28.  Tuning an FC0012 first switches its band filter: with the I2C repeater
    open, the [tune] method rewrites GPO with bit 6 set exactly when the
    corrected frequency is above 300 MHz, and only then asks the driver for
    the frequency in kHz with a bandwidth of 6. *)
Theorem fc0012_tune_selects_band E w fq f :
  tuner (dev w) = Some RTLSDR_TUNER_FC0012 ->
  int_value (corrected_freq (u32 fq)
               (corr (row (tuners w) RTLSDR_TUNER_FC0012))) = Some f ->
  exists b r w',
    rtlsdr_set_center_freq E PTR fq w = Done r w'
    /\ added w w'
       = repeater_events 1
         ++ EvTunerMethod RTLSDR_TUNER_FC0012 m_tune f
         :: gpio_bit_events b
         ++ [EvDriver FC0012_SetFrequency [Z.quot f 1000; 6]]
         ++ repeater_events 0
    /\ Z.testbit b 6 = (f >? 300000000).
Proof.
  intros Ht Hf.
  unfold rtlsdr_set_center_freq. cbv zeta.
  unfold bind at 1. unfold get_dev at 1. rewrite Ht.
  unfold bind at 1. rewrite set_i2c_repeater_run.
  unfold bind at 1. unfold get_row at 1. cbn [tuners log].
  unfold bind at 1. unfold int_of_integral. rewrite Hf. unfold ret at 1.
  set (w1 := log w (repeater_events 1)).
  assert (Hg : 0 <= 6 < 8) by lia.
  destruct (@set_gpio_bit_run E 6 (if f >? 300000000 then 1 else 0)
              (log w1 [EvTunerMethod RTLSDR_TUNER_FC0012 m_tune f]) Hg)
    as (b & Hgpio & Hbit).
  assert (Hcall :
    exists r,
      call_tuner E RTLSDR_TUNER_FC0012 m_tune f w1
      = Done r
          (log w1 (EvTunerMethod RTLSDR_TUNER_FC0012 m_tune f
                   :: gpio_bit_events b
                   ++ [EvDriver FC0012_SetFrequency [Z.quot f 1000; 6]]))).
  { unfold call_tuner, tuner_fn, fc0012_tune. cbv zeta.
    unfold bind at 1. unfold emit at 1.
    change (mk_world (dev w1) (tuners w1)
              (trace w1 ++ [EvTunerMethod RTLSDR_TUNER_FC0012 m_tune f]))
      with (log w1 [EvTunerMethod RTLSDR_TUNER_FC0012 m_tune f]).
    rewrite (bind_done _ Hgpio).
    unfold driver_call. run. eexists.
    rewrite <- !app_assoc. reflexivity. }
  destruct Hcall as (r & Hcall).
  exists b, r.
  unfold bind at 1. rewrite Hcall.
  unfold bind at 1. rewrite set_i2c_repeater_run.
  destruct (r =? 0); run;
    (eexists; split; [reflexivity|]; split;
     [ unfold w1, log; cbn [trace dev tuners]; rewrite <- !app_assoc;
       rewrite added_app; reflexivity
     | rewrite Hbit; destruct (f >? 300000000); reflexivity ]).
Qed.

Lemma fc0012_tune_selects_band_witness :
  exists b r w',
    rtlsdr_set_center_freq env_fc0012 PTR 433920000 world_fc0012 = Done r w'
    /\ added world_fc0012 w'
       = repeater_events 1
         ++ EvTunerMethod RTLSDR_TUNER_FC0012 m_tune 433920000
         :: gpio_bit_events b
         ++ [EvDriver FC0012_SetFrequency [Z.quot 433920000 1000; 6]]
         ++ repeater_events 0
    /\ Z.testbit b 6 = (433920000 >? 300000000).
Proof.
  apply (@fc0012_tune_selects_band env_fc0012 world_fc0012 433920000 433920000);
    [reflexivity | vm_compute; reflexivity].
Defined.
